(** * skforecast: recursive and direct autoregressive forecasters

    A shallow embedding of [ForecasterAutoreg] and of the prediction side of
    [ForecasterAutoregMultiVariate], with the properties of the lag matrix,
    the recursive engine, the residual pools and the bootstrapping layer.

    Conventions of the embedding.
    - Python [int] is [Z]; a 1-D numpy array is a [list]; a 2-D array is
      a list of rows, except where the code fills it column by column.
    - Floating-point values are elements of an arbitrary carrier [V] with a
      [nan] placeholder, addition and subtraction (class [Numeric]); no
      rounding is modelled.
    - A raised exception is the [Raise] branch of [result]; a method that
      assigns to [self] returns the new forecaster next to its result, and
      the assignments done before a [raise] are kept, as in Python.
    - pandas indexes, column names, dates and version strings are not
      modelled: the methods work on the positional values.
    - [fit_kwargs] is empty; the index handed to [weight_func] is the
      list of the positions of the training rows in the series. *)

From Stdlib Require Import ZArith QArith Qround Lia.
From stdpp Require Import base list gmap strings sorting.

Local Open Scope Z_scope.

(** ** Exceptions and the result type *)

Inductive exn : Type :=
| ValueError (site : string)
| TypeError (site : string)
| IndexError
| KeyError (key : Z)
| NameKeyError (name : string)
| UnboundLocalError
| AttributeError
| NotFittedError
| InputError (code : Z).

Inductive result (A : Type) : Type :=
| Ok (a : A)
| Raise (e : exn).

Arguments Ok {A} a.
Arguments Raise {A} e.

#[global] Instance result_ret : MRet result := fun _ a => Ok a.
#[global] Instance result_bind : MBind result := fun _ _ k m =>
  match m with
  | Ok a => k a
  | Raise e => Raise e
  end.
#[global] Instance result_fmap : FMap result := fun _ _ g m =>
  match m with
  | Ok a => Ok (g a)
  | Raise e => Raise e
  end.

Definition of_option {A} (e : exn) (o : option A) : result A :=
  match o with
  | Some a => Ok a
  | None => Raise e
  end.


(** [mapM]: a list comprehension whose body may raise. *)
Fixpoint mapM {A B} (g : A → result B) (l : list A) : result (list B) :=
  match l with
  | [] => Ok []
  | x :: l' => y ← g x; ys ← mapM g l'; Ok (y :: ys)
  end.

(** [foldM]: a [for] loop over [l] threading the loop state [s]. *)
Fixpoint foldM {A S} (body : S → A → result S) (l : list A) (s : S) : result S :=
  match l with
  | [] => Ok s
  | x :: l' => s' ← body s x; foldM body l' s'
  end.

(** ** Python and numpy primitives *)

Module Py.

(** [len(l)] as an [int]. *)
Definition len {A} (l : list A) : Z := Z.of_nat (length l).

(** [range(n)]. *)
Definition range (n : Z) : list Z := seqZ 0 n.

(** [range(a, b)]. *)
Definition range2 (a b : Z) : list Z := seqZ a (b - a).

(** Position denoted by the index [j] in a sequence of length [n]:
    negative indexes count from the end; out of range is [None]. *)
Definition norm_index (n j : Z) : option nat :=
  if decide (0 ≤ j < n) then Some (Z.to_nat j)
  else if decide (- n ≤ j < 0) then Some (Z.to_nat (n + j))
  else None.

(** [l[j]]: raises [IndexError] out of range. *)
Definition getitem {A} (l : list A) (j : Z) : result A :=
  match norm_index (len l) j with
  | Some p => of_option IndexError (l !! p)
  | None => Raise IndexError
  end.

(** [l[j] = x] on a numpy array. *)
Definition setitem {A} (l : list A) (j : Z) (x : A) : result (list A) :=
  match norm_index (len l) j with
  | Some p => Ok (<[p := x]> l)
  | None => Raise IndexError
  end.

(** [l[js]] with an integer array [js] (fancy indexing). *)
Definition take_indices {A} (l : list A) (js : list Z) : result (list A) :=
  mapM (getitem l) js.

(** A slice bound clamped the way Python clamps it. *)
Definition clamp (n b : Z) : Z :=
  if decide (b < 0) then Z.max 0 (n + b) else Z.min b n.

(** [l[a:b]]. *)
Definition slice {A} (l : list A) (a b : Z) : list A :=
  let a' := clamp (len l) a in
  let b' := clamp (len l) b in
  take (Z.to_nat (b' - a')) (drop (Z.to_nat a') l).

(** [l[a:]]. *)
Definition slice_from {A} (l : list A) (a : Z) : list A :=
  drop (Z.to_nat (clamp (len l) a)) l.

(** [l[:b]]. *)
Definition slice_to {A} (l : list A) (b : Z) : list A :=
  take (Z.to_nat (clamp (len l) b)) l.

(** [np.full(shape=n, fill_value=x)]: a negative shape raises. *)
Definition full {A} (n : Z) (x : A) : result (list A) :=
  if decide (n < 0) then Raise (ValueError "negative dimensions are not allowed")
  else Ok (replicate (Z.to_nat n) x).

(** [max(l)] of a list of [int]: raises on the empty list. *)
Definition max_list (l : list Z) : result Z :=
  match l with
  | [] => Raise (ValueError "max() arg is an empty sequence")
  | x :: l' => Ok (foldl Z.max x l')
  end.

End Py.

(** ** Insertion-ordered dictionaries keyed by [int]

    [in_sample_residuals_by_bin_] and its siblings are Python [dict]s whose
    [values()] are concatenated in insertion order, so they are association
    lists here: one entry per key, a new key goes last. *)

Module Dict.

Abbreviation t A := (list (Z * A)) (only parsing).

Fixpoint get {A} (d : t A) (k : Z) : option A :=
  match d with
  | [] => None
  | (k', v) :: d' => if decide (k' = k) then Some v else get d' k
  end.

Definition mem {A} (d : t A) (k : Z) : bool := bool_decide (is_Some (get d k)).

Fixpoint set {A} (d : t A) (k : Z) (v : A) : t A :=
  match d with
  | [] => [(k, v)]
  | (k', v') :: d' => if decide (k' = k) then (k, v) :: d' else (k', v') :: set d' k v
  end.

Definition keys {A} (d : t A) : list Z := d.*1.
Definition values {A} (d : t A) : list A := d.*2.

(** [d[k]]: raises [KeyError]. *)
Definition getitem {A} (d : t A) (k : Z) : result A :=
  of_option (KeyError k) (get d k).

(** [for k, v in d.items(): d[k] = g k v]: every value is replaced in
    place, the keys and their order stay. *)
Definition map_items {A B} (g : Z → A → B) (d : t A) : t B :=
  (λ kv, (kv.1, g kv.1 kv.2)) <$> d.

End Dict.

(** ** External collaborators

    The estimator, the transformers, the quantile discretizer and the random
    generator are libraries outside the repository; each is an interface the
    forecaster is parametric in. *)

Abbreviation matrix V := (list (list V)) (only parsing).

Class Numeric (V : Type) : Type := {
  nan : V;
  zero : V;
  add : V → V → V;
  sub : V → V → V;
  isnan : V → bool;
  (** [a < b] and [a == b] on two values; both are false on [nan]. *)
  lessb : V → V → bool;
  equalb : V → V → bool
}.

(** A scikit-learn regressor. [reg_fit r X y sample_weight] is [r.fit],
    with or without the keyword [sample_weight]; [reg_predict r x] is
    [r.predict] on the single row [x]; on a matrix the prediction is taken
    row by row. *)
Class Regressor (V R : Type) : Type := {
  reg_fit : R → matrix V → list V → option (list V) → R;
  reg_predict : R → list V → V
}.

(** A scikit-learn transformer, working on 2-D arrays. *)
Class Transformer (V T : Type) : Type := {
  tr_fit : T → matrix V → T;
  tr_transform : T → matrix V → matrix V;
  tr_inverse_transform : T → matrix V → matrix V
}.

(** [sklearn.preprocessing.KBinsDiscretizer] with [encode='ordinal'] on one
    feature: [bin_edges_] is [binner.bin_edges_[0]]; [binner_is_fitted]
    is what [check_is_fitted] looks at. *)
Class Discretizer (V B : Type) : Type := {
  binner_is_fitted : B → bool;
  binner_fit : B → list V → B;
  binner_transform : B → V → Z;
  bin_edges_ : B → list V
}.

(** [numpy.random.Generator]: [default_rng seed] builds a generator;
    [rng_choice g a size replace] is [g.choice(a, size, replace)] on a
    population it accepts, with the generator after the draw;
    [rng_integers g low high size] is [g.integers(low, high, size)]. *)
Class Generator (V G : Type) : Type := {
  default_rng : Z → G;
  rng_choice : G → list V → nat → bool → G * list V;
  rng_integers : G → Z → Z → nat → G * list Z
}.

Section Collaborators.
Context {V G T : Type} `{!Numeric V, !Generator V G, !Transformer V T}.

(** [rng.choice(a, size, replace)]: numpy raises [ValueError] when [a] is
    not an array, when it is empty and samples are requested, and when
    more samples than values are requested without replacement. *)
Definition choice (g : G) (a : option (list V)) (size : Z) (replace : bool)
  : result (G * list V) :=
  match a with
  | None => Raise (ValueError "a must be a sequence")
  | Some pop =>
      if decide (size < 0) then Raise (ValueError "negative dimensions are not allowed")
      else if decide (pop = [] ∧ 0 < size) then
        Raise (ValueError "a cannot be empty unless no samples are taken")
      else if decide (replace = false ∧ Py.len pop < size) then
        Raise (ValueError "cannot take a larger sample than population")
      else Ok (rng_choice g pop (Z.to_nat size) replace)
  end.

Definition reshape_column (a : list V) : matrix V := (λ v, [v]) <$> a.
Definition ravel (m : matrix V) : list V := concat m.

(** Modelled from the spec: the utilities [transform_numpy],
    [transform_series] and [transform_dataframe] are not in the sources.
    The spec gives the transformer capability [fit(X) -> self],
    [transform(X) -> X'], [inverse_transform(X') -> X], applied to the
    target series; with no transformer the values pass through. The
    transformer after the call is returned with the values, since
    [fit = True] refits it. *)
Definition transform_matrix (m : matrix V) (transformer : option T)
    (fit inverse_transform : bool) : option T * matrix V :=
  match transformer with
  | None => (None, m)
  | Some t =>
      if inverse_transform then (Some t, tr_inverse_transform t m)
      else if fit then let t' := tr_fit t m in (Some t', tr_transform t' m)
      else (Some t, tr_transform t m)
  end.

Definition transform_numpy (array : list V) (transformer : option T)
    (fit inverse_transform : bool) : option T * list V :=
  let '(t, m) := transform_matrix (reshape_column array) transformer fit inverse_transform in
  (t, ravel m).

Definition transform_series := transform_numpy.
Definition transform_dataframe := transform_numpy.

End Collaborators.

(** What the forecasters rely on from the libraries: a transformer keeps
    the shape of the array it is applied to, and a draw of [size] values
    from a population that allows it has [size] values. *)
Definition same_shape {V} (m m' : list (list V)) : Prop :=
  Forall2 (λ r r', length r = length r') m m'.

Class TransformerShape (V T : Type) `{!Transformer V T} : Prop := {
  tr_transform_shape : ∀ (t : T) (m : matrix V), same_shape m (tr_transform t m);
  tr_inverse_transform_shape : ∀ (t : T) (m : matrix V), same_shape m (tr_inverse_transform t m)
}.

Class GeneratorLaws (V G : Type) `{!Generator V G} : Prop := {
  rng_choice_length : ∀ (g : G) (pop : list V) (n : nat) (replace : bool),
    (pop ≠ [] ∨ n = 0%nat) → (replace = false → (n ≤ length pop)%nat) →
    length (rng_choice g pop n replace).2 = n
}.

(** A draw only returns values of the population. *)
Class GeneratorSound (V G : Type) `{!Generator V G} : Prop := {
  rng_choice_elem : ∀ (g : G) (pop : list V) (n : nat) (replace : bool),
    (pop ≠ [] ∨ n = 0%nat) → Forall (λ v, v ∈ pop) (rng_choice g pop n replace).2
}.

(** The [steps] argument of the prediction methods: an [int], a list of
    [int] or [None]. *)
Inductive steps_arg : Type :=
| StepsInt (n : Z)
| StepsList (l : list Z)
| StepsNone.

(** What the forecasters hand to [utils.check_predict_input]; a series is a
    frame of one column. *)
Record check_args (V : Type) : Type := CheckArgs {
  ca_forecaster_name : string;
  ca_steps : steps_arg;
  ca_is_fitted : bool;
  ca_exog_in_ : bool;
  ca_window_size : Z;
  ca_last_window : option (list (string * list V));
  ca_exog : option (matrix V);
  ca_max_steps : option Z;
  ca_series_names_in_ : option (list string)
}.

Arguments CheckArgs {V}.
Arguments ca_forecaster_name {V}.
Arguments ca_steps {V}.
Arguments ca_is_fitted {V}.
Arguments ca_exog_in_ {V}.
Arguments ca_window_size {V}.
Arguments ca_last_window {V}.
Arguments ca_exog {V}.
Arguments ca_max_steps {V}.
Arguments ca_series_names_in_ {V}.

(** [utils.check_predict_input] is not in the sources: the validation of
    the prediction inputs is an interface, [None] when they are accepted and
    the exception otherwise. *)
Class InputCheck (V : Type) : Type := {
  check_predict_input : check_args V → option exn
}.

(** The reductions of an ensemble to intervals, quantiles and distribution
    parameters are those of pandas and scipy, and [utils.check_interval]
    is not in the sources; each is an interface. [check_interval] takes
    its arguments [interval] and [quantiles] and answers [None] when it
    accepts them; [scale_percent] is the division of a percentile by 100;
    [frame_quantile m q] is [m.quantile(q=q, axis=1).transpose()], one row
    per step and one column per quantile; [distribution_fit] is the [fit]
    of a distribution [D] on the sample of one step. *)
Class Summaries (V D : Type) : Type := {
  check_interval : option (list V) → option (list V) → option exn;
  scale_percent : V → V;
  frame_quantile : matrix V → list V → result (matrix V);
  distribution_fit : D → list V → result (list V)
}.

(** ** TimeSeriesDifferentiator *)

Module Differentiator.
Section Differentiator.
Context {V : Type} `{!Numeric V}.

(** Modelled from the spec: [preprocessing.TimeSeriesDifferentiator] is not
    in the sources. The spec gives the differencer capability
    [fit_transform(window) -> differenced_window], stateful, establishing
    an anchor, and [inverse_transform_next_window(differenced_predictions)
    -> levels], a cumulative-sum reconstruction anchored to the last fit
    window. The anchor kept here is the last value of the fit window at
    every differencing level below [order]; the differenced window keeps
    the length of its input by carrying [order] leading [nan]. *)
Record t : Type := Make {
  order : Z;
  last_values : list V
}.

(** [np.diff(x)]: first discrete difference. *)
Definition diff1 (x : list V) : list V := zip_with sub (tail x) x.

(** [np.diff(x, n)]. *)
Definition diff (n : nat) (x : list V) : list V := Nat.iter n diff1 x.

(** [np.cumsum(x)]. *)
Fixpoint cumsum_from (acc : V) (x : list V) : list V :=
  match x with
  | [] => []
  | v :: x' => let s := add acc v in s :: cumsum_from s x'
  end.

Definition cumsum (x : list V) : list V :=
  match x with
  | [] => []
  | v :: x' => v :: cumsum_from v x'
  end.

Definition fit (d : t) (x : list V) : result t :=
  lv ← mapM (λ i, of_option IndexError (last (diff (Z.to_nat i) x)))
            (Py.range (order d));
  Ok (Make (order d) lv).

Definition transform (d : t) (x : list V) : list V :=
  replicate (Z.to_nat (order d)) nan ++ diff (Z.to_nat (order d)) x.

Definition fit_transform (d : t) (x : list V) : result (t * list V) :=
  d' ← fit d x; Ok (d', transform d' x).

Definition inverse_transform_next_window (d : t) (x : list V) : result (list V) :=
  foldM (λ acc i,
           anchor ← Py.getitem (last_values d) (- (i + 1));
           Ok ((λ v, add v anchor) <$> cumsum acc))
        (Py.range (order d)) x.

End Differentiator.
End Differentiator.

Arguments Differentiator.t V : clear implicits.

(** ** ForecasterAutoreg *)

Module ForecasterAutoreg.
Section ForecasterAutoreg.
Context {V R T B G : Type}.
Context `{!Numeric V, !Regressor V R, !Transformer V T, !Discretizer V B,
          !Generator V G, !InputCheck V}.

(** The attributes of a forecaster that the training and prediction
    methods read or assign. *)
Record t : Type := Make {
  regressor : R;
  lags : list Z;
  max_lag : Z;
  window_size : Z;
  window_size_diff : Z;
  transformer_y : option T;
  transformer_exog : option T;
  differentiation : option Z;
  differentiator : option (Differentiator.t V);
  last_window_ : option (list V);
  exog_in_ : bool;
  in_sample_residuals_ : option (list V);
  out_sample_residuals_ : option (list V);
  in_sample_residuals_by_bin_ : option (Dict.t (list V));
  out_sample_residuals_by_bin_ : option (Dict.t (list V));
  is_fitted : bool;
  binner : B;
  binner_intervals : option (Dict.t (V * option V));
  weight_func : option (list Z → option (list V))
}.

Definition set_regressor (f : t) (x : R) : t :=
  Make x (lags f) (max_lag f) (window_size f) (window_size_diff f)
    (transformer_y f) (transformer_exog f) (differentiation f) (differentiator f)
    (last_window_ f) (exog_in_ f) (in_sample_residuals_ f) (out_sample_residuals_ f)
    (in_sample_residuals_by_bin_ f) (out_sample_residuals_by_bin_ f) (is_fitted f)
    (binner f) (binner_intervals f) (weight_func f).

Definition set_transformer_y (f : t) (x : option T) : t :=
  Make (regressor f) (lags f) (max_lag f) (window_size f) (window_size_diff f)
    x (transformer_exog f) (differentiation f) (differentiator f)
    (last_window_ f) (exog_in_ f) (in_sample_residuals_ f) (out_sample_residuals_ f)
    (in_sample_residuals_by_bin_ f) (out_sample_residuals_by_bin_ f) (is_fitted f)
    (binner f) (binner_intervals f) (weight_func f).

Definition set_transformer_exog (f : t) (x : option T) : t :=
  Make (regressor f) (lags f) (max_lag f) (window_size f) (window_size_diff f)
    (transformer_y f) x (differentiation f) (differentiator f)
    (last_window_ f) (exog_in_ f) (in_sample_residuals_ f) (out_sample_residuals_ f)
    (in_sample_residuals_by_bin_ f) (out_sample_residuals_by_bin_ f) (is_fitted f)
    (binner f) (binner_intervals f) (weight_func f).

Definition set_differentiator (f : t) (x : option (Differentiator.t V)) : t :=
  Make (regressor f) (lags f) (max_lag f) (window_size f) (window_size_diff f)
    (transformer_y f) (transformer_exog f) (differentiation f) x
    (last_window_ f) (exog_in_ f) (in_sample_residuals_ f) (out_sample_residuals_ f)
    (in_sample_residuals_by_bin_ f) (out_sample_residuals_by_bin_ f) (is_fitted f)
    (binner f) (binner_intervals f) (weight_func f).

Definition set_last_window_ (f : t) (x : option (list V)) : t :=
  Make (regressor f) (lags f) (max_lag f) (window_size f) (window_size_diff f)
    (transformer_y f) (transformer_exog f) (differentiation f) (differentiator f)
    x (exog_in_ f) (in_sample_residuals_ f) (out_sample_residuals_ f)
    (in_sample_residuals_by_bin_ f) (out_sample_residuals_by_bin_ f) (is_fitted f)
    (binner f) (binner_intervals f) (weight_func f).

Definition set_exog_in_ (f : t) (x : bool) : t :=
  Make (regressor f) (lags f) (max_lag f) (window_size f) (window_size_diff f)
    (transformer_y f) (transformer_exog f) (differentiation f) (differentiator f)
    (last_window_ f) x (in_sample_residuals_ f) (out_sample_residuals_ f)
    (in_sample_residuals_by_bin_ f) (out_sample_residuals_by_bin_ f) (is_fitted f)
    (binner f) (binner_intervals f) (weight_func f).

Definition set_in_sample_residuals_ (f : t) (x : option (list V)) : t :=
  Make (regressor f) (lags f) (max_lag f) (window_size f) (window_size_diff f)
    (transformer_y f) (transformer_exog f) (differentiation f) (differentiator f)
    (last_window_ f) (exog_in_ f) x (out_sample_residuals_ f)
    (in_sample_residuals_by_bin_ f) (out_sample_residuals_by_bin_ f) (is_fitted f)
    (binner f) (binner_intervals f) (weight_func f).

Definition set_out_sample_residuals_ (f : t) (x : option (list V)) : t :=
  Make (regressor f) (lags f) (max_lag f) (window_size f) (window_size_diff f)
    (transformer_y f) (transformer_exog f) (differentiation f) (differentiator f)
    (last_window_ f) (exog_in_ f) (in_sample_residuals_ f) x
    (in_sample_residuals_by_bin_ f) (out_sample_residuals_by_bin_ f) (is_fitted f)
    (binner f) (binner_intervals f) (weight_func f).

Definition set_in_sample_residuals_by_bin_ (f : t) (x : option (Dict.t (list V))) : t :=
  Make (regressor f) (lags f) (max_lag f) (window_size f) (window_size_diff f)
    (transformer_y f) (transformer_exog f) (differentiation f) (differentiator f)
    (last_window_ f) (exog_in_ f) (in_sample_residuals_ f) (out_sample_residuals_ f)
    x (out_sample_residuals_by_bin_ f) (is_fitted f)
    (binner f) (binner_intervals f) (weight_func f).

Definition set_out_sample_residuals_by_bin_ (f : t) (x : option (Dict.t (list V))) : t :=
  Make (regressor f) (lags f) (max_lag f) (window_size f) (window_size_diff f)
    (transformer_y f) (transformer_exog f) (differentiation f) (differentiator f)
    (last_window_ f) (exog_in_ f) (in_sample_residuals_ f) (out_sample_residuals_ f)
    (in_sample_residuals_by_bin_ f) x (is_fitted f)
    (binner f) (binner_intervals f) (weight_func f).

Definition set_is_fitted (f : t) (x : bool) : t :=
  Make (regressor f) (lags f) (max_lag f) (window_size f) (window_size_diff f)
    (transformer_y f) (transformer_exog f) (differentiation f) (differentiator f)
    (last_window_ f) (exog_in_ f) (in_sample_residuals_ f) (out_sample_residuals_ f)
    (in_sample_residuals_by_bin_ f) (out_sample_residuals_by_bin_ f) x
    (binner f) (binner_intervals f) (weight_func f).

Definition set_binner (f : t) (x : B) : t :=
  Make (regressor f) (lags f) (max_lag f) (window_size f) (window_size_diff f)
    (transformer_y f) (transformer_exog f) (differentiation f) (differentiator f)
    (last_window_ f) (exog_in_ f) (in_sample_residuals_ f) (out_sample_residuals_ f)
    (in_sample_residuals_by_bin_ f) (out_sample_residuals_by_bin_ f) (is_fitted f)
    x (binner_intervals f) (weight_func f).

Definition set_binner_intervals (f : t) (x : option (Dict.t (V * option V))) : t :=
  Make (regressor f) (lags f) (max_lag f) (window_size f) (window_size_diff f)
    (transformer_y f) (transformer_exog f) (differentiation f) (differentiator f)
    (last_window_ f) (exog_in_ f) (in_sample_residuals_ f) (out_sample_residuals_ f)
    (in_sample_residuals_by_bin_ f) (out_sample_residuals_by_bin_ f) (is_fitted f)
    (binner f) x (weight_func f).

(** *** Construction *)

Inductive lags_arg : Type :=
| LagsInt (n : Z)
| LagsList (l : list Z).

(** Modelled from the spec: [utils.initialize_lags] is not in the sources.
    An [int] stands for the lags from 1 to it; a list is kept in its
    declared order; every lag is at least 1, anything else is a
    configuration error. *)
Definition initialize_lags (lags : lags_arg) : result (list Z) :=
  match lags with
  | LagsInt n =>
      if decide (n < 1) then Raise (ValueError "minimum value of lags allowed is 1")
      else Ok (Py.range2 1 (n + 1))
  | LagsList l =>
      if decide (l = []) then Raise (ValueError "argument lags must not be empty")
      else if decide (Forall (λ lag, 1 ≤ lag) l) then Ok l
      else Raise (ValueError "minimum value of lags allowed is 1")
  end.

(** [__init__]; [binner0] is the discretizer built from [binner_kwargs].
    [utils.initialize_weights] is not in the sources: the weight function
    is stored as it is given, as for a regressor whose [fit] takes
    [sample_weight]. *)
Definition init (regressor : R) (lags : lags_arg) (transformer_y transformer_exog : option T)
    (differentiation : option Z) (binner0 : B)
    (weight_func : option (list Z → option (list V))) : result t :=
  lags ← initialize_lags lags;
  max_lag ← Py.max_list lags;
  let f := Make regressor lags max_lag max_lag max_lag transformer_y transformer_exog
             differentiation None None false None None None None false binner0 None
             weight_func in
  match differentiation with
  | None => Ok f
  | Some d =>
      if decide (d < 1) then
        Raise (ValueError "differentiation must be an integer equal to or greater than 1")
      else
        Ok (Make regressor lags max_lag max_lag (max_lag + d) transformer_y transformer_exog
              differentiation (Some (Differentiator.Make d [])) None false None None None None
              false binner0 None weight_func)
  end.

(** The invariant that [__init__] sets up and that the methods keep: the
    lags lie between 1 and [max_lag], there is at least one, and a
    differencing order comes with a differentiator of that order and with
    a window extended by it. *)
Definition well_formed (f : t) : Prop :=
  lags f ≠ []
  ∧ Forall (λ lag, 1 ≤ lag ≤ max_lag f) (lags f)
  ∧ window_size f = max_lag f
  ∧ match differentiation f with
    | None => window_size_diff f = max_lag f
    | Some d =>
        1 ≤ d ∧ window_size_diff f = max_lag f + d
        ∧ ∃ dd, differentiator f = Some dd ∧ Differentiator.order dd = d
    end.

(** The differencing order, 0 without differencing. *)
Definition diff_order (f : t) : Z := default 0 (differentiation f).

(** [f'] is [f] up to the fitted state of its differentiator: every other
    attribute is the same, a differentiator is neither dropped nor added
    and keeps its order; without differencing [f'] is [f]. *)
Definition same_but_differentiator (f f' : t) : Prop :=
  f' = set_differentiator f (differentiator f')
  ∧ (differentiation f = None → f' = f)
  ∧ match differentiator f, differentiator f' with
    | Some d, Some d' => Differentiator.order d' = Differentiator.order d
    | None, None => True
    | _, _ => False
    end.

(** The residuals whose prediction falls in bin [k], in their order. *)
Definition residuals_in_bin (b : B) (residuals y_pred : list V) (k : Z) : list V :=
  (filter (λ r, r.1 = k) (zip (binner_transform b <$> y_pred) residuals)).*2.

(** What is kept of [v] under a cap: all of it when it fits, and
    otherwise a sample of the size of the cap drawn without replacement
    from a generator seeded with [seed]. *)
Definition down_sampled (cap : nat) (seed : Z) (v : list V) : list V :=
  if decide (Z.of_nat cap < Py.len v)
  then (rng_choice (default_rng seed) v cap false).2
  else v.

(** Every bin of a dictionary of residuals holds at most 200 values. *)
Definition bins_capped (d : Dict.t (list V)) : Prop :=
  Forall (λ kv, Py.len kv.2 ≤ 200) d.

(** *** Training matrices *)

(** [X_data[:, i] = values]: the values fill a column of [n] rows when
    there are [n] of them, one value is broadcast, anything else raises. *)
Definition assign_column (n : Z) (values : list V) : result (list V) :=
  if decide (Py.len values = n) then Ok values
  else match values with
       | [v] => Ok (replicate (Z.to_nat n) v)
       | _ => Raise (ValueError "could not broadcast input array")
       end.

(** Rows of a matrix of [n] rows given by its columns. *)
Definition rows_of_columns (n : Z) (cols : list (list V)) : matrix V :=
  (λ r, (λ col, default nan (col !! Z.to_nat r)) <$> cols) <$> Py.range n.

(** [_create_lags]: the lag matrix and its target. *)
Definition _create_lags (f : t) (y : list V) : result (matrix V * list V) :=
  let n_splits := Py.len y - max_lag f in
  if decide (n_splits ≤ 0) then
    Raise (ValueError "The maximum lag must be less than the length of the series")
  else
    cols ← mapM (λ lag, assign_column n_splits (Py.slice y (max_lag f - lag) (- lag)))
                (lags f);
    let X_data := rows_of_columns n_splits cols in
    let y_data := Py.slice_from y (max_lag f) in
    Ok (X_data, y_data).

(** [create_train_X_y]. [check_y] and the index checks of [exog] concern
    the pandas types and are not modelled. *)
Definition create_train_X_y (f : t) (y : list V) (exog : option (matrix V))
  : result (matrix V * list V) * t :=
  let fit_transformer := negb (is_fitted f) in
  let '(ty, y_values) := transform_dataframe y (transformer_y f) fit_transformer false in
  let f := set_transformer_y f ty in
  let differenced :=
    match differentiation f, differentiator f with
    | Some _, Some d =>
        if is_fitted f then
          (* differentiator = clone(self.differentiator) *)
          r ← Differentiator.fit_transform d y_values; Ok (f, r.2)
        else
          r ← Differentiator.fit_transform d y_values;
          Ok (set_differentiator f (Some r.1), r.2)
    | Some _, None => Raise AttributeError
    | None, _ => Ok (f, y_values)
    end in
  match differenced with
  | Raise e => (Raise e, f)
  | Ok (f, y_values) =>
      let exog_checked :=
        match exog with
        | None => Ok (f, None)
        | Some ex =>
            if decide (Py.len ex ≠ Py.len y) then
              Raise (ValueError "exog must have same number of samples as y")
            else
              let '(te, ex') := transform_matrix ex (transformer_exog f) fit_transformer false in
              Ok (set_transformer_exog f te, Some ex')
        end in
      match exog_checked with
      | Raise e => (Raise e, f)
      | Ok (f, exog) =>
          match _create_lags f y_values with
          | Raise e => (Raise e, f)
          | Ok (X_train, y_train) =>
              let X_train :=
                match exog with
                | None => X_train
                | Some ex => zip_with app X_train (Py.slice_from ex (max_lag f))
                end in
              match differentiation f with
              | None => (Ok (X_train, y_train), f)
              | Some d => (Ok (Py.slice_from X_train d, Py.slice_from y_train d), f)
              end
          end
      end
  end.

(** *** Binning of the in-sample residuals *)

(** [data.groupby('bin')[col].apply(np.array).to_dict()]: one entry per
    bin that occurs, in increasing order of the bin, holding the values of
    its rows in row order. *)
Definition groupby (rows : list (Z * V)) : Dict.t (list V) :=
  (λ k, (k, (filter (λ r, r.1 = k) rows).*2)) <$> remove_dups (merge_sort Z.le rows.*1).

(** [np.concatenate(arrays)]: raises on an empty list of arrays. *)
Definition np_concatenate (arrays : list (list V)) : result (list V) :=
  match arrays with
  | [] => Raise (ValueError "need at least one array to concatenate")
  | _ => Ok (concat arrays)
  end.

(** The loop storing at most 200 residuals per bin: a bin with more is
    replaced by a sample of 200 drawn without replacement from a generator
    seeded anew for each bin. *)
Definition cap_bins (seed : Z) (d : Dict.t (list V)) : Dict.t (list V) :=
  Dict.map_items
    (λ _ v, if decide (200 < Py.len v)
            then (rng_choice (default_rng seed) v 200 false).2
            else v) d.

(** The dictionary comprehension building [binner_intervals]. *)
Definition make_binner_intervals (edges : list V) : result (Dict.t (V * option V)) :=
  mapM (λ i,
          lo ← Py.getitem edges i;
          hi ← (if decide (i + 1 < Py.len edges)
                then Some <$> Py.getitem edges (i + 1)
                else Ok None);
          Ok (i, (lo, hi)))
       (Py.range (Py.len edges - 1)).

(** [_binning_in_sample_residuals]; [y_true] and [y_pred] carry the same
    index, so they pair position by position. *)
Definition _binning_in_sample_residuals (f : t) (y_true y_pred : list V)
    (random_state : Z) : result () * t :=
  let residuals := zip_with sub y_true y_pred in
  let data := zip residuals y_pred in
  let f := set_binner f (binner_fit (binner f) data.*2) in
  let bins := binner_transform (binner f) <$> data.*2 in
  let by_bin := groupby (zip bins data.*1) in
  let by_bin := cap_bins random_state by_bin in
  let f := set_in_sample_residuals_by_bin_ f (Some by_bin) in
  match np_concatenate (Dict.values by_bin) with
  | Raise e => (Raise e, f)
  | Ok flat =>
      let f := set_in_sample_residuals_ f (Some flat) in
      match make_binner_intervals (bin_edges_ (binner f)) with
      | Raise e => (Raise e, f)
      | Ok intervals => (Ok (), set_binner_intervals f (Some intervals))
      end
  end.

(** *** Sample weights *)

(** [np.sum(a)]. *)
Definition np_sum (a : list V) : V := foldl add zero a.

(** The index of [X_train]: the positions in the series of the rows that
    are left after the first [max_lag] values and the differencing order
    are taken off. *)
Definition train_index (f : t) (X_train : matrix V) : list Z :=
  seqZ (max_lag f + default 0 (differentiation f)) (Py.len X_train).

(** [create_sample_weights]: the weights [weight_func] gives to the index
    of [X_train], refused when one is [NaN] or negative or when they sum
    to zero. *)
Definition create_sample_weights (f : t) (X_train : matrix V)
  : result (option (list V)) :=
  let sample_weight :=
    match weight_func f with
    | Some weight_func => weight_func (train_index f X_train)
    | None => None
    end in
  match sample_weight with
  | Some w =>
      if existsb isnan w then
        Raise (ValueError "The resulting sample_weight cannot have NaN values.")
      else if existsb (λ v, lessb v zero) w then
        Raise (ValueError "The resulting sample_weight cannot have negative values.")
      else if equalb (np_sum w) zero then
        Raise (ValueError "The resulting sample_weight cannot be normalized")
      else Ok (Some w)
  | None => Ok None
  end.

(** *** fit *)

Definition fit (f : t) (y : list V) (exog : option (matrix V))
    (store_last_window store_in_sample_residuals : bool) : result () * t :=
  (* Reset values in case the forecaster has already been fitted. *)
  let f := set_last_window_ f None in
  let f := set_exog_in_ f false in
  let f := set_in_sample_residuals_ f None in
  let f := set_is_fitted f false in
  match create_train_X_y f y exog with
  | (Raise e, f) => (Raise e, f)
  | (Ok (X_train, y_train), f) =>
      match create_sample_weights f X_train with
      | Raise e => (Raise e, f)
      | Ok sample_weight =>
          let f := set_regressor f (reg_fit (regressor f) X_train y_train sample_weight) in
          let f := set_is_fitted f true in
          let f := match exog with Some _ => set_exog_in_ f true | None => f end in
          let binned :=
            if store_in_sample_residuals then
              let in_sample_predictions := reg_predict (regressor f) <$> X_train in
              _binning_in_sample_residuals f y_train in_sample_predictions 95123
            else (Ok (), f) in
          match binned with
          | (Raise e, f) => (Raise e, f)
          | (Ok _, f) =>
              if store_last_window then
                (Ok (), set_last_window_ f (Some (Py.slice_from y (- window_size_diff f))))
              else (Ok (), f)
          end
      end
  end.

(** *** Prediction inputs *)

Definition predict_check_args (f : t) (steps : Z) (last_window : option (list V))
    (exog : option (matrix V)) : check_args V :=
  CheckArgs "ForecasterAutoreg" (StepsInt steps) (is_fitted f) (exog_in_ f)
    (window_size_diff f) ((λ w, [("y"%string, w)]) <$> last_window) exog None None.

(** The guard on the out-of-sample residuals inside [if check_inputs]. *)
Definition check_out_sample_residuals (f : t)
    (predict_boot in_sample_residuals binned_residuals : bool) : result () :=
  if predict_boot && negb in_sample_residuals then
    if negb binned_residuals && bool_decide (out_sample_residuals_ f = None) then
      Raise (ValueError "forecaster.out_sample_residuals_ is None")
    else if binned_residuals && bool_decide (out_sample_residuals_by_bin_ f = None) then
      Raise (ValueError "forecaster.out_sample_residuals_by_bin_ is None")
    else Ok ()
  else Ok ().

(** The part of the two [_create_predict_inputs] that prepares the window:
    the last [window_size_diff] values, transformed, then differenced by
    refitting the forecaster's differentiator on them. *)
Definition prepare_last_window (f : t) (last_window : list V)
  : result (list V) * t :=
  let last_window := Py.slice_from last_window (- window_size_diff f) in
  let last_window_values := (transform_numpy last_window (transformer_y f) false false).2 in
  match differentiation f with
  | None => (Ok last_window_values, f)
  | Some _ =>
      match differentiator f with
      | None => (Raise AttributeError, f)
      | Some d =>
          match Differentiator.fit_transform d last_window_values with
          | Raise e => (Raise e, f)
          | Ok (d', values) => (Ok values, set_differentiator f (Some d'))
          end
      end
  end.

(** [exog.to_numpy()[:steps]] after the transformation of [exog]. *)
Definition prepare_exog (f : t) (steps : Z) (exog : option (matrix V))
  : option (matrix V) :=
  (λ ex, Py.slice_to (transform_matrix ex (transformer_exog f) false false).2 steps) <$> exog.

(** [_create_predict_inputs]; the prediction index is not modelled. *)
Definition _create_predict_inputs (f : t) (steps : Z) (last_window : option (list V))
    (exog : option (matrix V))
    (predict_boot in_sample_residuals binned_residuals check_inputs : bool)
  : result (list V * option (matrix V)) * t :=
  let last_window := match last_window with None => last_window_ f | Some _ => last_window end in
  let checked :=
    if check_inputs then
      match check_predict_input (predict_check_args f steps last_window exog) with
      | Some e => Raise e
      | None => check_out_sample_residuals f predict_boot in_sample_residuals binned_residuals
      end
    else Ok () in
  match checked with
  | Raise e => (Raise e, f)
  | Ok _ =>
      match last_window with
      | None => (Raise AttributeError, f)
      | Some last_window =>
          match prepare_last_window f last_window with
          | (Raise e, f) => (Raise e, f)
          | (Ok last_window_values, f) =>
              (Ok (last_window_values, prepare_exog f steps exog), f)
          end
      end
  end.

(** *** The recursive engine *)

(** The input row of an autoregression on [history]: for every lag, the
    value observed that many steps before the end of [history]. The
    recursive loop is specified against it. *)
Definition lagged_row (lags : list Z) (history : list V) : list V :=
  (λ lag, default nan (history !! Z.to_nat (Py.len history - lag))) <$> lags.

(** The exogenous values of step [i]: [exog[i, ]], nothing without [exog]. *)
Definition exog_row (exog : option (matrix V)) (i : Z) : list V :=
  match exog with
  | Some ex => default [] (ex !! Z.to_nat i)
  | None => []
  end.

(** The [residuals] argument of [_recursive_predict]: [None], the array
    of one bootstrapping iteration, or the dictionary of residuals by bin. *)
Inductive residuals_arg : Type :=
| ResNone
| ResArray (a : list V)
| ResDict (d : Dict.t (list V)).

(** The perturbation of a prediction inside the loop. The combinations of
    [binned_residuals] and of the type of [residuals] that
    [predict_bootstrapping] never builds end in a [TypeError]. *)
Definition add_step_residual (f : t) (i : Z) (pred : V) (residuals : residuals_arg)
    (binned_residuals : bool) (rng : option G) : result (V * option G) :=
  match residuals with
  | ResNone => Ok (pred, rng)
  | ResDict d =>
      if binned_residuals then
        let predicted_bin := binner_transform (binner f) pred in
        pool ← Dict.getitem d predicted_bin;
        g ← of_option AttributeError rng;
        '(g', step_residual) ← choice g (Some pool) 1 true;
        match step_residual with
        | [r] => Ok (add pred r, Some g')
        | _ => Raise (ValueError "operands could not be broadcast together")
        end
      else Raise (TypeError "residuals")
  | ResArray a =>
      if binned_residuals then Raise (TypeError "residuals")
      else r ← Py.getitem a i; Ok (add pred r, rng)
  end.

(** One iteration of the loop of [_recursive_predict] on the loop state
    [(predictions, last_window, rng)]. *)
Definition recursive_step (f : t) (steps : Z) (exog : option (matrix V))
    (residuals : residuals_arg) (binned_residuals : bool)
    (st : list V * list V * option G) (i : Z) : result (list V * list V * option G) :=
  let '(predictions, last_window, rng) := st in
  X ← Py.take_indices last_window ((λ lag, - lag - (steps - i)) <$> lags f);
  X ← match exog with
      | None => Ok X
      | Some ex => row ← Py.getitem ex i; Ok (X ++ row)
      end;
  let pred := reg_predict (regressor f) X in
  '(pred, rng) ← add_step_residual f i pred residuals binned_residuals rng;
  predictions ← Py.setitem predictions i pred;
  last_window ← Py.setitem last_window (- (steps - i)) pred;
  Ok (predictions, last_window, rng).

(** [_recursive_predict]: the predictions and the generator after the
    draws of the loop. *)
Definition _recursive_predict (f : t) (steps : Z) (last_window : list V)
    (exog : option (matrix V)) (residuals : residuals_arg) (binned_residuals : bool)
    (rng : option G) : result (list V * option G) :=
  predictions ← Py.full steps nan;
  let last_window := last_window ++ predictions in
  '(predictions, _, rng) ←
    foldM (recursive_step f steps exog residuals binned_residuals)
          (Py.range steps) (predictions, last_window, rng);
  Ok (predictions, rng).

(** The tail shared by the prediction methods: differencing is undone,
    then the transformation. *)
Definition undo_differentiation (f : t) (predictions : list V) : result (list V) :=
  match differentiation f with
  | None => Ok predictions
  | Some _ =>
      d ← of_option AttributeError (differentiator f);
      Differentiator.inverse_transform_next_window d predictions
  end.

(** [predict]. *)
Definition predict (f : t) (steps : Z) (last_window : option (list V))
    (exog : option (matrix V)) (check_inputs : bool) : result (list V) * t :=
  match _create_predict_inputs f steps last_window exog false true false check_inputs with
  | (Raise e, f) => (Raise e, f)
  | (Ok (last_window_values, exog_values), f) =>
      (r ← _recursive_predict f steps last_window_values exog_values ResNone false None;
       predictions ← undo_differentiation f r.1;
       Ok (transform_numpy predictions (transformer_y f) false true).2, f)
  end.

(** *** Bootstrapping *)

(** A flat array of [rows * cols] values as a matrix, row after row. *)
Definition reshape (rows cols : Z) (flat : list V) : matrix V :=
  (λ r, take (Z.to_nat cols) (drop (Z.to_nat (r * cols)) flat)) <$> Py.range rows.

(** [rng.choice(a, size=(rows, cols), replace=True)]. *)
Definition choice_2d (g : G) (a : option (list V)) (rows cols : Z)
  : result (G * matrix V) :=
  if decide (rows < 0 ∨ cols < 0) then Raise (ValueError "negative dimensions are not allowed")
  else '(g', flat) ← choice g a (rows * cols) true; Ok (g', reshape rows cols flat).

(** [m[:, i]]. *)
Definition column (m : matrix V) (i : Z) : result (list V) :=
  mapM (λ row, Py.getitem row i) m.

(** [np.full(shape=(rows, cols), ...)] only fails on a negative shape. *)
Definition full_2d (rows cols : Z) : result () :=
  if decide (rows < 0 ∨ cols < 0) then Raise (ValueError "negative dimensions are not allowed")
  else Ok ().

(** One iteration of the loop over [n_boot]: the column of predictions is
    appended, the generator passes to the next iteration. *)
Definition boot_step (f : t) (steps : Z) (last_window_values : list V)
    (exog_values : option (matrix V)) (residuals_by_bin : option (Dict.t (list V)))
    (sampled_residuals : matrix V) (binned_residuals : bool)
    (st : list (list V) * G) (i : Z) : result (list (list V) * G) :=
  let '(cols, rng) := st in
  residuals ← (if binned_residuals then
                 Ok (match residuals_by_bin with
                     | Some d => ResDict d
                     | None => ResNone
                     end)
               else ResArray <$> column sampled_residuals i);
  r ← _recursive_predict f steps last_window_values exog_values residuals
        binned_residuals (Some rng);
  Ok (cols ++ [r.1], default rng r.2).

(** [predict_bootstrapping]: the ensemble as [steps] rows of [n_boot]
    values. *)
Definition predict_bootstrapping (f : t) (steps : Z) (last_window : option (list V))
    (exog : option (matrix V)) (n_boot random_state : Z)
    (in_sample_residuals binned_residuals : bool) : result (matrix V) * t :=
  match _create_predict_inputs f steps last_window exog true in_sample_residuals
          binned_residuals true with
  | (Raise e, f) => (Raise e, f)
  | (Ok (last_window_values, exog_values), f) =>
      let residuals :=
        if in_sample_residuals then in_sample_residuals_ f else out_sample_residuals_ f in
      let residuals_by_bin :=
        if in_sample_residuals then in_sample_residuals_by_bin_ f
        else out_sample_residuals_by_bin_ f in
      let rng := default_rng random_state in
      (sampled ← (if binned_residuals then Ok (rng, [])
                  else choice_2d rng residuals steps n_boot);
       _ ← full_2d steps n_boot;
       boot ← foldM (boot_step f steps last_window_values exog_values residuals_by_bin
                       sampled.2 binned_residuals)
                    (Py.range n_boot) ([], sampled.1);
       cols ← mapM (undo_differentiation f) boot.1;
       (* [np.apply_along_axis] along axis 0 has nothing to iterate on *)
       _ ← (if decide (n_boot = 0) then
              Raise (ValueError
                       "Cannot apply_along_axis when any iteration dimensions are 0")
            else Ok ());
       let cols := (λ col, (transform_numpy col (transformer_y f) false true).2) <$> cols in
       Ok (rows_of_columns steps cols), f)
  end.

(** *** Out-of-sample residuals *)

(** The branch [append and self.out_sample_residuals_by_bin_ is not None]:
    the new residuals of a bin go after the stored ones, as far as the
    200 places of the bin allow; a new bin is stored as it is. *)
Definition append_bins (stored new : Dict.t (list V)) : Dict.t (list V) :=
  foldl (λ acc kv,
           let '(k, v) := kv in
           match Dict.get acc k with
           | Some old =>
               let free_space := Z.max 0 (200 - Py.len old) in
               if decide (Py.len v < free_space) then Dict.set acc k (old ++ v)
               else Dict.set acc k (old ++ Py.slice_to v free_space)
           | None => Dict.set acc k v
           end) stored new.

(** The bins of the in-sample residuals missing from the out-of-sample
    ones are added empty. *)
Definition add_missing_bins (in_keys : list Z) (d : Dict.t (list V)) : Dict.t (list V) :=
  foldl (λ acc k, if Dict.mem acc k then acc else Dict.set acc k []) d in_keys.

(** Every empty bin is filled with 200 values drawn with replacement from
    [pool], each from a generator seeded with 123. *)
Definition fill_empty_bins (pool : list V) (empty_bins : list Z) (d : Dict.t (list V))
  : result (Dict.t (list V)) :=
  foldM (λ acc k,
           '(_, sample) ← choice (default_rng 123) (Some pool) 200 true;
           Ok (Dict.set acc k sample)) empty_bins d.

Definition set_out_sample_residuals (f : t) (residuals : list V) (y_pred : option (list V))
    (append transform : bool) (random_state : Z) : result () * t :=
  if match y_pred with
     | Some p => bool_decide (Py.len residuals ≠ Py.len p)
     | None => false
     end then
    (Raise (ValueError "residuals and y_pred must have the same length"), f)
  else if bool_decide (is_Some y_pred) && negb (is_fitted f) then
    (Raise NotFittedError, f)
  else if transform && bool_decide (is_Some (transformer_y f)) then
    (* [residuals] is a pandas Series by now, and [transform_numpy] takes
       numpy arrays only *)
    (Raise (TypeError "array argument must be a numpy ndarray"), f)
  else
    match y_pred with
    | None =>
        (* Residuals are not binned. *)
        let residuals :=
          if decide (1000 < Py.len residuals)
          then (rng_choice (default_rng random_state) residuals 1000 false).2
          else residuals in
        let residuals :=
          match out_sample_residuals_ f with
          | Some stored =>
              if append then
                let free_space := Z.max 0 (1000 - Py.len stored) in
                if decide (Py.len residuals < free_space) then stored ++ residuals
                else stored ++ Py.slice_to residuals free_space
              else residuals
          | None => residuals
          end in
        (Ok (), set_out_sample_residuals_ f (Some residuals))
    | Some y_pred =>
        (* Residuals are binned according to the predicted values. *)
        if negb (binner_is_fitted (binner f)) then (Raise NotFittedError, f) else
        let data := zip residuals y_pred in
        let bins := binner_transform (binner f) <$> data.*2 in
        let residuals_by_bin := groupby (zip bins data.*1) in
        let by_bin :=
          match out_sample_residuals_by_bin_ f with
          | Some stored => if append then append_bins stored residuals_by_bin
                           else residuals_by_bin
          | None => residuals_by_bin
          end in
        let by_bin := cap_bins 123 by_bin in
        let f := set_out_sample_residuals_by_bin_ f (Some by_bin) in
        match np_concatenate (Dict.values by_bin) with
        | Raise e => (Raise e, f)
        | Ok flat =>
            let f := set_out_sample_residuals_ f (Some flat) in
            match in_sample_residuals_by_bin_ f with
            | None => (Raise AttributeError, f)
            | Some in_by_bin =>
                let by_bin := add_missing_bins (Dict.keys in_by_bin) by_bin in
                let f := set_out_sample_residuals_by_bin_ f (Some by_bin) in
                let empty_bins := (filter (λ kv, Py.len kv.2 = 0) by_bin).*1 in
                match empty_bins with
                | [] => (Ok (), f)
                | _ =>
                    (* the warning names the interval of every empty bin *)
                    let named :=
                      match binner_intervals f with
                      | None => Raise (TypeError "binner_intervals")
                      | Some intervals => mapM (Dict.getitem intervals) empty_bins
                      end in
                    match named with
                    | Raise e => (Raise e, f)
                    | Ok _ =>
                        match fill_empty_bins flat empty_bins by_bin with
                        | Raise e => (Raise e, f)
                        | Ok by_bin => (Ok (), set_out_sample_residuals_by_bin_ f (Some by_bin))
                        end
                    end
                end
            end
        end
    end.

(** *** The 0.13 prediction path *)

(** [_create_predict_inputs_013]: the inputs are always checked, [exog] is
    prepared before the window. *)
Definition _create_predict_inputs_013 (f : t) (steps : Z) (last_window : option (list V))
    (exog : option (matrix V)) : result (list V * option (matrix V)) * t :=
  let last_window := match last_window with None => last_window_ f | Some _ => last_window end in
  match check_predict_input (predict_check_args f steps last_window exog) with
  | Some e => (Raise e, f)
  | None =>
      match last_window with
      | None => (Raise AttributeError, f)
      | Some last_window =>
          let last_window := Py.slice_from last_window (- window_size_diff f) in
          let exog_values :=
            match exog with
            | Some ex =>
                Some (Py.slice_to (transform_matrix ex (transformer_exog f) false false).2 steps)
            | None => None
            end in
          let last_window_values :=
            (transform_dataframe last_window (transformer_y f) false false).2 in
          match differentiation f with
          | None => (Ok (last_window_values, exog_values), f)
          | Some _ =>
              match differentiator f with
              | None => (Raise AttributeError, f)
              | Some d =>
                  match Differentiator.fit_transform d last_window_values with
                  | Raise e => (Raise e, f)
                  | Ok (d', values) =>
                      (Ok (values, exog_values), set_differentiator f (Some d'))
                  end
              end
          end
      end
  end.

(** One iteration of the loop of [_recursive_predict_013] on the loop
    state [(predictions, last_window)]. *)
Definition recursive_step_013 (f : t) (steps : Z) (exog : option (matrix V))
    (st : list V * list V) (i : Z) : result (list V * list V) :=
  let '(predictions, last_window) := st in
  X ← Py.take_indices last_window ((λ lag, - lag - (steps - i)) <$> lags f);
  X ← match exog with
      | Some ex => row ← Py.getitem ex i; Ok (X ++ row)
      | None => Ok X
      end;
  let prediction := reg_predict (regressor f) X in
  predictions ← Py.setitem predictions i prediction;
  last_window ← Py.setitem last_window (- (steps - i)) prediction;
  Ok (predictions, last_window).

Definition _recursive_predict_013 (f : t) (steps : Z) (last_window : list V)
    (exog : option (matrix V)) : result (list V) :=
  predictions ← Py.full steps nan;
  let last_window := last_window ++ predictions in
  st ← foldM (recursive_step_013 f steps exog) (Py.range steps) (predictions, last_window);
  Ok st.1.

(** [predict_013]. *)
Definition predict_013 (f : t) (steps : Z) (last_window : option (list V))
    (exog : option (matrix V)) : result (list V) * t :=
  match _create_predict_inputs_013 f steps last_window exog with
  | (Raise e, f) => (Raise e, f)
  | (Ok (last_window_values, exog_values), f) =>
      (predictions ← _recursive_predict_013 f steps last_window_values exog_values;
       predictions ←
         match differentiation f with
         | Some _ =>
             d ← of_option AttributeError (differentiator f);
             Differentiator.inverse_transform_next_window d predictions
         | None => Ok predictions
         end;
       Ok (transform_series predictions (transformer_y f) false true).2, f)
  end.

(** *** Further methods *)

(** [set_lags]: the lags and the three sizes that follow from them are
    assigned anew; nothing else is. *)
Definition set_lags (f : t) (lags : lags_arg) : result () * t :=
  match initialize_lags lags with
  | Raise e => (Raise e, f)
  | Ok lags =>
      match Py.max_list lags with
      | Raise e =>
          (Raise e,
           Make (regressor f) lags (max_lag f) (window_size f)
             (window_size_diff f) (transformer_y f) (transformer_exog f)
             (differentiation f) (differentiator f) (last_window_ f) (exog_in_ f)
             (in_sample_residuals_ f) (out_sample_residuals_ f)
             (in_sample_residuals_by_bin_ f) (out_sample_residuals_by_bin_ f)
             (is_fitted f) (binner f) (binner_intervals f) (weight_func f))
      | Ok max_lag =>
          (Ok (),
           Make (regressor f) lags max_lag max_lag
             (match differentiation f with
              | Some d => max_lag + d
              | None => max_lag
              end)
             (transformer_y f) (transformer_exog f)
             (differentiation f) (differentiator f) (last_window_ f) (exog_in_ f)
             (in_sample_residuals_ f) (out_sample_residuals_ f)
             (in_sample_residuals_by_bin_ f) (out_sample_residuals_by_bin_ f)
             (is_fitted f) (binner f) (binner_intervals f) (weight_func f))
      end
  end.

(** [np.concatenate([a, b], axis=1)] on two 2-D arrays: the numbers of
    rows must agree. *)
Definition concatenate_columns (a b : matrix V) : result (matrix V) :=
  if decide (Py.len a = Py.len b) then Ok (zip_with app a b)
  else Raise (ValueError
          "all the input array dimensions except for the concatenation axis must match exactly").

(** The predictors of every step, read from the last window followed by
    the predictions: [full_predictors[idx + len(full_predictors)]] with
    [idx = np.arange(-steps, 0)[:, None] - self.lags]. *)
Definition predictors_of (lags : list Z) (steps : Z) (full_predictors : list V)
  : result (matrix V) :=
  mapM (λ r, Py.take_indices full_predictors
               ((λ lag, r - lag + Py.len full_predictors) <$> lags))
       (Py.range2 (- steps) 0).

(** [create_predict_X]; the frame is built on [X_predict], its column
    labels and its index are not modelled. *)
Definition create_predict_X (f : t) (steps : Z) (last_window : option (list V))
    (exog : option (matrix V)) : result (matrix V) * t :=
  match predict f steps last_window exog true with
  | (Raise e, f) => (Raise e, f)
  | (Ok predictions, f) =>
      match _create_predict_inputs f steps last_window exog false true false false with
      | (Raise e, f) => (Raise e, f)
      | (Ok (last_window_values, exog_values), f) =>
          (X_predict ← predictors_of (lags f) steps (last_window_values ++ predictions);
           match exog_values with
           | Some exog_values => concatenate_columns X_predict exog_values
           | None => Ok X_predict
           end, f)
      end
  end.

(** [create_predict_X_013]. *)
Definition create_predict_X_013 (f : t) (steps : Z) (last_window : option (list V))
    (exog : option (matrix V)) : result (matrix V) * t :=
  match _create_predict_inputs_013 f steps last_window exog with
  | (Raise e, f) => (Raise e, f)
  | (Ok (last_window_values, exog_values), f) =>
      match predict_013 f steps last_window exog with
      | (Raise e, f) => (Raise e, f)
      | (Ok predictions, f) =>
          (X_predict ← predictors_of (lags f) steps (last_window_values ++ predictions);
           match exog_values with
           | Some exog_values => concatenate_columns X_predict exog_values
           | None => Ok X_predict
           end, f)
      end
  end.

(** One step of the inner loop of [predict_bootstrapping_013], on the
    state [(column, last_window_boot, exog_boot, rng)]: one value is
    predicted, a residual is added to it, and the window moves on by one
    place. *)
Definition boot_013_step (f : t) (residuals_by_bin : option (Dict.t (list V)))
    (sampled_residuals : list V) (binned_residuals : bool)
    (st : list V * list V * option (matrix V) * G) (step : Z)
  : result (list V * list V * option (matrix V) * G) :=
  let '(column, last_window_boot, exog_boot, rng) := st in
  prediction ← _recursive_predict_013 f 1 last_window_boot exog_boot;
  '(sampled_residual, rng) ←
    (if binned_residuals then
       p ← Py.getitem prediction 0;
       let predicted_bin := binner_transform (binner f) p in
       d ← of_option (TypeError "NoneType object is not subscriptable") residuals_by_bin;
       pool ← Dict.getitem d predicted_bin;
       '(rng, r) ← choice rng (Some pool) 1 true;
       Ok (r, rng)
     else r ← Py.getitem sampled_residuals step; Ok ([r], rng));
  let prediction_with_residual := zip_with add prediction sampled_residual in
  v ← Py.getitem prediction_with_residual 0;
  column ← Py.setitem column step v;
  let last_window_boot := Py.slice_from last_window_boot 1 ++ prediction_with_residual in
  let exog_boot := (λ ex, Py.slice_from ex 1) <$> exog_boot in
  Ok (column, last_window_boot, exog_boot, rng).

(** One iteration of the loop over [n_boot]: the column of iteration [i],
    computed with a generator seeded with [seeds[i]]. *)
Definition boot_013_iteration (f : t) (steps : Z) (last_window_values : list V)
    (exog_values : option (matrix V)) (residuals : option (list V))
    (residuals_by_bin : option (Dict.t (list V))) (binned_residuals : bool)
    (seeds : list Z) (i : Z) : result (list V) :=
  seed ← Py.getitem seeds i;
  let rng : G := default_rng seed in
  sampled ← (if binned_residuals then Ok (rng, [])
             else choice rng residuals steps true);
  column ← Py.full steps nan;
  st ← foldM (boot_013_step f residuals_by_bin sampled.2 binned_residuals)
             (Py.range steps) (column, last_window_values, exog_values, sampled.1);
  undo_differentiation f st.1.1.1.

(** [predict_bootstrapping_013]. *)
Definition predict_bootstrapping_013 (f : t) (steps : Z) (last_window : option (list V))
    (exog : option (matrix V)) (n_boot random_state : Z)
    (in_sample_residuals binned_residuals : bool) : result (matrix V) * t :=
  match check_out_sample_residuals f true in_sample_residuals binned_residuals with
  | Raise e => (Raise e, f)
  | Ok _ =>
      match _create_predict_inputs_013 f steps last_window exog with
      | (Raise e, f) => (Raise e, f)
      | (Ok (last_window_values, exog_values), f) =>
          (_ ← full_2d steps n_boot;
           let rng : G := default_rng random_state in
           let seeds := (rng_integers rng 0 10000 (Z.to_nat n_boot)).2 in
           let residuals :=
             if in_sample_residuals then in_sample_residuals_ f
             else out_sample_residuals_ f in
           let residuals_by_bin :=
             if in_sample_residuals then in_sample_residuals_by_bin_ f
             else out_sample_residuals_by_bin_ f in
           cols ← mapM (boot_013_iteration f steps last_window_values exog_values residuals
                          residuals_by_bin binned_residuals seeds)
                       (Py.range n_boot);
           let cols :=
             (λ col, (transform_series col (transformer_y f) false true).2) <$> cols in
           Ok (rows_of_columns steps cols), f)
      end
  end.

(** *** Intervals, quantiles and distributions *)

Section Summaries.
Context {D : Type} `{!Summaries V D}.

(** [predict_interval]: every row holds the prediction, the lower and the
    upper bound of a step. *)
Definition predict_interval (f : t) (steps : Z) (last_window : option (list V))
    (exog : option (matrix V)) (interval : list V) (n_boot random_state : Z)
    (in_sample_residuals binned_residuals : bool) : result (matrix V) * t :=
  match check_interval (D := D) (Some interval) None with
  | Some e => (Raise e, f)
  | None =>
      match predict_bootstrapping f steps last_window exog n_boot random_state
              in_sample_residuals binned_residuals with
      | (Raise e, f) => (Raise e, f)
      | (Ok boot_predictions, f) =>
          match predict f steps last_window exog false with
          | (Raise e, f) => (Raise e, f)
          | (Ok predictions, f) =>
              (let interval := scale_percent (D := D) <$> interval in
               predictions_interval ← frame_quantile (D := D) boot_predictions interval;
               _ ← (if decide (Py.len interval = 2) then Ok ()
                    else Raise (ValueError "Length mismatch"));
               Ok (zip_with (λ p bounds, p :: bounds) predictions predictions_interval), f)
          end
      end
  end.

(** [predict_quantiles]: one row per step, one column per quantile. *)
Definition predict_quantiles (f : t) (steps : Z) (last_window : option (list V))
    (exog : option (matrix V)) (quantiles : list V) (n_boot random_state : Z)
    (in_sample_residuals binned_residuals : bool) : result (matrix V) * t :=
  match check_interval (D := D) None (Some quantiles) with
  | Some e => (Raise e, f)
  | None =>
      match predict_bootstrapping f steps last_window exog n_boot random_state
              in_sample_residuals binned_residuals with
      | (Raise e, f) => (Raise e, f)
      | (Ok boot_predictions, f) =>
          (frame_quantile (D := D) boot_predictions quantiles, f)
      end
  end.

(** [predict_dist]: the parameters of the distribution fitted on the
    sample of every step; the names of the parameters, read off the
    distribution, are not modelled. *)
Definition predict_dist (f : t) (steps : Z) (last_window : option (list V))
    (exog : option (matrix V)) (distribution : D) (n_boot random_state : Z)
    (in_sample_residuals binned_residuals : bool) : result (matrix V) * t :=
  match predict_bootstrapping f steps last_window exog n_boot random_state
          in_sample_residuals binned_residuals with
  | (Raise e, f) => (Raise e, f)
  | (Ok boot_samples, f) =>
      (if decide (Py.len boot_samples = 0) then
         Raise (ValueError "Cannot apply_along_axis when any iteration dimensions are 0")
       else mapM (distribution_fit distribution) boot_samples, f)
  end.

End Summaries.

End ForecasterAutoreg.
End ForecasterAutoreg.

(** ** ForecasterAutoregMultiVariate: the direct prediction engine *)

Module ForecasterAutoregMultiVariate.
Section ForecasterAutoregMultiVariate.
Context {V R T G : Type}.
Context `{!Numeric V, !Regressor V R, !Transformer V T, !Generator V G, !InputCheck V}.

(** A pandas DataFrame: its named columns, in order. *)
Abbreviation frame := (list (string * list V)) (only parsing).

(** [df[name]]. *)
Fixpoint frame_col (df : frame) (name : string) : result (list V) :=
  match df with
  | [] => Raise (NameKeyError name)
  | (n, c) :: df' => if decide (n = name) then Ok c else frame_col df' name
  end.

(** The attributes read by [predict] and [predict_bootstrapping]. The
    per-step dictionaries are only looked up by key. *)
Record t : Type := Make {
  steps : Z;
  level : string;
  regressors_ : gmap Z R;
  lags_ : option (gmap string (list Z));
  X_train_series_names_in_ : option (list string);
  transformer_series_ : option (gmap string (option T));
  transformer_exog : option T;
  window_size : Z;
  last_window_ : option frame;
  is_fitted : bool;
  exog_in_ : bool;
  in_sample_residuals_ : gmap Z (option (list V));
  out_sample_residuals_ : option (gmap Z (option (list V)))
}.

(** The forecaster with other per-step regressors. *)
Definition with_regressors (f : t) (regressors : gmap Z R) : t :=
  Make (steps f) (level f) regressors (lags_ f) (X_train_series_names_in_ f)
    (transformer_series_ f) (transformer_exog f) (window_size f) (last_window_ f)
    (is_fitted f) (exog_in_ f) (in_sample_residuals_ f) (out_sample_residuals_ f).

(** [utils.prepare_steps_direct] is not in the sources; it is modelled
    from the documentation of the [steps] argument in [predict]: an [int]
    stands for the steps from 1 to it, a list is taken as it is, [None]
    stands for all the steps of the forecaster. *)
Definition prepare_steps_direct (steps : steps_arg) (max_step : Z) : list Z :=
  match steps with
  | StepsInt n => Py.range2 1 (n + 1)
  | StepsList l => l
  | StepsNone => Py.range2 1 (max_step + 1)
  end.

(** Modelled from the spec: [utils.exog_to_direct_numpy] is not in the
    sources. Its first row holds, one after the other, the exogenous rows
    of the horizons 1 to [steps], so that each horizon finds its own
    exogenous slice; fewer rows than horizons leave no first row. *)
Definition exog_to_direct_numpy_row (exog : matrix V) (steps : Z) : result (list V) :=
  if decide (Py.len exog < steps) then Raise IndexError
  else Ok (concat (Py.slice_to exog steps)).

(** [self.transformer_series_[name]]. *)
Definition series_transformer (f : t) (name : string) : result (option T) :=
  m ← of_option (TypeError "transformer_series_") (transformer_series_ f);
  of_option (NameKeyError name) (m !! name).

(** The row of lags shared by every horizon, built from the last window. *)
Definition build_X_lags (f : t) (last_window : frame) : result (list V) :=
  names ← of_option (TypeError "X_train_series_names_in_") (X_train_series_names_in_ f);
  window ← mapM (λ name, c ← frame_col last_window name;
                         Ok (name, Py.slice_from c (- window_size f))) names;
  foldM (λ X_lags serie,
           col ← frame_col window serie;
           tr ← series_transformer f serie;
           let last_window_serie := (transform_numpy col tr false false).2 in
           lags_map ← of_option (TypeError "lags_") (lags_ f);
           lags ← of_option (NameKeyError serie) (lags_map !! serie);
           x ← Py.take_indices last_window_serie (Z.opp <$> lags);
           Ok (X_lags ++ x))
        names [].

Definition predict_check_args (f : t) (steps : list Z) (last_window : option frame)
    (exog : option (matrix V)) : check_args V :=
  CheckArgs "ForecasterAutoregMultiVariate" (StepsList steps) (is_fitted f) (exog_in_ f)
    (window_size f) last_window exog (Some (ForecasterAutoregMultiVariate.steps f)) None.

(** [_create_predict_inputs]: the input row of every requested step and
    the prepared steps. The prediction index is not modelled beyond the
    positions it is read at. *)
Definition _create_predict_inputs (f : t) (steps : steps_arg) (last_window : option frame)
    (exog : option (matrix V)) (check_inputs : bool) : result (list (list V) * list Z) :=
  let steps := prepare_steps_direct steps (ForecasterAutoregMultiVariate.steps f) in
  let last_window := match last_window with None => last_window_ f | Some _ => last_window end in
  _ ← (if check_inputs then
         match check_predict_input (predict_check_args f steps last_window exog) with
         | Some e => Raise e
         | None => Ok ()
         end
       else Ok ());
  last_window ← of_option AttributeError last_window;
  X_lags ← build_X_lags f last_window;
  Xs ← match exog with
       | Some ex =>
           let ex := (transform_matrix ex (transformer_exog f) false false).2 in
           max_steps ← Py.max_list steps;
           exog_values ← exog_to_direct_numpy_row (Py.slice_to ex max_steps) max_steps;
           let n_exog := Py.len (default [] (head ex)) in
           Ok ((λ step, X_lags ++ Py.slice exog_values ((step - 1) * n_exog) (step * n_exog))
                 <$> steps)
       | None => Ok (replicate (length steps) X_lags)
       end;
  max_steps ← Py.max_list steps;
  _ ← mapM (λ step, of_option IndexError (Py.norm_index max_steps (step - 1))) steps;
  Ok (Xs, steps).

(** What [predict] returns and the calls it makes: [invoked] is the log
    of the calls of [regressor.predict], in order, each with the step
    whose regressor is called and the row it is called on. *)
Record prediction : Type := Prediction {
  values : list V;
  invoked : list (Z * list V)
}.

(** [regressor.predict(X).ravel()[0]] on the regressor taken from
    [self.regressors_[step]]: every call adds its entry to the log. The
    object is known by the step it is stored for. *)
Definition call_predict (log : list (Z * list V)) (regressor : Z * R) (X : list V)
  : V * list (Z * list V) :=
  (reg_predict regressor.2 X, log ++ [(regressor.1, X)]).

(** The comprehension over [zip(regressors, Xs)]. *)
Definition call_regressors (regressors : list (Z * R)) (Xs : list (list V))
  : list V * list (Z * list V) :=
  foldl (λ acc rX,
           let '(v, log) := call_predict acc.2 rX.1 rX.2 in
           (acc.1 ++ [v], log))
        ([], []) (zip regressors Xs).

(** [predict]. *)
Definition predict (f : t) (steps : steps_arg) (last_window : option frame)
    (exog : option (matrix V)) (check_inputs : bool) : result prediction :=
  '(Xs, steps) ← _create_predict_inputs f steps last_window exog check_inputs;
  regressors ← mapM (λ step, r ← of_option (KeyError step) (regressors_ f !! step);
                             Ok (step, r)) steps;
  let '(predictions, log) := call_regressors regressors Xs in
  tr ← series_transformer f (level f);
  Ok (Prediction (transform_numpy predictions tr false true).2 log).

(** The checks of [predict_bootstrapping] on the residuals of the
    requested steps. *)
Definition check_residuals (steps : list Z) (residuals : gmap Z (option (list V)))
  : result () :=
  _ ← mapM (λ step,
              match residuals !! step with
              | None => Raise (KeyError step)
              | Some None => Raise (ValueError "forecaster residuals for step are None")
              | Some (Some a) =>
                  if existsb isnan a
                  then Raise (ValueError "forecaster residuals for step contain NaNs")
                  else Ok ()
              end) steps;
  Ok ().

(** The residuals of a step can be drawn from: they are stored and hold
    no [NaN]. *)
Definition usable_residuals (pool : gmap Z (option (list V))) (step : Z) : Prop :=
  ∃ a, pool !! step = Some (Some a) ∧ existsb isnan a = false.

Definition select_residuals (f : t) (steps : list Z) (use_in_sample_residuals : bool)
  : result (gmap Z (option (list V))) :=
  if use_in_sample_residuals then
    if bool_decide (Forall (λ s, is_Some (in_sample_residuals_ f !! s)) steps)
    then Ok (in_sample_residuals_ f)
    else Raise (ValueError "Not forecaster.in_sample_residuals_ for steps")
  else
    match out_sample_residuals_ f with
    | None => Raise (ValueError "forecaster.out_sample_residuals_ is None")
    | Some out =>
        if bool_decide (Forall (λ s, is_Some (out !! s)) steps)
        then Ok out
        else Raise (ValueError "Not forecaster.out_sample_residuals_ for steps")
    end.

(** The [n] columns of a list of rows (or the [n] rows of a list of
    columns). *)
Definition transpose (n : Z) (m : list (list V)) : list (list V) :=
  (λ j, (λ row : list V, default nan (row !! Z.to_nat j)) <$> m) <$> Py.range n.

(** The loop adding to the row of every step [n_boot] residuals drawn
    with replacement from the residuals of that step. *)
Definition boot_rows (residuals : gmap Z (option (list V))) (n_boot : Z) (rng : G)
    (steps : list Z) (predictions : list V) : result (list (list V)) :=
  r ← foldM (λ (st : list (list V) * G) (ip : Z * V),
               let '(rows, rng) := st in
               pool ← of_option (KeyError ip.1) (residuals !! ip.1);
               '(rng, sample_residuals) ← choice rng pool n_boot true;
               Ok (rows ++ [zip_with add (replicate (Z.to_nat n_boot) ip.2) sample_residuals],
                   rng))
            (zip steps predictions) ([], rng);
  Ok r.1.

(** [predict_bootstrapping]: the ensemble as one row of [n_boot] values
    per requested step. *)
Definition predict_bootstrapping (f : t) (steps : steps_arg) (last_window : option frame)
    (exog : option (matrix V)) (n_boot random_state : Z) (use_in_sample_residuals : bool)
  : result (list (list V)) :=
  prepared ←
    (if is_fitted f then
       let steps := prepare_steps_direct steps (ForecasterAutoregMultiVariate.steps f) in
       residuals ← select_residuals f steps use_in_sample_residuals;
       _ ← check_residuals steps residuals;
       Ok (StepsList steps, Some (steps, residuals))
     else Ok (steps, None));
  predictions ← predict f prepared.1 last_window exog true;
  tr ← series_transformer f (level f);
  let boot_predictions := (transform_numpy (values predictions) tr false false).2 in
  _ ← (if decide (n_boot < 0) then Raise (ValueError "negative dimensions are not allowed")
       else Ok ());
  let rng : G := default_rng random_state in
  '(steps, residuals) ← of_option UnboundLocalError prepared.2;
  rows ← boot_rows residuals n_boot rng steps boot_predictions;
  (* the inverse transformation is applied column by column, when there
     is a transformer; [np.apply_along_axis] needs a column *)
  _ ← (match tr with
       | Some _ =>
           if decide (n_boot = 0) then
             Raise (ValueError
                      "Cannot apply_along_axis when any iteration dimensions are 0")
           else Ok ()
       | None => Ok ()
       end);
  let cols := transpose n_boot rows in
  let cols := (λ col, (transform_numpy col tr false true).2) <$> cols in
  Ok (transpose (Py.len rows) cols).

(** *** Training lags and out-of-sample residuals *)

(** [_create_lags]: the lags of one series and the targets of every step;
    [data_to_return] is ['X'], ['y'], ['both'] or [None]. *)
Definition _create_lags (f : t) (y : list V) (lags : list Z) (data_to_return : option string)
  : result (option (matrix V) * option (matrix V)) :=
  match data_to_return with
  | None => Ok (None, None)
  | Some which =>
      let n_rows := Py.len y - window_size f - (steps f - 1) in
      X_data ←
        (if decide (which ≠ "y"%string) then
           _ ← ForecasterAutoreg.full_2d n_rows (Py.len lags);
           cols ← mapM (λ lag,
                          ForecasterAutoreg.assign_column n_rows
                            (Py.slice y (window_size f - lag) (- (lag + steps f - 1))))
                       lags;
           Ok (Some (ForecasterAutoreg.rows_of_columns n_rows cols))
         else Ok None);
      y_data ←
        (if decide (which ≠ "X"%string) then
           _ ← ForecasterAutoreg.full_2d n_rows (steps f);
           cols ← mapM (λ step,
                          ForecasterAutoreg.assign_column n_rows
                            (Py.slice y (window_size f + step)
                               (window_size f + step + n_rows)))
                       (Py.range (steps f));
           Ok (Some (ForecasterAutoreg.rows_of_columns n_rows cols))
         else Ok None);
      Ok (X_data, y_data)
  end.

(** The forecaster with other out-of-sample residuals. *)
Definition with_out_sample_residuals (f : t) (residuals : option (gmap Z (option (list V))))
  : t :=
  Make (steps f) (level f) (regressors_ f) (lags_ f)
    (X_train_series_names_in_ f) (transformer_series_ f) (transformer_exog f)
    (window_size f) (last_window_ f) (is_fitted f) (exog_in_ f)
    (in_sample_residuals_ f) residuals.

(** One iteration of the loop of [set_out_sample_residuals] over the
    residuals of a step. *)
Definition store_step_residuals (append : bool) (random_state : Z)
    (stored : gmap Z (option (list V))) (item : Z * list V)
  : result (gmap Z (option (list V))) :=
  let '(key, value) := item in
  let value :=
    if decide (1000 < Py.len value)
    then (rng_choice (default_rng (G := G) random_state) value 1000 false).2
    else value in
  value ←
    (if append then
       old ← of_option (KeyError key) (stored !! key);
       match old with
       | Some old =>
           let free_space := Z.max 0 (1000 - Py.len old) in
           if decide (Py.len value < free_space) then Ok (old ++ value)
           else Ok (old ++ Py.slice_to value free_space)
       | None => Ok value
       end
     else Ok value);
  Ok (<[key := Some value]> stored).

(** [set_out_sample_residuals]: the residuals of the steps of the
    forecaster are stored, the others are ignored. The steps are distinct
    keys, so the order in which the loop visits them does not matter. *)
Definition set_out_sample_residuals (f : t) (residuals : gmap Z (list V))
    (append transform : bool) (random_state : Z) : result () * t :=
  if negb (is_fitted f) then (Raise NotFittedError, f)
  else
    let stored :=
      match out_sample_residuals_ f with
      | None => list_to_map ((λ step, (step, None)) <$> Py.range2 1 (steps f + 1))
      | Some stored => stored
      end in
    let f := with_out_sample_residuals f (Some stored) in
    let residuals := filter (λ kv, is_Some (stored !! kv.1)) residuals in
    match series_transformer f (level f) with
    | Raise e => (Raise e, f)
    | Ok tr =>
        let residuals :=
          match transform, tr with
          | true, Some _ => (λ value, (transform_numpy value tr false false).2) <$> residuals
          | _, _ => residuals
          end in
        match foldM (store_step_residuals append random_state) (map_to_list residuals)
                stored with
        | Raise e => (Raise e, f)
        | Ok stored => (Ok (), with_out_sample_residuals f (Some stored))
        end
    end.

End ForecasterAutoregMultiVariate.
End ForecasterAutoregMultiVariate.

(** ** Concrete collaborators

    Instances of the interfaces on which the forecasters can be run: exact
    rational values with a [nan], an estimator that predicts the mean of its
    row or a constant, the quantile discretizer, and a small deterministic
    generator. *)

Module Concrete.

(** Values: a rational or [nan]. *)
Abbreviation num := (option Q) (only parsing).

Definition num_add (a b : num) : num :=
  match a, b with
  | Some x, Some y => Some (Qred (x + y))
  | _, _ => None
  end.

Definition num_sub (a b : num) : num :=
  match a, b with
  | Some x, Some y => Some (Qred (x - y))
  | _, _ => None
  end.

#[global] Instance num_numeric : Numeric num := {|
  nan := None;
  zero := Some 0%Q;
  add := num_add;
  sub := num_sub;
  isnan := λ a, match a with None => true | Some _ => false end;
  lessb := λ a b, match a, b with
                  | Some x, Some y => negb (Qle_bool y x)
                  | _, _ => false
                  end;
  equalb := λ a b, match a, b with
                   | Some x, Some y => Qeq_bool x y
                   | _, _ => false
                   end
|}.

(** The integer [z] as a value. *)
Definition of_Z (z : Z) : num := Some (inject_Z z).

(** [np.mean] of a row; [nan] as soon as one entry is [nan]. *)
Definition mean (row : list num) : num :=
  match mapM (of_option IndexError) row with
  | Ok qs => Some (Qred (foldr Qplus 0%Q qs / inject_Z (Py.len qs)))
  | Raise _ => None
  end.

(** Two estimators: the mean of the input row, and a constant. Fitting
    leaves them as they are. *)
Inductive estimator : Type :=
| MeanOfRow
| Constant (c : num).

#[global] Instance estimator_regressor : Regressor num estimator := {|
  reg_fit := λ r _ _ _, r;
  reg_predict := λ r row, match r with MeanOfRow => mean row | Constant c => c end
|}.

(** A transformer that shifts every value by a constant. *)
Definition shift : Type := Q.

#[global] Instance shift_transformer : Transformer num shift := {|
  tr_fit := λ t _, t;
  tr_transform := λ t m, fmap (M := list) (fmap (M := list) (λ v, num_add v (Some t))) m;
  tr_inverse_transform := λ t m, fmap (M := list) (fmap (M := list) (λ v, num_sub v (Some t))) m
|}.

(** The quantile strategy of [KBinsDiscretizer]: the edges are the
    percentiles [0, 100/n_bins, ..., 100] of the fitted values, computed
    with linear interpolation; an edge closer than [1e-8] to the previous
    one is dropped; a value falls in the bin counted by the inner edges
    that are at most the value. (On a constant feature scikit-learn keeps
    the single bin from minus to plus infinity; the values here have no
    infinities and the scenarios below fit no constant feature.) *)
Record quantile_binner : Type := QuantileBinner {
  n_bins : Z;
  edges : list num
}.

Definition Qle_rel (x y : Q) : Prop := Qle_bool x y = true.

#[global] Instance Qle_rel_dec : RelDecision Qle_rel.
Proof. intros x y. unfold Qle_rel. apply _. Defined.

Definition percentile (sorted : list Q) (k n : Z) : Q :=
  let h := (inject_Z (Py.len sorted - 1) * inject_Z k / inject_Z n)%Q in
  let lo := Qfloor h in
  let a := default 0%Q (sorted !! Z.to_nat lo) in
  let b := default a (sorted !! Z.to_nat (lo + 1)) in
  Qred (a + (h - inject_Z lo) * (b - a)).

Fixpoint drop_narrow (prev : Q) (es : list Q) : list Q :=
  match es with
  | [] => []
  | e :: es' =>
      if Qle_bool (e - prev) (1 # 100000000) then drop_narrow prev es'
      else e :: drop_narrow e es'
  end.

Definition quantile_edges (n : Z) (data : list Q) : list Q :=
  let sorted := merge_sort Qle_rel data in
  match (λ k, percentile sorted k n) <$> Py.range (n + 1) with
  | [] => []
  | e :: es => e :: drop_narrow e es
  end.

Definition values_of (data : list num) : list Q :=
  omap id data.

Definition searchsorted_right (inner : list Q) (x : Q) : Z :=
  Py.len (filter (λ e, Qle_rel e x) inner).

Definition inner_edges (es : list num) : list Q :=
  values_of (Py.slice es 1 (-1)).

#[global] Instance quantile_discretizer : Discretizer num quantile_binner := {|
  binner_is_fitted := λ b, bool_decide (edges b ≠ []);
  binner_fit := λ b data, QuantileBinner (n_bins b) (Some <$> quantile_edges (n_bins b) (values_of data));
  binner_transform := λ b x,
    match x with
    | Some q => searchsorted_right (inner_edges (edges b)) q
    | None => 0
    end;
  bin_edges_ := edges
|}.

(** The discretizer of the default [binner_kwargs]: 10 quantile bins. *)
Definition default_binner : quantile_binner := QuantileBinner 10 [].

(** A deterministic generator: its state is a counter; a draw with
    replacement reads the population round-robin from the counter, a draw
    without replacement takes the population rotated by the counter. *)
Definition counter : Type := Z.

Definition rotate_from {A} (g : Z) (pop : list A) : list A :=
  rotate (Z.to_nat (g `mod` Z.max 1 (Py.len pop))) pop.

Definition draw (g : counter) (pop : list num) (n : nat) (replace : bool)
  : counter * list num :=
  (g + Z.of_nat n,
   if replace
   then (λ i, default None (pop !! ((Z.to_nat g + i) `mod` length pop)%nat)) <$> seq 0 n
   else take n (rotate_from g pop)).

#[global] Instance counter_generator : Generator num counter := {|
  default_rng := λ seed, seed;
  rng_choice := draw;
  rng_integers := λ g low high n,
    (g + Z.of_nat n, (λ i, low + (g + i) `mod` Z.max 1 (high - low)) <$> seqZ 0 (Z.of_nat n))
|}.

(** An input check that asks for a fitted forecaster and at least one
    step. *)
#[global] Instance fitted_check : InputCheck num := {|
  check_predict_input := λ a,
    if negb (ca_is_fitted a) then Some NotFittedError
    else match ca_steps a with
         | StepsInt n => if decide (n < 1) then Some (InputError 1) else None
         | StepsList l =>
             if decide (Forall (λ s, 1 ≤ s ≤ default s (ca_max_steps a)) l)
             then None else Some (InputError 2)
         | StepsNone => None
         end
|}.

(** The reductions of an ensemble used in the scenarios: every interval
    and every list of quantiles is accepted; the quantile of a row is
    the one of pandas, with linear interpolation between the two nearest
    values of the sorted row, [NaN] left aside; the only distribution is
    the uniform one, whose fit returns the minimum of the sample and its
    range, and refuses a sample that is empty or holds a [NaN]. *)
Definition quantile (sorted : list Q) (q : Q) : Q :=
  let h := (inject_Z (Py.len sorted - 1) * q)%Q in
  let lo := Qfloor h in
  let a := default 0%Q (sorted !! Z.to_nat lo) in
  let b := default a (sorted !! Z.to_nat (lo + 1)) in
  Qred (a + (h - inject_Z lo) * (b - a)).

Inductive distribution : Type :=
| Uniform.

Definition uniform_fit (sample : list num) : result (list num) :=
  match mapM (of_option (ValueError "The data contains non-finite values.")) sample with
  | Raise e => Raise e
  | Ok qs =>
      match merge_sort Qle_rel qs with
      | [] => Raise (ValueError "zero-size array to reduction operation")
      | lo :: rest => Ok [Some lo; Some (Qred (List.last rest lo - lo))]
      end
  end.

#[global] Instance frame_summaries : Summaries num distribution := {|
  check_interval := λ _ _, None;
  scale_percent := λ v, (λ q, Qred (q / 100)) <$> v;
  frame_quantile := λ m qs,
    Ok ((λ row, (λ q : num, quantile (merge_sort Qle_rel (values_of row)) <$> q) <$> qs)
          <$> m);
  distribution_fit := λ _, uniform_fit
|}.

(** *** Forecasters of the scenarios *)

Definition blank : ForecasterAutoreg.t (V := option Q) (R := estimator) (T := shift)
                     (B := quantile_binner) :=
  ForecasterAutoreg.Make MeanOfRow [] 0 0 0 None None None None None false None None None
    None false default_binner None None.

(** The forecaster built by [__init__] and then fitted on [y], storing the
    last window and the in-sample residuals; [blank] if that raises. *)
Definition fitted (regressor : estimator) (lags : ForecasterAutoreg.lags_arg)
    (differentiation : option Z) (binner0 : quantile_binner) (y : list (option Q))
  : ForecasterAutoreg.t :=
  match ForecasterAutoreg.init regressor lags None None differentiation binner0 None with
  | Ok f =>
      match ForecasterAutoreg.fit (G := counter) f y None true true with
      | (Ok _, f') => f'
      | (Raise _, _) => blank
      end
  | Raise _ => blank
  end.

(** The series [1, 2, ..., n]. *)
Definition ramp (n : Z) : list (option Q) := of_Z <$> seqZ 1 n.

(** Lags [1, 2, 3], the mean estimator, the default discretizer, fitted
    on [1, ..., 10]. *)
Definition mean_forecaster : ForecasterAutoreg.t :=
  Eval vm_compute in
    fitted MeanOfRow (ForecasterAutoreg.LagsList [1; 2; 3]) None default_binner (ramp 10).

(** The series [1, 4, 9, ..., n * n]. *)
Definition squares (n : Z) : list (option Q) := (λ i, of_Z (i * i)) <$> seqZ 1 n.

(** The same with differencing of order 1, fitted on [1, 4, ..., 100]. *)
Definition differenced_forecaster : ForecasterAutoreg.t :=
  Eval vm_compute in
    fitted MeanOfRow (ForecasterAutoreg.LagsList [1; 2; 3]) (Some 1) default_binner
      (squares 10).


(** 1400 residuals with their predictions, which run through 2, ..., 8. *)
Definition many_residuals : list (option Q) := ramp 1400.
Definition many_predictions : list (option Q) :=
  (λ i, of_Z (2 + i `mod` 7)) <$> seqZ 0 1400.

(** A direct forecaster of 3 steps on one series ["y"] with lags
    [1, 2, 3], no transformer, and a constant estimator per step. *)
Definition direct_forecaster (c1 c2 c3 : option Q)
  : ForecasterAutoregMultiVariate.t (V := option Q) (R := estimator) (T := shift) :=
  ForecasterAutoregMultiVariate.Make 3 "y"
    (<[1 := Constant c1]> (<[2 := Constant c2]> (<[3 := Constant c3]> ∅)))
    (Some {["y"%string := [1; 2; 3]]})
    (Some ["y"%string])
    (Some {["y"%string := None]})
    None 3
    (Some [("y"%string, of_Z <$> [8; 9; 10])])
    true false
    (<[1 := Some [of_Z 1; of_Z (-1)]]>
       (<[2 := Some [of_Z 2]]> (<[3 := Some [of_Z 3; of_Z 0]]> ∅)))
    None.

(** The forecaster of [__init__] with lags [1, 2, 3], the mean estimator
    and the default discretizer, before any fit. *)
Definition unfitted_forecaster : ForecasterAutoreg.t (V := option Q) (R := estimator)
                                   (T := shift) (B := quantile_binner) :=
  ForecasterAutoreg.Make MeanOfRow [1; 2; 3] 3 3 3 None None None None None false None None
    None None false default_binner None None.

(** The same with a weight function that gives the weight [w] to every
    training row. *)
Definition weighted_forecaster (w : option Q)
  : ForecasterAutoreg.t (V := option Q) (R := estimator) (T := shift) (B := quantile_binner) :=
  ForecasterAutoreg.Make MeanOfRow [1; 2; 3] 3 3 3 None None None None None false None None
    None None false default_binner None (Some (λ index, Some (replicate (length index) w))).

(** The same, fitted on [1, ..., 10] without storing the in-sample
    residuals. *)
Definition plain_forecaster : ForecasterAutoreg.t :=
  Eval vm_compute in
    (ForecasterAutoreg.fit (G := counter) unfitted_forecaster (ramp 10) None true false).2.

(** A fitted forecaster whose estimator always answers 5, with two
    out-of-sample residuals equal to 0. *)
Definition constant_forecaster : ForecasterAutoreg.t :=
  ForecasterAutoreg.set_out_sample_residuals_
    (ForecasterAutoreg.set_regressor mean_forecaster (Constant (of_Z 5)))
    (Some [of_Z 0; of_Z 0]).

End Concrete.

(** * Properties *)

(** ** The result type and the primitives *)

Section Primitives.
Context {A B : Type}.
Implicit Types (l : list A) (j n : Z).

Lemma mapM_Ok (g : A → result B) (h : A → B) l :
  Forall (λ x, g x = Ok (h x)) l → mapM g l = Ok (h <$> l).
Proof.
  induction 1 as [|x l Hx _ IH]; [done|].
  simpl. rewrite Hx. simpl. by rewrite IH.
Qed.

Lemma mapM_length (g : A → result B) l ys :
  mapM g l = Ok ys → length ys = length l.
Proof.
  revert ys. induction l as [|x l IH]; intros ys; simpl.
  - by intros [= <-].
  - destruct (g x) as [y|]; [|done]. simpl.
    destruct (mapM g l) as [ys'|]; [|done]. simpl.
    intros [= <-]. simpl. f_equal. by apply IH.
Qed.

Lemma mapM_ext (g g' : A → result B) l :
  (∀ x, g x = g' x) → mapM g l = mapM g' l.
Proof. intros E. induction l as [|x l IH]; [done|]. simpl. by rewrite E, IH. Qed.

Lemma len_nonneg l : 0 ≤ Py.len l.
Proof. unfold Py.len. lia. Qed.

Lemma len_app l l' : Py.len (l ++ l') = Py.len l + Py.len l'.
Proof. unfold Py.len. rewrite length_app. lia. Qed.

Lemma norm_index_neg n j :
  - n ≤ j < 0 → Py.norm_index n j = Some (Z.to_nat (n + j)).
Proof.
  intros Hj. unfold Py.norm_index.
  destruct (decide (0 ≤ j < n)); [lia|]. by destruct (decide (- n ≤ j < 0)).
Qed.

Lemma norm_index_pos n j :
  0 ≤ j < n → Py.norm_index n j = Some (Z.to_nat j).
Proof. intros Hj. unfold Py.norm_index. by destruct (decide (0 ≤ j < n)). Qed.

Lemma norm_index_lt n j p : Py.norm_index n j = Some p → Z.of_nat p < n.
Proof.
  unfold Py.norm_index.
  destruct (decide (0 ≤ j < n)); [intros [= <-]; lia|].
  destruct (decide (- n ≤ j < 0)); [intros [= <-]; lia|done].
Qed.

Lemma getitem_neg l j x :
  - Py.len l ≤ j < 0 → l !! Z.to_nat (Py.len l + j) = Some x → Py.getitem l j = Ok x.
Proof. intros Hj Hx. unfold Py.getitem. rewrite norm_index_neg by done. by rewrite Hx. Qed.

Lemma getitem_pos l j x :
  0 ≤ j → l !! Z.to_nat j = Some x → Py.getitem l j = Ok x.
Proof.
  intros Hj Hx. unfold Py.getitem.
  apply lookup_lt_Some in Hx as Hlt.
  rewrite norm_index_pos by (unfold Py.len; lia). by rewrite Hx.
Qed.

Lemma setitem_neg l j x :
  - Py.len l ≤ j < 0 → Py.setitem l j x = Ok (<[Z.to_nat (Py.len l + j) := x]> l).
Proof. intros Hj. unfold Py.setitem. by rewrite norm_index_neg. Qed.

Lemma setitem_pos l j x :
  0 ≤ j < Py.len l → Py.setitem l j x = Ok (<[Z.to_nat j := x]> l).
Proof. intros Hj. unfold Py.setitem. by rewrite norm_index_pos. Qed.

Lemma slice_in_range l a b :
  0 ≤ a ≤ b → b ≤ Py.len l →
  Py.slice l a b = take (Z.to_nat (b - a)) (drop (Z.to_nat a) l)
  ∧ Py.len (Py.slice l a b) = b - a.
Proof.
  intros Ha Hb. unfold Py.slice, Py.clamp.
  destruct (decide (a < 0)); [lia|]. destruct (decide (b < 0)); [lia|].
  rewrite !Z.min_l by lia. split; [done|].
  unfold Py.len in *. rewrite length_take, length_drop. lia.
Qed.

Lemma slice_neg_stop l a b :
  - Py.len l ≤ b < 0 → Py.slice l a b = Py.slice l a (Py.len l + b).
Proof.
  intros Hb. unfold Py.slice.
  assert (Py.clamp (Py.len l) b = Py.clamp (Py.len l) (Py.len l + b)) as ->; [|done].
  unfold Py.clamp.
  destruct (decide (b < 0)); [|lia].
  destruct (decide (Py.len l + b < 0)); lia.
Qed.

Lemma slice_from_drop l a :
  0 ≤ a → Py.slice_from l a = drop (Z.to_nat a) l.
Proof.
  intros Ha. unfold Py.slice_from, Py.clamp. destruct (decide (a < 0)); [lia|].
  destruct (decide (a ≤ Py.len l)).
  - by rewrite Z.min_l.
  - rewrite Z.min_r by lia. unfold Py.len in *.
    rewrite !drop_ge; [done|lia|lia].
Qed.

Lemma len_slice_from l a :
  0 ≤ a → Py.len (Py.slice_from l a) = Z.max 0 (Py.len l - a).
Proof.
  intros Ha. rewrite slice_from_drop by done. unfold Py.len.
  rewrite length_drop. lia.
Qed.

Lemma slice_from_neg l a :
  0 < a ≤ Py.len l → Py.slice_from l (- a) = drop (Z.to_nat (Py.len l - a)) l.
Proof.
  intros Ha. unfold Py.slice_from, Py.clamp. destruct (decide (- a < 0)); [|lia].
  rewrite Z.max_r by lia. do 2 f_equal.
Qed.

Lemma slice_to_take l b :
  0 ≤ b → Py.slice_to l b = take (Z.to_nat b) l.
Proof.
  intros Hb. unfold Py.slice_to, Py.clamp. destruct (decide (b < 0)); [lia|].
  destruct (decide (b ≤ Py.len l)).
  - by rewrite Z.min_l.
  - rewrite Z.min_r by lia. unfold Py.len in *.
    rewrite !take_ge; [done|lia|lia].
Qed.

Lemma len_slice_to_le l b : 0 ≤ b → Py.len (Py.slice_to l b) ≤ b.
Proof.
  intros Hb. rewrite slice_to_take by done. unfold Py.len.
  rewrite length_take. lia.
Qed.

End Primitives.

(** Goals on lengths, once [len] is unfolded. *)
Ltac solve_len :=
  unfold Py.len in *;
  rewrite ?length_app, ?length_replicate, ?length_insert, ?length_fmap, ?length_seqZ,
    ?length_take, ?length_drop in *;
  simpl in *; lia.

(** ** Transformers and the differentiator keep lengths *)

Section Shapes.
Context {V T : Type} `{!Numeric V, !Transformer V T, !TransformerShape V T}.

Lemma same_shape_length (m m' : list (list V)) : same_shape m m' → length m = length m'.
Proof. apply Forall2_length. Qed.

Lemma same_shape_concat (m m' : list (list V)) :
  same_shape m m' → length (concat m) = length (concat m').
Proof.
  induction 1 as [|r r' m m' Hr _ IH]; [done|].
  simpl. rewrite !length_app. by rewrite Hr, IH.
Qed.

Lemma same_shape_refl (m : list (list V)) : same_shape m m.
Proof. unfold same_shape. induction m; by constructor. Qed.

Lemma transform_matrix_shape (m : list (list V)) (tr : option T) (fit inverse : bool) :
  same_shape m (transform_matrix m tr fit inverse).2.
Proof.
  unfold transform_matrix. destruct tr as [t|]; [|apply same_shape_refl].
  destruct inverse; [apply tr_inverse_transform_shape|].
  destruct fit; apply tr_transform_shape.
Qed.

Lemma ravel_reshape_column (a : list V) : ravel (reshape_column a) = a.
Proof.
  unfold ravel, reshape_column. induction a as [|v a IH]; [done|].
  csimpl. by rewrite IH.
Qed.

Lemma transform_numpy_length (a : list V) (tr : option T) (fit inverse : bool) :
  length (transform_numpy a tr fit inverse).2 = length a.
Proof.
  unfold transform_numpy.
  pose proof (transform_matrix_shape (reshape_column a) tr fit inverse) as Hs.
  destruct (transform_matrix _ _ _ _) as [t m]. simpl in *.
  unfold ravel. rewrite <- (same_shape_concat _ _ Hs).
  fold (ravel (reshape_column a)). by rewrite ravel_reshape_column.
Qed.

Lemma transform_numpy_None (a : list V) (fit inverse : bool) :
  transform_numpy a (None : option T) fit inverse = (None, a).
Proof. unfold transform_numpy. simpl. by rewrite ravel_reshape_column. Qed.







Lemma differentiator_fit_transform_order_eq (d d' : Differentiator.t V) (x x' : list V) :
  Differentiator.fit_transform d x = Ok (d', x') →
  Differentiator.order d' = Differentiator.order d.
Proof.
  unfold Differentiator.fit_transform, Differentiator.fit.
  destruct (mapM _ _) as [lv|]; [|done]. simpl. by intros [= <- _].
Qed.

End Shapes.

(** ** The lag matrix *)

Section LagMatrix.
Context {V R T B G : Type}.
Context `{!Numeric V, !Regressor V R, !Transformer V T, !Discretizer V B,
          !Generator V G, !InputCheck V, !TransformerShape V T}.

Abbreviation forecaster := (ForecasterAutoreg.t (V := V) (R := R) (T := T) (B := B)).
Implicit Types (f : forecaster) (y : list V).

Lemma rows_of_columns_len (n : Z) (cols : list (list V)) :
  0 ≤ n → Py.len (ForecasterAutoreg.rows_of_columns n cols) = n.
Proof.
  intros Hn. unfold ForecasterAutoreg.rows_of_columns, Py.len, Py.range.
  rewrite length_fmap, length_seqZ. lia.
Qed.



Lemma lag_slice f y (lag : Z) :
  1 ≤ lag ≤ ForecasterAutoreg.max_lag f → ForecasterAutoreg.max_lag f < Py.len y →
  Py.slice y (ForecasterAutoreg.max_lag f - lag) (- lag)
  = Py.slice y (ForecasterAutoreg.max_lag f - lag) (Py.len y - lag)
  ∧ Py.len (Py.slice y (ForecasterAutoreg.max_lag f - lag) (Py.len y - lag))
    = Py.len y - ForecasterAutoreg.max_lag f.
Proof.
  intros Hlag Hn. split.
  - by rewrite slice_neg_stop by lia.
  - destruct (slice_in_range y (ForecasterAutoreg.max_lag f - lag) (Py.len y - lag))
      as [_ ->]; lia.
Qed.

Lemma create_lags_Ok f y :
  Forall (λ lag, 1 ≤ lag ≤ ForecasterAutoreg.max_lag f) (ForecasterAutoreg.lags f) →
  ForecasterAutoreg.max_lag f < Py.len y →
  ForecasterAutoreg._create_lags f y
  = Ok (ForecasterAutoreg.rows_of_columns (Py.len y - ForecasterAutoreg.max_lag f)
          ((λ lag, Py.slice y (ForecasterAutoreg.max_lag f - lag) (Py.len y - lag))
             <$> ForecasterAutoreg.lags f),
        Py.slice_from y (ForecasterAutoreg.max_lag f)).
Proof.
  intros Hlags Hn. unfold ForecasterAutoreg._create_lags.
  destruct (decide (Py.len y - ForecasterAutoreg.max_lag f ≤ 0)); [lia|].
  erewrite mapM_Ok; [done|].
  eapply Forall_impl; [exact Hlags|]. intros lag Hlag. simpl.
  destruct (lag_slice f y lag Hlag Hn) as [-> Hlen].
  unfold ForecasterAutoreg.assign_column. by rewrite decide_True.
Qed.


End LagMatrix.

(** ** The recursive engine *)

Section RecursiveEngine.
Context {V R T B G : Type}.
Context `{!Numeric V, !Regressor V R, !Transformer V T, !Discretizer V B,
          !Generator V G, !InputCheck V}.

Abbreviation forecaster := (ForecasterAutoreg.t (V := V) (R := R) (T := T) (B := B)).
Implicit Types (f : forecaster) (rng : option G).

(** *** The 0.13 engine and the current one *)

Lemma recursive_step_013_eq f steps exog predictions last_window rng i :
  ForecasterAutoreg.recursive_step f steps exog ForecasterAutoreg.ResNone false
    (predictions, last_window, rng) i
  = (λ st, (st.1, st.2, rng))
      <$> ForecasterAutoreg.recursive_step_013 f steps exog (predictions, last_window) i.
Proof.
  unfold ForecasterAutoreg.recursive_step, ForecasterAutoreg.recursive_step_013.
  destruct (Py.take_indices _ _) as [X|]; [|done]. simpl.
  destruct exog as [ex|]; simpl.
  - destruct (Py.getitem ex i) as [row|]; [|done]. simpl.
    destruct (Py.setitem predictions _ _) as [p|]; [|done]. simpl.
    by destruct (Py.setitem last_window _ _).
  - destruct (Py.setitem predictions _ _) as [p|]; [|done]. simpl.
    by destruct (Py.setitem last_window _ _).
Qed.

Lemma recursive_loop_013_eq f steps exog (l : list Z) predictions last_window rng :
  foldM (ForecasterAutoreg.recursive_step f steps exog ForecasterAutoreg.ResNone false)
    l (predictions, last_window, rng)
  = (λ st, (st.1, st.2, rng))
      <$> foldM (ForecasterAutoreg.recursive_step_013 f steps exog) l
            (predictions, last_window).
Proof.
  revert predictions last_window.
  induction l as [|i l IH]; intros predictions last_window; [done|].
  cbn [foldM]. rewrite recursive_step_013_eq.
  destruct (ForecasterAutoreg.recursive_step_013 _ _ _ _ _) as [[p w]|]; [|done].
  simpl. apply IH.
Qed.

Lemma recursive_predict_013_eq f steps last_window exog rng :
  ForecasterAutoreg._recursive_predict f steps last_window exog
    ForecasterAutoreg.ResNone false rng
  = (λ p, (p, rng)) <$> ForecasterAutoreg._recursive_predict_013 f steps last_window exog.
Proof.
  unfold ForecasterAutoreg._recursive_predict, ForecasterAutoreg._recursive_predict_013.
  destruct (Py.full steps nan) as [p0|]; [|done]. simpl.
  rewrite recursive_loop_013_eq.
  by destruct (foldM _ _ _) as [[p w]|].
Qed.

Lemma create_predict_inputs_013_eq f steps last_window exog :
  ForecasterAutoreg._create_predict_inputs f steps last_window exog false true false true
  = ForecasterAutoreg._create_predict_inputs_013 f steps last_window exog.
Proof.
  unfold ForecasterAutoreg._create_predict_inputs,
    ForecasterAutoreg._create_predict_inputs_013,
    ForecasterAutoreg.check_out_sample_residuals. simpl.
  destruct (check_predict_input _) as [e|]; [done|].
  destruct (match last_window with Some _ => last_window | None => _ end) as [w|]; [|done].
  unfold ForecasterAutoreg.prepare_last_window, ForecasterAutoreg.prepare_exog,
    transform_dataframe.
  destruct (ForecasterAutoreg.differentiation f) as [d|].
  - destruct (ForecasterAutoreg.differentiator f) as [dd|]; [|done].
    destruct (Differentiator.fit_transform _ _) as [[d' values]|]; [|done].
    by destruct exog.
  - by destruct exog.
Qed.

(** C10. On the same forecaster and the same [steps], [last_window] and
    [exog], [predict] (with its default [check_inputs = True]) and
    [predict_013] return the same predicted values, or raise the same
    exception, and leave the forecaster in the same state; the two
    recursive engines compute the same sequence. *)
Theorem predict_013_equivalent f (steps : Z) (last_window : option (list V))
    (exog : option (list (list V))) :
  ForecasterAutoreg.predict f steps last_window exog true
  = ForecasterAutoreg.predict_013 f steps last_window exog
  ∧ ∀ window rng,
      fst <$> ForecasterAutoreg._recursive_predict f steps window exog
                ForecasterAutoreg.ResNone false rng
      = ForecasterAutoreg._recursive_predict_013 f steps window exog.
Proof.
  split.
  - unfold ForecasterAutoreg.predict, ForecasterAutoreg.predict_013.
    rewrite create_predict_inputs_013_eq.
    destruct (ForecasterAutoreg._create_predict_inputs_013 _ _ _ _) as [[[w ex]|e] f'];
      [|done].
    f_equal. rewrite recursive_predict_013_eq.
    destruct (ForecasterAutoreg._recursive_predict_013 _ _ _ _) as [p|]; [|done].
    simpl. unfold ForecasterAutoreg.undo_differentiation, transform_series.
    by destruct (ForecasterAutoreg.differentiation f').
  - intros window rng. rewrite recursive_predict_013_eq.
    by destruct (ForecasterAutoreg._recursive_predict_013 _ _ _ _).
Qed.

(** *** The loop as an autoregression *)

Lemma mapM_fmap {A A' C} (g : A' → result C) (h : A → A') (l : list A) :
  mapM g (h <$> l) = mapM (g ∘ h) l.
Proof. induction l as [|x l IH]; [done|]. csimpl. by rewrite IH. Qed.

Lemma take_indices_history (history suffix : list V) (lags : list Z) (s : Z) :
  s = Py.len suffix → Forall (λ lag, 1 ≤ lag ≤ Py.len history) lags →
  Py.take_indices (history ++ suffix) ((λ lag, - lag - s) <$> lags)
  = Ok (ForecasterAutoreg.lagged_row lags history).
Proof.
  intros -> Hlags. unfold Py.take_indices, ForecasterAutoreg.lagged_row.
  rewrite mapM_fmap. apply mapM_Ok.
  eapply Forall_impl; [exact Hlags|]. intros lag Hlag. simpl.
  assert (Z.to_nat (Py.len history - lag) < length history)%nat as Hlt
    by (unfold Py.len in *; lia).
  destruct (lookup_lt_is_Some_2 _ _ Hlt) as [v Hv]. rewrite Hv. simpl.
  apply getitem_neg.
  - rewrite len_app. unfold Py.len in *. lia.
  - rewrite len_app.
    replace (Py.len history + Py.len suffix + (- lag - Py.len suffix))
      with (Py.len history - lag) by lia.
    by rewrite lookup_app_l.
Qed.

Lemma recursive_step_spec f (steps : Z) (exog : option (list (list V))) rng
    (window done : list V) (j : nat) :
  Forall (λ lag, 1 ≤ lag ≤ Py.len window) (ForecasterAutoreg.lags f) →
  (∀ ex, exog = Some ex → steps ≤ Py.len ex) →
  Py.len done + Z.of_nat (S j) = steps →
  let pred := reg_predict (ForecasterAutoreg.regressor f)
                (ForecasterAutoreg.lagged_row (ForecasterAutoreg.lags f) (window ++ done)
                 ++ ForecasterAutoreg.exog_row exog (Py.len done)) in
  ForecasterAutoreg.recursive_step f steps exog ForecasterAutoreg.ResNone false
    (done ++ replicate (S j) nan, window ++ done ++ replicate (S j) nan, rng) (Py.len done)
  = Ok ((done ++ [pred]) ++ replicate j nan,
        window ++ (done ++ [pred]) ++ replicate j nan, rng).
Proof.
  intros Hlags Hexog Hlen pred.
  unfold ForecasterAutoreg.recursive_step.
  rewrite (app_assoc window done).
  rewrite take_indices_history; cycle 1.
  { solve_len. }
  { eapply Forall_impl; [exact Hlags|]. intros lag ?. simpl. solve_len. }
  cbn [mbind result_bind].
  assert ((match exog with
           | Some ex => row ← Py.getitem ex (Py.len done);
                        Ok (ForecasterAutoreg.lagged_row
                              (ForecasterAutoreg.lags f) (window ++ done) ++ row)
           | None => Ok (ForecasterAutoreg.lagged_row
               (ForecasterAutoreg.lags f) (window ++ done))
           end)
          = Ok (ForecasterAutoreg.lagged_row (ForecasterAutoreg.lags f) (window ++ done)
                ++ ForecasterAutoreg.exog_row exog (Py.len done))) as ->.
  { unfold ForecasterAutoreg.exog_row. destruct exog as [ex|].
    - specialize (Hexog ex eq_refl).
      assert (Z.to_nat (Py.len done) < length ex)%nat as Hlt by solve_len.
      destruct (lookup_lt_is_Some_2 _ _ Hlt) as [row Hrow].
      rewrite (getitem_pos ex (Py.len done) row); [by rewrite Hrow|solve_len|done].
    - by rewrite app_nil_r. }
  cbn [mbind result_bind ForecasterAutoreg.add_step_residual].
  fold pred.
  rewrite (setitem_pos (done ++ replicate (S j) nan)) by solve_len.
  cbn [mbind result_bind].
  rewrite setitem_neg by solve_len.
  cbn [mbind result_bind]. do 3 f_equal.
  - rewrite insert_app_r_alt by solve_len.
    replace (Z.to_nat (Py.len done) - length done)%nat with 0%nat by solve_len.
    simpl. by rewrite <- app_assoc.
  - rewrite insert_app_r_alt by solve_len.
    replace (Z.to_nat (Py.len ((window ++ done) ++ replicate (S j) nan)
                       + - (steps - Py.len done))
             - length (window ++ done))%nat with 0%nat by solve_len.
    simpl. by rewrite <- !app_assoc.
Qed.

Lemma recursive_loop_spec f (steps : Z) (exog : option (list (list V))) rng
    (window : list V) :
  Forall (λ lag, 1 ≤ lag ≤ Py.len window) (ForecasterAutoreg.lags f) →
  (∀ ex, exog = Some ex → steps ≤ Py.len ex) →
  ∀ (j : nat) (done : list V), Py.len done + Z.of_nat j = steps →
  ∃ rest,
    length rest = j
    ∧ foldM (ForecasterAutoreg.recursive_step f steps exog ForecasterAutoreg.ResNone false)
        (seqZ (Py.len done) (Z.of_nat j))
        (done ++ replicate j nan, window ++ done ++ replicate j nan, rng)
      = Ok (done ++ rest, window ++ done ++ rest, rng)
    ∧ ∀ i : nat, (i < j)%nat →
        rest !! i
        = Some (reg_predict (ForecasterAutoreg.regressor f)
                  (ForecasterAutoreg.lagged_row (ForecasterAutoreg.lags f)
                     (window ++ done ++ take i rest)
                   ++ ForecasterAutoreg.exog_row exog (Py.len done + Z.of_nat i))).
Proof.
  intros Hlags Hexog j. induction j as [|j IH]; intros done Hlen.
  - exists []. split; [done|]. split; [done|]. intros i Hi. lia.
  - set (pred := reg_predict (ForecasterAutoreg.regressor f)
                   (ForecasterAutoreg.lagged_row (ForecasterAutoreg.lags f) (window ++ done)
                    ++ ForecasterAutoreg.exog_row exog (Py.len done))).
    destruct (IH (done ++ [pred])) as (rest & Hrest & Hrun & Hspec).
    { rewrite len_app. unfold Py.len at 2. simpl. lia. }
    exists (pred :: rest). split; [simpl; lia|]. split.
    + rewrite seqZ_cons by lia. cbn [foldM].
      rewrite recursive_step_spec by done. cbn [mbind result_bind].
      replace (Z.succ (Py.len done)) with (Py.len (done ++ [pred]))
        by (rewrite len_app; unfold Py.len; simpl; lia).
      replace (Z.pred (Z.of_nat (S j))) with (Z.of_nat j) by lia.
      fold pred. rewrite Hrun. by rewrite <- !app_assoc.
    + intros [|i] Hi.
      * simpl. by rewrite app_nil_r, Z.add_0_r.
      * simpl. rewrite Hspec by lia. do 3 f_equal.
        -- by rewrite <- app_assoc.
        -- f_equal. rewrite len_app. solve_len.
Qed.

Lemma recursive_predict_autoregression f (steps : Z) (window : list V)
    (exog : option (list (list V))) rng :
  0 ≤ steps →
  Forall (λ lag, 1 ≤ lag ≤ Py.len window) (ForecasterAutoreg.lags f) →
  (∀ ex, exog = Some ex → steps ≤ Py.len ex) →
  ∃ preds,
    ForecasterAutoreg._recursive_predict f steps window exog
      ForecasterAutoreg.ResNone false rng = Ok (preds, rng)
    ∧ Py.len preds = steps
    ∧ ∀ i, 0 ≤ i < steps →
        ∃ X pred,
          Py.take_indices (window ++ preds)
            ((λ lag, - lag - (steps - i)) <$> ForecasterAutoreg.lags f) = Ok X
          ∧ X = ForecasterAutoreg.lagged_row (ForecasterAutoreg.lags f)
                  (window ++ take (Z.to_nat i) preds)
          ∧ pred = reg_predict (ForecasterAutoreg.regressor f)
                     (X ++ ForecasterAutoreg.exog_row exog i)
          ∧ preds !! Z.to_nat i = Some pred
          ∧ Py.getitem (window ++ preds) (- (steps - i)) = Ok pred.
Proof.
  intros Hsteps Hlags Hexog.
  destruct (recursive_loop_spec f steps exog rng window Hlags Hexog (Z.to_nat steps) [])
    as (preds & Hlen & Hrun & Hspec); [solve_len|].
  exists preds. split; [|split; [solve_len|]].
  - unfold ForecasterAutoreg._recursive_predict, Py.full.
    rewrite decide_False by lia. cbn [mbind result_bind].
    change (Py.len (@nil V)) with 0 in Hrun. rewrite Z2Nat.id in Hrun by done.
    unfold Py.range. simpl in Hrun. rewrite Hrun. done.
  - intros i Hi. specialize (Hspec (Z.to_nat i) ltac:(lia)).
    simpl in Hspec. change (Py.len (@nil V)) with 0 in Hspec.
    rewrite Z.add_0_l, Z2Nat.id in Hspec by lia.
    eexists _, _. split; [|split; [done|split; [done|split; [exact Hspec|]]]].
    + rewrite <- (take_drop (Z.to_nat i) preds) at 1. rewrite app_assoc.
      apply take_indices_history; [solve_len|].
      eapply Forall_impl; [exact Hlags|]. intros lag ?. simpl. solve_len.
    + apply getitem_neg; [solve_len|].
      rewrite lookup_app_r by solve_len.
      rewrite <- Hspec. f_equal. solve_len.
Qed.

End RecursiveEngine.

(** ** The scenario of the mean estimator *)

Section MeanScenario.
Context {R T B G : Type}.
Context `{!Regressor Concrete.num R, !Transformer Concrete.num T,
          !Discretizer Concrete.num B, !Generator Concrete.num G,
          !InputCheck Concrete.num}.

Abbreviation rational_forecaster :=
  (ForecasterAutoreg.t (V := option Q) (R := R) (T := T) (B := B)).

Lemma mean_scenario (f : rational_forecaster) (last_window : option (list (option Q))) :
  ForecasterAutoreg.lags f = [1; 2; 3] →
  ForecasterAutoreg.window_size_diff f = 3 →
  ForecasterAutoreg.transformer_y f = None →
  ForecasterAutoreg.differentiation f = None →
  (∀ row, reg_predict (ForecasterAutoreg.regressor f) row = Concrete.mean row) →
  match last_window with
  | Some w => w
  | None => default [] (ForecasterAutoreg.last_window_ f)
  end = Concrete.of_Z <$> [8; 9; 10] →
  check_predict_input
    (ForecasterAutoreg.predict_check_args f 1 (Some (Concrete.of_Z <$> [8; 9; 10])) None)
  = None →
  (last_window = None → is_Some (ForecasterAutoreg.last_window_ f)) →
  ForecasterAutoreg.predict (G := G) f 1 last_window None true
  = (Ok [Concrete.of_Z 9], f)
  ∧ Concrete.mean (Concrete.of_Z <$> [10; 9; 8]) = Concrete.of_Z 9.
Proof.
  intros Hlags Hws Hty Hd Hmean Hw Hcheck Hstored. split; [|by vm_compute].
  unfold ForecasterAutoreg.predict, ForecasterAutoreg._create_predict_inputs.
  assert (match last_window with
          | Some _ => last_window
          | None => ForecasterAutoreg.last_window_ f
          end = Some (Concrete.of_Z <$> [8; 9; 10])) as ->.
  { destruct last_window as [w|]; [by rewrite <- Hw|].
    destruct (Hstored eq_refl) as [w Hl]. rewrite Hl in *. simpl in Hw. by rewrite Hw. }
  rewrite Hcheck. simpl.
  unfold ForecasterAutoreg.prepare_last_window. rewrite Hws, Hty, Hd. simpl.
  unfold ForecasterAutoreg._recursive_predict, ForecasterAutoreg.recursive_step.
  rewrite Hlags. simpl. rewrite Hmean.
  unfold ForecasterAutoreg.undo_differentiation. rewrite Hd, Hty. by vm_compute.
Qed.

End MeanScenario.

(** C1. With lags [1, 2, 3], no transformer, no differencing and a
    regressor that predicts the mean of its input row, [predict(steps=1)]
    from the last window [8, 9, 10] (passed, or stored by the fit on
    [1, ..., 10]) returns the single value [mean([10, 9, 8]) = 9]. In
    general, without residuals, the loop of [_recursive_predict] returns
    [steps] predictions; at step [i] the input row is read from the buffer
    [last_window ++ predictions] at the positions [-lags - (steps - i)],
    which hold the values [lag] steps before the value being predicted, the
    exogenous row [i] is appended, and the prediction of the regressor on
    that row is what the buffer holds at position [-(steps - i)]. *)
Theorem recursive_predict_contract :
  (∀ (R T B G : Type) `(!Regressor Concrete.num R) `(!Transformer Concrete.num T)
     `(!Discretizer Concrete.num B) `(!Generator Concrete.num G) `(!InputCheck Concrete.num)
     (f : ForecasterAutoreg.t (V := option Q) (R := R) (T := T) (B := B))
     (last_window : option (list (option Q))),
     ForecasterAutoreg.lags f = [1; 2; 3] →
     ForecasterAutoreg.window_size_diff f = 3 →
     ForecasterAutoreg.transformer_y f = None →
     ForecasterAutoreg.differentiation f = None →
     (∀ row, reg_predict (ForecasterAutoreg.regressor f) row = Concrete.mean row) →
     match last_window with
     | Some w => w
     | None => default [] (ForecasterAutoreg.last_window_ f)
     end = Concrete.of_Z <$> [8; 9; 10] →
     check_predict_input
       (ForecasterAutoreg.predict_check_args f 1 (Some (Concrete.of_Z <$> [8; 9; 10])) None)
     = None →
     (last_window = None → is_Some (ForecasterAutoreg.last_window_ f)) →
     ForecasterAutoreg.predict (G := G) f 1 last_window None true
     = (Ok [Concrete.of_Z 9], f)
     ∧ Concrete.mean (Concrete.of_Z <$> [10; 9; 8]) = Concrete.of_Z 9)
  ∧ (∀ (V R T B G : Type) `(!Numeric V) `(!Regressor V R) `(!Transformer V T)
       `(!Discretizer V B) `(!Generator V G) `(!InputCheck V)
       (f : ForecasterAutoreg.t (V := V) (R := R) (T := T) (B := B))
       (steps : Z) (window : list V) (exog : option (list (list V))) (rng : option G),
       0 ≤ steps →
       Forall (λ lag, 1 ≤ lag ≤ Py.len window) (ForecasterAutoreg.lags f) →
       (∀ ex, exog = Some ex → steps ≤ Py.len ex) →
       ∃ preds,
         ForecasterAutoreg._recursive_predict f steps window exog
           ForecasterAutoreg.ResNone false rng = Ok (preds, rng)
         ∧ Py.len preds = steps
         ∧ ∀ i, 0 ≤ i < steps →
             ∃ X pred,
               Py.take_indices (window ++ preds)
                 ((λ lag, - lag - (steps - i)) <$> ForecasterAutoreg.lags f) = Ok X
               ∧ X = ForecasterAutoreg.lagged_row (ForecasterAutoreg.lags f)
                       (window ++ take (Z.to_nat i) preds)
               ∧ pred = reg_predict (ForecasterAutoreg.regressor f)
                          (X ++ ForecasterAutoreg.exog_row exog i)
               ∧ preds !! Z.to_nat i = Some pred
               ∧ Py.getitem (window ++ preds) (- (steps - i)) = Ok pred).
Proof.
  split.
  - intros. by apply mean_scenario.
  - intros. by apply recursive_predict_autoregression.
Qed.

(** ** The direct engine *)

Section DirectEngine.
Context {V R T G : Type}.
Context `{!Numeric V, !Regressor V R, !Transformer V T, !Generator V G, !InputCheck V,
          !TransformerShape V T}.

Abbreviation direct := (ForecasterAutoregMultiVariate.t (V := V) (R := R) (T := T)).
Implicit Types (f : direct) (S : list Z).

Lemma foldl_max_le (x : Z) (l : list Z) :
  x ≤ foldl Z.max x l ∧ Forall (λ y, y ≤ foldl Z.max x l) l.
Proof.
  revert x. induction l as [|y l IH]; intros x; simpl; [split; [lia|constructor]|].
  destruct (IH (Z.max x y)) as [H1 H2]. split; [lia|].
  constructor; [lia|done].
Qed.

Lemma max_list_Ok (l : list Z) :
  l ≠ [] → ∃ m, Py.max_list l = Ok m ∧ Forall (λ y, y ≤ m) l.
Proof.
  destruct l as [|x l]; [done|]. intros _. eexists. split; [done|].
  destruct (foldl_max_le x l). by constructor.
Qed.

Lemma mapM_ext_in {A C} (g g' : A → result C) (l : list A) :
  Forall (λ x, g x = g' x) l → mapM g l = mapM g' l.
Proof. induction 1 as [|x l E _ IH]; [done|]. simpl. by rewrite E, IH. Qed.

Lemma mapM_regressors_Ok S (m : gmap Z R) :
  Forall (λ s, is_Some (m !! s)) S →
  ∃ rs, mapM (λ step, r ← of_option (KeyError step) (m !! step); Ok (step, r)) S
        = Ok (zip S rs)
        ∧ Forall2 (λ s r, m !! s = Some r) S rs.
Proof.
  induction 1 as [|s S [r Hr] _ (rs & IH & Hrs)]; [by exists []|].
  exists (r :: rs). simpl. rewrite Hr. cbn [of_option mbind result_bind].
  rewrite IH. split; [done|]. by constructor.
Qed.

(** The calls made by the comprehension: the regressor of every step, in
    order, on the row of its step. *)
Lemma call_regressors_zip S (rs : list R) (Xs : list (list V)) :
  length rs = length S → length Xs = length S →
  ForecasterAutoregMultiVariate.call_regressors (zip S rs) Xs
  = (zip_with reg_predict rs Xs, zip S Xs).
Proof.
  unfold ForecasterAutoregMultiVariate.call_regressors.
  assert (∀ acc log,
            length rs = length S → length Xs = length S →
            foldl (λ (acc : list V * list (Z * list V)) (rX : Z * R * list V),
                     let '(v, log) :=
                       ForecasterAutoregMultiVariate.call_predict acc.2 rX.1 rX.2 in
                     (acc.1 ++ [v], log))
                  (acc, log) (zip (zip S rs) Xs)
            = (acc ++ zip_with reg_predict rs Xs, log ++ zip S Xs)) as H.
  { revert rs Xs. induction S as [|s S IH]; intros [|r rs] [|X Xs] acc log Hr HX;
      simplify_eq/=; [by rewrite !app_nil_r|].
    rewrite IH by done. by rewrite <- !app_assoc. }
  intros Hr HX. by rewrite H.
Qed.

(** Row [i] of a matrix with rows of width [w], read from the flattened
    matrix. *)
Lemma concat_row {A} (m : list (list A)) (w i : nat) (row : list A) :
  Forall (λ r, length r = w) m → m !! i = Some row →
  take w (drop (i * w) (concat m)) = row.
Proof.
  intros Hm. revert i. induction Hm as [|r m Hr _ IH]; intros [|i] Hi; simplify_eq/=.
  - rewrite drop_0. by rewrite take_app_length'.
  - rewrite drop_app_add' by done. by apply IH.
Qed.

Lemma length_concat_rows {A} (m : list (list A)) (w : nat) :
  Forall (λ r, length r = w) m → length (concat m) = (length m * w)%nat.
Proof.
  induction 1 as [|r m Hr _ IH]; [done|]. simpl. rewrite length_app. lia.
Qed.

Lemma slice_concat_row {A} (m : list (list A)) (w s : Z) (row : list A) :
  Forall (λ r, Py.len r = w) m → 1 ≤ s → m !! Z.to_nat (s - 1) = Some row →
  Py.slice (concat m) ((s - 1) * w) (s * w) = row.
Proof.
  intros Hm Hs Hrow.
  assert (Forall (λ r, length r = Z.to_nat w) m) as Hm'.
  { eapply Forall_impl; [exact Hm|]. intros r Hr. simpl in Hr. unfold Py.len in Hr. lia. }
  assert (0 ≤ w) as Hw.
  { apply list_elem_of_lookup_2 in Hrow. rewrite Forall_forall in Hm.
    specialize (Hm _ Hrow). unfold Py.len in Hm. lia. }
  pose proof (lookup_lt_Some _ _ _ Hrow) as Hlt.
  pose proof (length_concat_rows m _ Hm') as Hlen.
  destruct (slice_in_range (concat m) ((s - 1) * w) (s * w)) as [-> _].
  - nia.
  - unfold Py.len. rewrite Hlen. nia.
  - replace (Z.to_nat (s * w - (s - 1) * w)) with (Z.to_nat w) by lia.
    replace (Z.to_nat ((s - 1) * w)) with (Z.to_nat (s - 1) * Z.to_nat w)%nat by nia.
    by apply concat_row.
Qed.

Lemma same_shape_width (m m' : list (list V)) (w : Z) :
  same_shape m m' → Forall (λ r, Py.len r = w) m → Forall (λ r, Py.len r = w) m'.
Proof.
  unfold same_shape. induction 1 as [|r r' m m' Hr _ IH]; intros Hm; [done|].
  apply Forall_cons_1 in Hm as [Hw Hm]. constructor; [|by apply IH].
  unfold Py.len in *. lia.
Qed.

(** The rows handed to the regressors: one per requested step, each the
    row of lags of the last window followed by the exogenous row of the
    step. *)
Lemma create_predict_inputs_rows f (steps : steps_arg) (last_window : option (list (string * list V)))
    (exog : option (list (list V))) (window : list (string * list V)) (X_lags : list V) :
  let S := ForecasterAutoregMultiVariate.prepare_steps_direct steps
             (ForecasterAutoregMultiVariate.steps f) in
  S ≠ [] →
  Forall (λ s, 1 ≤ s) S →
  match last_window with
  | Some _ => last_window
  | None => ForecasterAutoregMultiVariate.last_window_ f
  end = Some window →
  check_predict_input
    (ForecasterAutoregMultiVariate.predict_check_args f S (Some window) exog) = None →
  ForecasterAutoregMultiVariate.build_X_lags f window = Ok X_lags →
  (∀ ex m, exog = Some ex → Py.max_list S = Ok m → m ≤ Py.len ex) →
  ∃ Xs,
    ForecasterAutoregMultiVariate._create_predict_inputs f steps last_window exog true
    = Ok (Xs, S)
    ∧ length Xs = length S
    ∧ Forall (λ X, ∃ e, X = X_lags ++ e) Xs
    ∧ (exog = None → Xs = replicate (length S) X_lags)
    ∧ (∀ ex w, exog = Some ex → Forall (λ row, Py.len row = w) ex →
         Xs = (λ s, X_lags
                    ++ default []
                         ((transform_matrix ex
                             (ForecasterAutoregMultiVariate.transformer_exog f)
                             false false).2 !! Z.to_nat (s - 1))) <$> S).
Proof.
  intros S HS Hpos Hw Hcheck Hbuild Hexog.
  unfold ForecasterAutoregMultiVariate._create_predict_inputs. cbv zeta. fold S.
  rewrite Hw, Hcheck. cbn [mbind result_bind of_option]. rewrite Hbuild.
  cbn [mbind result_bind].
  destruct (max_list_Ok S HS) as (m & Hm & Hle).
  assert (mapM (λ step, of_option IndexError (Py.norm_index m (step - 1))) S
          = Ok ((λ step, Z.to_nat (step - 1)) <$> S)) as Hidx.
  { apply mapM_Ok. apply Forall_forall. intros s Hs.
    rewrite Forall_forall in Hpos, Hle.
    specialize (Hpos s Hs). specialize (Hle s Hs). simpl in *.
    rewrite norm_index_pos by lia. done. }
  assert (1 ≤ m) as Hm1.
  { destruct S as [|s S']; [done|]. apply Forall_cons_1 in Hpos as [? _].
    apply Forall_cons_1 in Hle as [? _]. lia. }
  destruct exog as [ex|].
  - specialize (Hexog ex m eq_refl Hm).
    pose proof (transform_matrix_shape ex (ForecasterAutoregMultiVariate.transformer_exog f)
                  false false) as Hshape.
    pose proof (same_shape_length _ _ Hshape) as Hs.
    set (ex' := (transform_matrix ex (ForecasterAutoregMultiVariate.transformer_exog f)
                   false false).2) in *.
    assert (ForecasterAutoregMultiVariate.exog_to_direct_numpy_row (Py.slice_to ex' m) m
            = Ok (concat (take (Z.to_nat m) ex'))) as Hrow.
    { unfold ForecasterAutoregMultiVariate.exog_to_direct_numpy_row.
      rewrite decide_False; cycle 1.
      { rewrite slice_to_take by lia. unfold Py.len in *.
        rewrite length_take. lia. }
      rewrite !slice_to_take by lia. by rewrite take_take, Nat.min_id. }
    eexists. split; [|split; [|split; [|split]]].
    + rewrite Hm. cbn [mbind result_bind]. rewrite Hrow.
      cbn [mbind result_bind]. rewrite Hidx. cbn [mbind result_bind]. done.
    + by rewrite length_fmap.
    + apply Forall_fmap, Forall_forall. intros s _. simpl. by eexists.
    + done.
    + intros ? w [= <-] Hwidth.
      pose proof (same_shape_width _ _ w Hshape Hwidth) as Hwidth'.
      apply Forall_fmap_ext, Forall_forall. intros s Hs'. fold ex'.
      rewrite Forall_forall in Hpos, Hle.
      specialize (Hpos s Hs'). specialize (Hle s Hs'). simpl in Hpos, Hle.
      destruct (lookup_lt_is_Some_2 ex' (Z.to_nat (s - 1))) as [row Hrow'].
      { unfold Py.len in *. lia. }
      rewrite Hrow'. simpl. f_equal.
      assert (Py.len (default [] (head ex')) = w) as ->.
      { destruct ex' as [|r0 ex'']; [simpl in *; unfold Py.len in *; simpl in *; lia|].
        apply Forall_cons_1 in Hwidth' as [? _]. done. }
      apply slice_concat_row; [|done|].
      * by apply Forall_take.
      * rewrite lookup_take_lt by lia. done.
  - eexists. split; [|split; [|split; [|split]]].
    + cbn [mbind result_bind]. rewrite Hm. cbn [mbind result_bind]. rewrite Hidx. done.
    + by rewrite length_replicate.
    + apply Forall_replicate. exists []. by rewrite app_nil_r.
    + done.
    + done.
Qed.

(** The run of [predict] once the rows are known: the regressor stored
    for every requested step is called on the row of the step, in the
    order of the request. *)
Lemma direct_predict_run f S (steps : steps_arg) (last_window : option (list (string * list V)))
    (exog : option (list (list V))) (Xs : list (list V)) (rs : list R) (tr : option T) :
  ForecasterAutoregMultiVariate._create_predict_inputs f steps last_window exog true
  = Ok (Xs, S) →
  length Xs = length S →
  Forall2 (λ s r, ForecasterAutoregMultiVariate.regressors_ f !! s = Some r) S rs →
  ForecasterAutoregMultiVariate.series_transformer f (ForecasterAutoregMultiVariate.level f)
  = Ok tr →
  ForecasterAutoregMultiVariate.predict f steps last_window exog true
  = Ok (ForecasterAutoregMultiVariate.Prediction
          (transform_numpy (zip_with reg_predict rs Xs) tr false true).2 (zip S Xs)).
Proof.
  intros Hin HlenX Hrs Htr.
  destruct (mapM_regressors_Ok S (ForecasterAutoregMultiVariate.regressors_ f))
    as (rs' & Hmap & Hrs').
  { clear -Hrs. induction Hrs; constructor; [by eexists|done]. }
  assert (rs' = rs) as ->.
  { clear -Hrs Hrs'. revert rs' Hrs'.
    induction Hrs as [|s r S rs Hr _ IH]; intros rs' Hrs'; inversion Hrs'; simplify_eq/=;
      [done|].
    f_equal. by apply IH. }
  pose proof (Forall2_length _ _ _ Hrs) as Hlenr.
  unfold ForecasterAutoregMultiVariate.predict. rewrite Hin.
  cbn [mbind result_bind]. cbv beta iota. rewrite Hmap. cbn [mbind result_bind].
  rewrite call_regressors_zip by done. rewrite Htr. done.
Qed.

Lemma direct_predict_spec f (steps : steps_arg) (last_window : option (list (string * list V)))
    (exog : option (list (list V))) (window : list (string * list V)) (X_lags : list V)
    (tr : option T) :
  let S := ForecasterAutoregMultiVariate.prepare_steps_direct steps
             (ForecasterAutoregMultiVariate.steps f) in
  S ≠ [] →
  Forall (λ s, 1 ≤ s ∧ is_Some (ForecasterAutoregMultiVariate.regressors_ f !! s)) S →
  match last_window with
  | Some _ => last_window
  | None => ForecasterAutoregMultiVariate.last_window_ f
  end = Some window →
  check_predict_input
    (ForecasterAutoregMultiVariate.predict_check_args f S (Some window) exog) = None →
  ForecasterAutoregMultiVariate.build_X_lags f window = Ok X_lags →
  (∀ ex m, exog = Some ex → Py.max_list S = Ok m → m ≤ Py.len ex) →
  ForecasterAutoregMultiVariate.series_transformer f (ForecasterAutoregMultiVariate.level f)
  = Ok tr →
  ∃ Xs preds,
    ForecasterAutoregMultiVariate.predict f steps last_window exog true
    = Ok (ForecasterAutoregMultiVariate.Prediction
            (transform_numpy preds tr false true).2 (zip S Xs))
    ∧ length Xs = length S
    ∧ Forall (λ X, ∃ e, X = X_lags ++ e) Xs
    ∧ (exog = None → Xs = replicate (length S) X_lags)
    ∧ (∀ ex w, exog = Some ex → Forall (λ row, Py.len row = w) ex →
         Xs = (λ s, X_lags
                    ++ default []
                         ((transform_matrix ex
                             (ForecasterAutoregMultiVariate.transformer_exog f)
                             false false).2 !! Z.to_nat (s - 1))) <$> S)
    ∧ Forall2 (λ sX v, ∃ r, ForecasterAutoregMultiVariate.regressors_ f !! sX.1 = Some r
                            ∧ v = reg_predict r sX.2) (zip S Xs) preds
    ∧ length (transform_numpy preds tr false true).2 = length S
    ∧ (tr = None → (transform_numpy preds tr false true).2 = preds)
    ∧ (∀ regressors : gmap Z R,
         Forall (λ s, is_Some (regressors !! s)) S →
         ∃ values,
           ForecasterAutoregMultiVariate.predict
             (ForecasterAutoregMultiVariate.with_regressors f regressors)
             steps last_window exog true
           = Ok (ForecasterAutoregMultiVariate.Prediction values (zip S Xs))).
Proof.
  intros S HS Hregs Hw Hcheck Hbuild Hexog Htr.
  destruct (create_predict_inputs_rows f steps last_window exog window X_lags)
    as (Xs & Hin & HlenX & Hrows & Hnone & Hsome); try done.
  { eapply Forall_impl; [exact Hregs|]. by intros ? [? _]. }
  destruct (mapM_regressors_Ok S (ForecasterAutoregMultiVariate.regressors_ f))
    as (rs & _ & Hrs2).
  { eapply Forall_impl; [exact Hregs|]. by intros ? [_ ?]. }
  pose proof (Forall2_length _ _ _ Hrs2) as Hlenr.
  subst S.
  set (S := ForecasterAutoregMultiVariate.prepare_steps_direct steps
              (ForecasterAutoregMultiVariate.steps f)) in *.
  exists Xs, (zip_with reg_predict rs Xs).
  split; [by apply direct_predict_run|].
  split; [done|]. split; [done|]. split; [done|]. split; [done|].
  split; [|split; [|split]].
  - clear -Hrs2 HlenX. revert Xs HlenX.
    induction Hrs2 as [|s r S' rs' Hr _ IH]; intros [|X Xs] HlenX; simplify_eq/=;
      [constructor|].
    constructor; [by exists r|]. by apply IH.
  - rewrite transform_numpy_length, length_zip_with. lia.
  - intros ->. by rewrite transform_numpy_None.
  - intros regressors Hall.
    destruct (mapM_regressors_Ok S regressors Hall) as (rs' & _ & Hrs').
    eexists.
    apply (direct_predict_run
             (ForecasterAutoregMultiVariate.with_regressors f regressors) S
             steps last_window exog Xs rs' tr); done.
Qed.

(** The prediction reads the regressors of the requested steps only. *)
Lemma direct_predict_other_regressors f (regressors : gmap Z R) (steps : steps_arg)
    (last_window : option (list (string * list V))) (exog : option (list (list V))) :
  Forall (λ s, regressors !! s = ForecasterAutoregMultiVariate.regressors_ f !! s)
    (ForecasterAutoregMultiVariate.prepare_steps_direct steps
       (ForecasterAutoregMultiVariate.steps f)) →
  ForecasterAutoregMultiVariate.predict
    (ForecasterAutoregMultiVariate.with_regressors f regressors) steps last_window exog true
  = ForecasterAutoregMultiVariate.predict f steps last_window exog true.
Proof.
  intros Hagree. unfold ForecasterAutoregMultiVariate.predict.
  change (ForecasterAutoregMultiVariate._create_predict_inputs
            (ForecasterAutoregMultiVariate.with_regressors f regressors)
            steps last_window exog true)
    with (ForecasterAutoregMultiVariate._create_predict_inputs f steps last_window exog true).
  destruct (ForecasterAutoregMultiVariate._create_predict_inputs f steps last_window exog true)
    as [[Xs S]|] eqn:E; [|done].
  cbn [mbind result_bind].
  assert (S = ForecasterAutoregMultiVariate.prepare_steps_direct steps
                (ForecasterAutoregMultiVariate.steps f)) as ->.
  { unfold ForecasterAutoregMultiVariate._create_predict_inputs in E.
    repeat match type of E with
           | mbind _ ?m = Ok _ => destruct m; [cbn [mbind result_bind] in E|done]
           end.
    by injection E as _ <-. }
  rewrite (mapM_ext_in _ (λ step, r ← of_option (KeyError step)
                                        (ForecasterAutoregMultiVariate.regressors_ f !! step);
                                  Ok (step, r)));
    [done|].
  eapply Forall_impl; [exact Hagree|]. intros s Hs. simpl. by rewrite Hs.
Qed.

End DirectEngine.

(** C3. On a direct forecaster, [predict(steps)] for the requested steps
    [S] (any non-empty list of steps that have a regressor) calls the
    regressors of the steps of [S], in the order of [S], each once, and no
    other: the log of the calls of [regressor.predict] is [zip S Xs]. The
    row [Xs] of a step is the row of lags of the one last window followed,
    when [exog] is given (a frame, all its rows of one width), by row
    [step - 1] of the transformed [exog], and by nothing otherwise: no
    row holds a value predicted in the call, and the rows stay the same
    whatever regressors are stored. The result has one value per requested
    step, in the requested order, each the value of the regressor of the
    step on its row (before the inverse transformation of the level), and
    is the same whatever the regressors of the other steps are. With 3
    steps and constant estimators [c1], [c2], [c3], [predict(steps=[1, 3])]
    returns [c1, c3] and calls the regressors of steps 1 and 3 only. *)
Theorem direct_predict_contract :
  (∀ (V R T : Type) `(!Numeric V) `(!Regressor V R) `(!Transformer V T)
     `(!InputCheck V) `(!TransformerShape V T)
     (f : ForecasterAutoregMultiVariate.t (V := V) (R := R) (T := T))
     (steps : steps_arg) (last_window : option (list (string * list V)))
     (exog : option (list (list V))) (window : list (string * list V))
     (X_lags : list V) (tr : option T),
     let S := ForecasterAutoregMultiVariate.prepare_steps_direct steps
                (ForecasterAutoregMultiVariate.steps f) in
     S ≠ [] →
     Forall (λ s, 1 ≤ s ∧ is_Some (ForecasterAutoregMultiVariate.regressors_ f !! s)) S →
     match last_window with
     | Some _ => last_window
     | None => ForecasterAutoregMultiVariate.last_window_ f
     end = Some window →
     check_predict_input
       (ForecasterAutoregMultiVariate.predict_check_args f S (Some window) exog) = None →
     ForecasterAutoregMultiVariate.build_X_lags f window = Ok X_lags →
     (∀ ex m, exog = Some ex → Py.max_list S = Ok m → m ≤ Py.len ex) →
     ForecasterAutoregMultiVariate.series_transformer f (ForecasterAutoregMultiVariate.level f)
     = Ok tr →
     (∃ Xs preds,
        ForecasterAutoregMultiVariate.predict f steps last_window exog true
        = Ok (ForecasterAutoregMultiVariate.Prediction
                (transform_numpy preds tr false true).2 (zip S Xs))
        ∧ length Xs = length S
        ∧ Forall (λ X, ∃ e, X = X_lags ++ e) Xs
        ∧ (exog = None → Xs = replicate (length S) X_lags)
        ∧ (∀ ex w, exog = Some ex → Forall (λ row, Py.len row = w) ex →
             Xs = (λ s, X_lags
                        ++ default []
                             ((transform_matrix ex
                                 (ForecasterAutoregMultiVariate.transformer_exog f)
                                 false false).2 !! Z.to_nat (s - 1))) <$> S)
        ∧ Forall2 (λ sX v, ∃ r, ForecasterAutoregMultiVariate.regressors_ f !! sX.1 = Some r
                                ∧ v = reg_predict r sX.2) (zip S Xs) preds
        ∧ length (transform_numpy preds tr false true).2 = length S
        ∧ (tr = None → (transform_numpy preds tr false true).2 = preds)
        ∧ (∀ regressors : gmap Z R,
             Forall (λ s, is_Some (regressors !! s)) S →
             ∃ values,
               ForecasterAutoregMultiVariate.predict
                 (ForecasterAutoregMultiVariate.with_regressors f regressors)
                 steps last_window exog true
               = Ok (ForecasterAutoregMultiVariate.Prediction values (zip S Xs))))
     ∧ ∀ regressors : gmap Z R,
         Forall (λ s, regressors !! s = ForecasterAutoregMultiVariate.regressors_ f !! s) S →
         ForecasterAutoregMultiVariate.predict
           (ForecasterAutoregMultiVariate.with_regressors f regressors)
           steps last_window exog true
         = ForecasterAutoregMultiVariate.predict f steps last_window exog true)
  ∧ (∀ c1 c2 c3 : option Q,
       ForecasterAutoregMultiVariate.predict (Concrete.direct_forecaster c1 c2 c3)
         (StepsList [1; 3]) None None true
       = Ok (ForecasterAutoregMultiVariate.Prediction [c1; c3]
               [(1, Concrete.of_Z <$> [10; 9; 8]); (3, Concrete.of_Z <$> [10; 9; 8])])
       ∧ ∀ c2' : option Q,
           ForecasterAutoregMultiVariate.predict (Concrete.direct_forecaster c1 c2' c3)
             (StepsList [1; 3]) None None true
           = ForecasterAutoregMultiVariate.predict (Concrete.direct_forecaster c1 c2 c3)
               (StepsList [1; 3]) None None true).
Proof.
  split.
  - intros. split.
    + by eapply direct_predict_spec.
    + intros. by apply direct_predict_other_regressors.
  - intros c1 c2 c3. split; [by vm_compute|]. intros c2'. by vm_compute.
Qed.

(** ** What a prediction does to the forecaster *)

Section PredictionState.
Context {V R T B G : Type}.
Context `{!Numeric V, !Regressor V R, !Transformer V T, !Discretizer V B,
          !Generator V G, !InputCheck V}.

Abbreviation forecaster := (ForecasterAutoreg.t (V := V) (R := R) (T := T) (B := B)).
Implicit Types (f : forecaster).

Lemma same_but_differentiator_refl f : ForecasterAutoreg.same_but_differentiator f f.
Proof.
  split; [by destruct f|]. split; [done|].
  by destruct (ForecasterAutoreg.differentiator f).
Qed.

Lemma same_but_differentiator_trans f f' f'' :
  ForecasterAutoreg.same_but_differentiator f f' →
  ForecasterAutoreg.same_but_differentiator f' f'' →
  ForecasterAutoreg.same_but_differentiator f f''.
Proof.
  intros (E1 & N1 & O1) (E2 & N2 & O2). split; [|split].
  - etrans; [exact E2|]. by rewrite E1.
  - intros Hn. rewrite <- (N1 Hn). apply N2. by rewrite (N1 Hn).
  - destruct (ForecasterAutoreg.differentiator f), (ForecasterAutoreg.differentiator f'),
      (ForecasterAutoreg.differentiator f''); try done. congruence.
Qed.

Lemma same_but_differentiator_sym f f' :
  ForecasterAutoreg.same_but_differentiator f f' →
  ForecasterAutoreg.same_but_differentiator f' f.
Proof.
  intros (E & N & O). split; [|split].
  - rewrite E. by destruct f.
  - intros Hn. symmetry. apply N. by rewrite E in Hn.
  - destruct (ForecasterAutoreg.differentiator f), (ForecasterAutoreg.differentiator f');
      done.
Qed.

Lemma prepare_last_window_frame f (w : list V) :
  ForecasterAutoreg.same_but_differentiator f (ForecasterAutoreg.prepare_last_window f w).2.
Proof.
  unfold ForecasterAutoreg.prepare_last_window.
  destruct (ForecasterAutoreg.differentiation f) as [d0|] eqn:Ed;
    [|apply same_but_differentiator_refl].
  destruct (ForecasterAutoreg.differentiator f) as [d|] eqn:Edd;
    [|apply same_but_differentiator_refl].
  destruct (Differentiator.fit_transform d _) as [[d' values]|] eqn:Ef;
    [|apply same_but_differentiator_refl].
  simpl. split; [done|]. split; [by rewrite Ed|].
  rewrite Edd. simpl. by eapply differentiator_fit_transform_order_eq.
Qed.

Lemma create_predict_inputs_frame f steps last_window exog pb isr br ci :
  ForecasterAutoreg.same_but_differentiator f
    (ForecasterAutoreg._create_predict_inputs f steps last_window exog pb isr br ci).2.
Proof.
  unfold ForecasterAutoreg._create_predict_inputs.
  destruct (if ci then _ else _); [|apply same_but_differentiator_refl].
  destruct (match last_window with Some _ => _ | None => _ end) as [w|];
    [|apply same_but_differentiator_refl].
  pose proof (prepare_last_window_frame f w) as Hf.
  by destruct (ForecasterAutoreg.prepare_last_window f w) as [[v|e] f'].
Qed.

Lemma create_predict_inputs_013_frame f steps last_window exog :
  ForecasterAutoreg.same_but_differentiator f
    (ForecasterAutoreg._create_predict_inputs_013 f steps last_window exog).2.
Proof. rewrite <- create_predict_inputs_013_eq. apply create_predict_inputs_frame. Qed.

Lemma predict_frame f steps last_window exog ci :
  ForecasterAutoreg.same_but_differentiator f (ForecasterAutoreg.predict f steps last_window exog ci).2.
Proof.
  unfold ForecasterAutoreg.predict.
  pose proof (create_predict_inputs_frame f steps last_window exog false true false ci) as Hf.
  by destruct (ForecasterAutoreg._create_predict_inputs _ _ _ _ _ _ _ _) as [[[w ex]|e] f'].
Qed.

Lemma predict_bootstrapping_frame f steps last_window exog n_boot seed isr br :
  ForecasterAutoreg.same_but_differentiator f
    (ForecasterAutoreg.predict_bootstrapping f steps last_window exog n_boot seed isr br).2.
Proof.
  unfold ForecasterAutoreg.predict_bootstrapping.
  pose proof (create_predict_inputs_frame f steps last_window exog true isr br true) as Hf.
  by destruct (ForecasterAutoreg._create_predict_inputs _ _ _ _ _ _ _ _) as [[[w ex]|e] f'].
Qed.

Lemma predict_013_frame f steps last_window exog :
  ForecasterAutoreg.same_but_differentiator f
    (ForecasterAutoreg.predict_013 f steps last_window exog).2.
Proof.
  unfold ForecasterAutoreg.predict_013.
  pose proof (create_predict_inputs_013_frame f steps last_window exog) as Hf.
  by destruct (ForecasterAutoreg._create_predict_inputs_013 _ _ _ _) as [[[w ex]|e] f'].
Qed.

Lemma create_predict_X_frame f steps last_window exog :
  ForecasterAutoreg.same_but_differentiator f
    (ForecasterAutoreg.create_predict_X f steps last_window exog).2.
Proof.
  unfold ForecasterAutoreg.create_predict_X.
  pose proof (predict_frame f steps last_window exog true) as H1.
  destruct (ForecasterAutoreg.predict f steps last_window exog true) as [[p|e] f1];
    [|done].
  pose proof (create_predict_inputs_frame f1 steps last_window exog false true false false)
    as H2.
  destruct (ForecasterAutoreg._create_predict_inputs f1 _ _ _ _ _ _ _) as [[[w ex]|e] f2];
    by eapply same_but_differentiator_trans.
Qed.

Lemma create_predict_X_013_frame f steps last_window exog :
  ForecasterAutoreg.same_but_differentiator f
    (ForecasterAutoreg.create_predict_X_013 f steps last_window exog).2.
Proof.
  unfold ForecasterAutoreg.create_predict_X_013.
  pose proof (create_predict_inputs_013_frame f steps last_window exog) as H1.
  destruct (ForecasterAutoreg._create_predict_inputs_013 f steps last_window exog)
    as [[[w ex]|e] f1]; [|done].
  pose proof (predict_013_frame f1 steps last_window exog) as H2.
  destruct (ForecasterAutoreg.predict_013 f1 steps last_window exog) as [[p|e] f2];
    by eapply same_but_differentiator_trans.
Qed.

Lemma predict_bootstrapping_013_frame f steps last_window exog n_boot seed isr br :
  ForecasterAutoreg.same_but_differentiator f
    (ForecasterAutoreg.predict_bootstrapping_013 (G := G) f steps last_window exog n_boot
       seed isr br).2.
Proof.
  unfold ForecasterAutoreg.predict_bootstrapping_013.
  destruct (ForecasterAutoreg.check_out_sample_residuals f true isr br);
    [|apply same_but_differentiator_refl].
  pose proof (create_predict_inputs_013_frame f steps last_window exog) as Hf.
  by destruct (ForecasterAutoreg._create_predict_inputs_013 _ _ _ _) as [[[w ex]|e] f'].
Qed.

Section SummariesState.
Context {D : Type} `{!Summaries V D}.

Lemma predict_interval_frame f steps last_window exog interval n_boot seed isr br :
  ForecasterAutoreg.same_but_differentiator f
    (ForecasterAutoreg.predict_interval (G := G) (D := D) f steps last_window exog interval
       n_boot seed isr br).2.
Proof.
  unfold ForecasterAutoreg.predict_interval.
  destruct (check_interval _ _); [apply same_but_differentiator_refl|].
  pose proof (predict_bootstrapping_frame f steps last_window exog n_boot seed isr br) as H1.
  destruct (ForecasterAutoreg.predict_bootstrapping f _ _ _ _ _ _ _) as [[b|e] f1]; [|done].
  pose proof (predict_frame f1 steps last_window exog false) as H2.
  destruct (ForecasterAutoreg.predict f1 _ _ _ _) as [[p|e] f2];
    by eapply same_but_differentiator_trans.
Qed.

Lemma predict_quantiles_frame f steps last_window exog quantiles n_boot seed isr br :
  ForecasterAutoreg.same_but_differentiator f
    (ForecasterAutoreg.predict_quantiles (G := G) (D := D) f steps last_window exog quantiles
       n_boot seed isr br).2.
Proof.
  unfold ForecasterAutoreg.predict_quantiles.
  destruct (check_interval _ _); [apply same_but_differentiator_refl|].
  pose proof (predict_bootstrapping_frame f steps last_window exog n_boot seed isr br) as H1.
  by destruct (ForecasterAutoreg.predict_bootstrapping f _ _ _ _ _ _ _) as [[b|e] f1].
Qed.

Lemma predict_dist_frame f steps last_window exog (distribution : D) n_boot seed isr br :
  ForecasterAutoreg.same_but_differentiator f
    (ForecasterAutoreg.predict_dist (G := G) f steps last_window exog distribution
       n_boot seed isr br).2.
Proof.
  unfold ForecasterAutoreg.predict_dist.
  pose proof (predict_bootstrapping_frame f steps last_window exog n_boot seed isr br) as H1.
  by destruct (ForecasterAutoreg.predict_bootstrapping f _ _ _ _ _ _ _) as [[b|e] f1].
Qed.

End SummariesState.




(** What [same_but_differentiator] says attribute by attribute. *)
Lemma same_but_differentiator_fields f f' :
  ForecasterAutoreg.same_but_differentiator f f' →
  ForecasterAutoreg.last_window_ f' = ForecasterAutoreg.last_window_ f
  ∧ ForecasterAutoreg.in_sample_residuals_ f' = ForecasterAutoreg.in_sample_residuals_ f
  ∧ ForecasterAutoreg.in_sample_residuals_by_bin_ f'
    = ForecasterAutoreg.in_sample_residuals_by_bin_ f
  ∧ ForecasterAutoreg.out_sample_residuals_ f' = ForecasterAutoreg.out_sample_residuals_ f
  ∧ ForecasterAutoreg.out_sample_residuals_by_bin_ f'
    = ForecasterAutoreg.out_sample_residuals_by_bin_ f
  ∧ ForecasterAutoreg.binner f' = ForecasterAutoreg.binner f
  ∧ ForecasterAutoreg.binner_intervals f' = ForecasterAutoreg.binner_intervals f
  ∧ ForecasterAutoreg.regressor f' = ForecasterAutoreg.regressor f
  ∧ ForecasterAutoreg.is_fitted f' = ForecasterAutoreg.is_fitted f.
Proof. intros (E & _ & _). rewrite E. by repeat split. Qed.

(** C8, as amended. Every prediction method of [ForecasterAutoreg]
    ([predict], [create_predict_X], [predict_bootstrapping],
    [predict_interval], [predict_quantiles], [predict_dist], and
    [predict_013], [create_predict_X_013], [predict_bootstrapping_013]),
    whether it returns or raises, leaves [last_window_], the four residual
    pools, the binner and its intervals, the regressor and every other
    attribute unchanged, except the differentiator: with differencing
    configured only the fitted state of the differentiator may change (the
    call refits it on the window it predicts from), the differentiator is
    neither dropped nor added and its order is kept; without differencing
    the forecaster after the call is the forecaster before it. *)
Theorem predict_frame_condition {D : Type} `{!Summaries V D} f (steps : Z)
    (last_window : option (list V)) (exog : option (list (list V))) (check_inputs : bool)
    (interval quantiles : list V) (distribution : D) (n_boot random_state : Z)
    (in_sample_residuals binned_residuals : bool) :
  Forall
    (λ f',
       ForecasterAutoreg.same_but_differentiator f f'
       ∧ ForecasterAutoreg.last_window_ f' = ForecasterAutoreg.last_window_ f
       ∧ ForecasterAutoreg.in_sample_residuals_ f' = ForecasterAutoreg.in_sample_residuals_ f
       ∧ ForecasterAutoreg.in_sample_residuals_by_bin_ f'
         = ForecasterAutoreg.in_sample_residuals_by_bin_ f
       ∧ ForecasterAutoreg.out_sample_residuals_ f'
         = ForecasterAutoreg.out_sample_residuals_ f
       ∧ ForecasterAutoreg.out_sample_residuals_by_bin_ f'
         = ForecasterAutoreg.out_sample_residuals_by_bin_ f
       ∧ ForecasterAutoreg.binner f' = ForecasterAutoreg.binner f
       ∧ ForecasterAutoreg.binner_intervals f' = ForecasterAutoreg.binner_intervals f
       ∧ ForecasterAutoreg.regressor f' = ForecasterAutoreg.regressor f
       ∧ ForecasterAutoreg.is_fitted f' = ForecasterAutoreg.is_fitted f
       ∧ (ForecasterAutoreg.differentiation f = None → f' = f))
    [ (ForecasterAutoreg.predict (G := G) f steps last_window exog check_inputs).2;
      (ForecasterAutoreg.create_predict_X (G := G) f steps last_window exog).2;
      (ForecasterAutoreg.predict_bootstrapping (G := G) f steps last_window exog n_boot
         random_state in_sample_residuals binned_residuals).2;
      (ForecasterAutoreg.predict_interval (G := G) (D := D) f steps last_window exog
         interval n_boot random_state in_sample_residuals binned_residuals).2;
      (ForecasterAutoreg.predict_quantiles (G := G) (D := D) f steps last_window exog
         quantiles n_boot random_state in_sample_residuals binned_residuals).2;
      (ForecasterAutoreg.predict_dist (G := G) f steps last_window exog distribution
         n_boot random_state in_sample_residuals binned_residuals).2;
      (ForecasterAutoreg.predict_013 f steps last_window exog).2;
      (ForecasterAutoreg.create_predict_X_013 f steps last_window exog).2;
      (ForecasterAutoreg.predict_bootstrapping_013 (G := G) f steps last_window exog n_boot
         random_state in_sample_residuals binned_residuals).2 ].
Proof.
  assert (∀ f', ForecasterAutoreg.same_but_differentiator f f' →
            ForecasterAutoreg.same_but_differentiator f f'
            ∧ ForecasterAutoreg.last_window_ f' = ForecasterAutoreg.last_window_ f
            ∧ ForecasterAutoreg.in_sample_residuals_ f'
              = ForecasterAutoreg.in_sample_residuals_ f
            ∧ ForecasterAutoreg.in_sample_residuals_by_bin_ f'
              = ForecasterAutoreg.in_sample_residuals_by_bin_ f
            ∧ ForecasterAutoreg.out_sample_residuals_ f'
              = ForecasterAutoreg.out_sample_residuals_ f
            ∧ ForecasterAutoreg.out_sample_residuals_by_bin_ f'
              = ForecasterAutoreg.out_sample_residuals_by_bin_ f
            ∧ ForecasterAutoreg.binner f' = ForecasterAutoreg.binner f
            ∧ ForecasterAutoreg.binner_intervals f' = ForecasterAutoreg.binner_intervals f
            ∧ ForecasterAutoreg.regressor f' = ForecasterAutoreg.regressor f
            ∧ ForecasterAutoreg.is_fitted f' = ForecasterAutoreg.is_fitted f
            ∧ (ForecasterAutoreg.differentiation f = None → f' = f)) as Hall.
  { intros f' H. split; [done|].
    pose proof (same_but_differentiator_fields f f' H) as Hf.
    destruct H as (_ & Hnone & _). destruct Hf as (? & ? & ? & ? & ? & ? & ? & ? & ?).
    by repeat split. }
  repeat apply Forall_cons_2; [..|apply Forall_nil_2]; apply Hall.
  - apply predict_frame.
  - apply create_predict_X_frame.
  - apply predict_bootstrapping_frame.
  - apply predict_interval_frame.
  - apply predict_quantiles_frame.
  - apply predict_dist_frame.
  - apply predict_013_frame.
  - apply create_predict_X_013_frame.
  - apply predict_bootstrapping_013_frame.
Qed.

(** C9. With [in_sample_residuals = False], when the pool the residual
    mode needs is [None] ([out_sample_residuals_] without binning,
    [out_sample_residuals_by_bin_] with binning) and the inputs pass
    [check_predict_input], [predict_bootstrapping] raises the [ValueError]
    of that pool; the exception comes out of [_create_predict_inputs],
    before any prediction, and the forecaster is unchanged. When the
    inputs do not pass the check, its exception is raised, the forecaster
    unchanged as well. *)
Theorem bootstrapping_without_out_sample_residuals f (steps : Z)
    (last_window : option (list V)) (exog : option (list (list V)))
    (n_boot random_state : Z) (binned_residuals : bool) :
  (if binned_residuals
   then ForecasterAutoreg.out_sample_residuals_by_bin_ f = None
   else ForecasterAutoreg.out_sample_residuals_ f = None) →
  let window := match last_window with
                | Some _ => last_window
                | None => ForecasterAutoreg.last_window_ f
                end in
  let raised :=
    match check_predict_input (ForecasterAutoreg.predict_check_args f steps window exog) with
    | Some e => e
    | None =>
        ValueError (if binned_residuals
                    then "forecaster.out_sample_residuals_by_bin_ is None"
                    else "forecaster.out_sample_residuals_ is None")
    end in
  ForecasterAutoreg._create_predict_inputs f steps last_window exog true false
    binned_residuals true = (Raise raised, f)
  ∧ ForecasterAutoreg.predict_bootstrapping (G := G) f steps last_window exog n_boot
      random_state false binned_residuals = (Raise raised, f).
Proof.
  intros Hpool window raised.
  assert (ForecasterAutoreg._create_predict_inputs f steps last_window exog true false
            binned_residuals true = (Raise raised, f)) as Hin.
  { unfold ForecasterAutoreg._create_predict_inputs. fold window. unfold raised.
    destruct (check_predict_input _) as [e|]; [done|].
    unfold ForecasterAutoreg.check_out_sample_residuals. simpl.
    destruct binned_residuals; simpl; by rewrite Hpool. }
  split; [done|]. unfold ForecasterAutoreg.predict_bootstrapping. by rewrite Hin.
Qed.

End PredictionState.

(** ** The residual pools *)

Section ResidualPools.
Context {V R T B G : Type}.
Context `{!Numeric V, !Regressor V R, !Transformer V T, !Discretizer V B,
          !Generator V G, !InputCheck V, !GeneratorLaws V G}.

Abbreviation forecaster := (ForecasterAutoreg.t (V := V) (R := R) (T := T) (B := B)).
Implicit Types (f : forecaster) (d : list (Z * list V)).

(** *** Dictionaries *)

Lemma dict_set_Forall {A} (P : Z * A → Prop) (d : list (Z * A)) k v :
  Forall P d → P (k, v) → Forall P (Dict.set d k v).
Proof.
  intros Hd Hv. induction Hd as [|[k' v'] d Hkv Hd IH]; simpl; [by repeat constructor|].
  destruct (decide (k' = k)); by constructor.
Qed.

Lemma dict_set_length {A} (d : list (Z * A)) k v :
  (length d ≤ length (Dict.set d k v))%nat.
Proof.
  induction d as [|[k' v'] d IH]; simpl; [lia|].
  destruct (decide (k' = k)); simpl; lia.
Qed.

Lemma map_items_keys {A C} (g : Z → A → C) (d : list (Z * A)) :
  Dict.keys (Dict.map_items g d) = Dict.keys d.
Proof.
  unfold Dict.keys, Dict.map_items. rewrite <- list_fmap_compose.
  by apply list_fmap_ext.
Qed.

(** *** groupby *)

Lemma sum_list_with_add {A} (g h : A → nat) (l : list A) :
  sum_list_with (λ x, g x + h x)%nat l = (sum_list_with g l + sum_list_with h l)%nat.
Proof. induction l as [|x l IH]; simpl; lia. Qed.

Lemma sum_list_with_fmap {A C} (g : C → nat) (h : A → C) (l : list A) :
  sum_list_with g (h <$> l) = sum_list_with (g ∘ h) l.
Proof. induction l as [|x l IH]; csimpl; [done|]. by rewrite IH. Qed.

Lemma sum_list_with_ext {A} (g h : A → nat) (l : list A) :
  (∀ x, g x = h x) → sum_list_with g l = sum_list_with h l.
Proof. intros E. induction l as [|x l IH]; simpl; [done|]. by rewrite E, IH. Qed.

Lemma sum_indicator (k0 : Z) (keys : list Z) :
  NoDup keys →
  sum_list_with (λ k, if decide (k0 = k) then 1 else 0)%nat keys
  = if decide (k0 ∈ keys) then 1%nat else 0%nat.
Proof.
  induction 1 as [|k keys Hk _ IH]; cbn [sum_list_with].
  - case_decide as Hin; [|done]. by apply elem_of_nil in Hin.
  - rewrite IH. destruct (decide (k0 = k)) as [->|Hne].
    + rewrite (decide_False (P := k ∈ keys)) by done.
      rewrite decide_True; [done|]. left.
    + destruct (decide (k0 ∈ keys)) as [Hin|Hin].
      * rewrite decide_True; [done|]. by right.
      * rewrite decide_False; [done|]. by intros [?|?]%elem_of_cons.
Qed.

Lemma group_sizes (keys : list Z) (rows : list (Z * V)) :
  NoDup keys → Forall (λ r, r.1 ∈ keys) rows →
  sum_list_with (λ k, length (filter (λ r : Z * V, r.1 = k) rows)) keys = length rows.
Proof.
  intros Hnd. induction 1 as [|r rows Hr _ IH]; simpl.
  - induction keys as [|k keys IHk]; simpl; [done|]. apply IHk. by inversion Hnd.
  - rewrite <- IH.
    rewrite (sum_list_with_ext _
               (λ k, (if decide (r.1 = k) then 1 else 0)
                     + length (filter (λ r0 : Z * V, r0.1 = k) rows))%nat).
    + rewrite sum_list_with_add, sum_indicator by done. by rewrite decide_True.
    + intros k. rewrite filter_cons. by destruct (decide (r.1 = k)).
Qed.

Lemma groupby_keys (rows : list (Z * V)) :
  Dict.keys (ForecasterAutoreg.groupby rows) = remove_dups (merge_sort Z.le rows.*1).
Proof.
  unfold Dict.keys, ForecasterAutoreg.groupby. rewrite <- list_fmap_compose.
  rewrite <- (list_fmap_id (remove_dups _)) at 2. by apply list_fmap_ext.
Qed.

Lemma elem_of_groupby_keys (rows : list (Z * V)) (k : Z) :
  k ∈ Dict.keys (ForecasterAutoreg.groupby rows) ↔ k ∈ rows.*1.
Proof.
  rewrite groupby_keys, elem_of_remove_dups. by rewrite merge_sort_Permutation.
Qed.

Lemma groupby_total (rows : list (Z * V)) :
  sum_list_with (λ kv, length kv.2) (ForecasterAutoreg.groupby rows) = length rows.
Proof.
  unfold ForecasterAutoreg.groupby. rewrite sum_list_with_fmap.
  rewrite (sum_list_with_ext _ (λ k, length (filter (λ r : Z * V, r.1 = k) rows))).
  - apply group_sizes; [apply NoDup_remove_dups|].
    apply Forall_forall. intros r Hr.
    rewrite elem_of_remove_dups, merge_sort_Permutation. by apply list_elem_of_fmap_2.
  - intros k. simpl. by rewrite length_fmap.
Qed.

Lemma groupby_nonempty (rows : list (Z * V)) :
  Forall (λ kv, kv.2 ≠ []) (ForecasterAutoreg.groupby rows).
Proof.
  unfold ForecasterAutoreg.groupby. apply Forall_fmap, Forall_forall. intros k Hk. simpl.
  rewrite elem_of_remove_dups, merge_sort_Permutation in Hk.
  apply list_elem_of_fmap in Hk as ([k' v] & -> & Hr). simpl.
  intros E. apply fmap_nil_inv in E.
  assert ((k', v) ∈ filter (λ r : Z * V, r.1 = k') rows) as Hin
    by (by apply list_elem_of_filter).
  rewrite E in Hin. by apply not_elem_of_nil in Hin.
Qed.

(** *** The cap of 200 values per bin *)

Lemma cap_bins_capped (seed : Z) d :
  ForecasterAutoreg.bins_capped (ForecasterAutoreg.cap_bins (G := G) seed d).
Proof.
  unfold ForecasterAutoreg.bins_capped, ForecasterAutoreg.cap_bins, Dict.map_items.
  apply Forall_fmap, Forall_forall. intros [k v] _. simpl.
  destruct (decide (200 < Py.len v)) as [Hlt|]; [|lia].
  unfold Py.len. rewrite rng_choice_length; [lia| |unfold Py.len in Hlt; lia].
  left. intros ->. unfold Py.len in Hlt. simpl in Hlt. lia.
Qed.

Lemma cap_bins_keys (seed : Z) d :
  Dict.keys (ForecasterAutoreg.cap_bins (G := G) seed d) = Dict.keys d.
Proof. apply map_items_keys. Qed.

Lemma cap_bins_nonempty (seed : Z) d :
  Forall (λ kv, kv.2 ≠ []) d →
  Forall (λ kv, kv.2 ≠ []) (ForecasterAutoreg.cap_bins (G := G) seed d).
Proof.
  intros Hd. unfold ForecasterAutoreg.cap_bins, Dict.map_items.
  apply Forall_fmap. eapply Forall_impl; [exact Hd|]. intros [k v] Hv. simpl in *.
  destruct (decide (200 < Py.len v)) as [Hlt|]; [|done].
  intros E. apply (f_equal length) in E.
  rewrite rng_choice_length in E; [done|by left|unfold Py.len in Hlt; lia].
Qed.

Lemma capped_total d :
  ForecasterAutoreg.bins_capped d →
  Py.len (concat (Dict.values d)) = Z.of_nat (sum_list_with (λ kv, length kv.2) d)
  ∧ Py.len (concat (Dict.values d)) ≤ 200 * Py.len d.
Proof.
  unfold ForecasterAutoreg.bins_capped, Dict.values, Py.len.
  induction 1 as [|[k v] d Hv _ [IH1 IH2]]; [done|].
  rewrite fmap_cons. cbn [concat snd sum_list_with length].
  rewrite length_app. simpl in Hv. unfold Py.len in Hv. lia.
Qed.

Lemma total_always d :
  Py.len (concat (Dict.values d)) = Z.of_nat (sum_list_with (λ kv, length kv.2) d).
Proof.
  unfold Dict.values, Py.len. induction d as [|[k v] d IH]; [done|].
  rewrite fmap_cons. cbn [concat snd sum_list_with length].
  rewrite length_app. lia.
Qed.

(** *** After the binning of the in-sample residuals *)

Lemma make_binner_intervals_spec (edges : list V) :
  ForecasterAutoreg.make_binner_intervals edges
  = Ok ((λ i, (i, (default nan (edges !! Z.to_nat i),
                   Some (default nan (edges !! Z.to_nat (i + 1))))))
          <$> Py.range (Py.len edges - 1)).
Proof.
  unfold ForecasterAutoreg.make_binner_intervals. apply mapM_Ok.
  apply Forall_forall. intros i Hi. unfold Py.range in Hi. apply elem_of_seqZ in Hi.
  assert (Z.to_nat i < length edges)%nat as H1 by (unfold Py.len in Hi; lia).
  assert (Z.to_nat (i + 1) < length edges)%nat as H2 by (unfold Py.len in Hi; lia).
  destruct (lookup_lt_is_Some_2 _ _ H1) as [lo Hlo].
  destruct (lookup_lt_is_Some_2 _ _ H2) as [hi Hhi].
  rewrite (getitem_pos edges i lo) by (done || lia). cbn [mbind result_bind].
  rewrite decide_True by lia.
  rewrite (getitem_pos edges (i + 1) hi) by (done || lia).
  by rewrite Hlo, Hhi.
Qed.

(** The state after [_binning_in_sample_residuals], whatever it returns:
    the dictionary by bin is stored before anything can raise. *)
Lemma binning_by_bin f (y_true y_pred : list V) (seed : Z) :
  let f' := (ForecasterAutoreg._binning_in_sample_residuals (G := G) f y_true y_pred seed).2 in
  let data := zip (zip_with sub y_true y_pred) y_pred in
  ForecasterAutoreg.binner f' = binner_fit (ForecasterAutoreg.binner f) data.*2
  ∧ ForecasterAutoreg.in_sample_residuals_by_bin_ f'
    = Some (ForecasterAutoreg.cap_bins (G := G) seed
              (ForecasterAutoreg.groupby
                 (zip (binner_transform (ForecasterAutoreg.binner f') <$> data.*2) data.*1))).
Proof.
  unfold ForecasterAutoreg._binning_in_sample_residuals. cbv zeta.
  destruct (ForecasterAutoreg.np_concatenate _) as [flat|e]; [|done].
  by destruct (ForecasterAutoreg.make_binner_intervals _) as [intervals|e].
Qed.

Lemma binning_Ok f (y_true y_pred : list V) (seed : Z) f' :
  ForecasterAutoreg._binning_in_sample_residuals (G := G) f y_true y_pred seed = (Ok (), f') →
  ∃ by_bin,
    ForecasterAutoreg.in_sample_residuals_by_bin_ f' = Some by_bin
    ∧ ForecasterAutoreg.in_sample_residuals_ f' = Some (concat (Dict.values by_bin))
    ∧ ForecasterAutoreg.bins_capped by_bin
    ∧ Forall (λ kv, kv.2 ≠ []) by_bin
    ∧ ForecasterAutoreg.binner_intervals f'
      = Some ((λ i, (i, (default nan (bin_edges_ (ForecasterAutoreg.binner f') !! Z.to_nat i),
                         Some (default nan (bin_edges_ (ForecasterAutoreg.binner f')
                                              !! Z.to_nat (i + 1))))))
                <$> Py.range (Py.len (bin_edges_ (ForecasterAutoreg.binner f')) - 1)).
Proof.
  unfold ForecasterAutoreg._binning_in_sample_residuals. cbv zeta.
  destruct (ForecasterAutoreg.np_concatenate _) as [flat|e] eqn:Ec; [|done].
  rewrite make_binner_intervals_spec. intros [= <-]. simpl.
  eexists. split; [done|]. split.
  - unfold ForecasterAutoreg.np_concatenate in Ec.
    destruct (Dict.values _); [done|]. by injection Ec as <-.
  - split; [apply cap_bins_capped|]. split; [|done].
    apply cap_bins_nonempty, groupby_nonempty.
Qed.

Lemma fit_binning f (y : list V) (exog : option (list (list V))) (store_last_window : bool) f' :
  ForecasterAutoreg.fit (G := G) f y exog store_last_window true = (Ok (), f') →
  ∃ f2 y_true y_pred f3,
    ForecasterAutoreg._binning_in_sample_residuals (G := G) f2 y_true y_pred 95123
    = (Ok (), f3)
    ∧ ForecasterAutoreg.in_sample_residuals_by_bin_ f'
      = ForecasterAutoreg.in_sample_residuals_by_bin_ f3
    ∧ ForecasterAutoreg.in_sample_residuals_ f' = ForecasterAutoreg.in_sample_residuals_ f3
    ∧ ForecasterAutoreg.binner f' = ForecasterAutoreg.binner f3
    ∧ ForecasterAutoreg.binner_intervals f' = ForecasterAutoreg.binner_intervals f3.
Proof.
  unfold ForecasterAutoreg.fit.
  destruct (ForecasterAutoreg.create_train_X_y _ _ _) as [[[X_train y_train]|e] f1]; [|done].
  destruct (ForecasterAutoreg.create_sample_weights f1 X_train) as [sample_weight|e]; [|done].
  destruct (ForecasterAutoreg._binning_in_sample_residuals _ _ _ _) as [[[]|e] f3] eqn:Eb;
    [|done].
  destruct store_last_window; intros [= <-]; by eexists _, _, _, _.
Qed.

(** *** After [set_out_sample_residuals] *)

Lemma add_missing_bins_capped (keys : list Z) d :
  ForecasterAutoreg.bins_capped d →
  ForecasterAutoreg.bins_capped (ForecasterAutoreg.add_missing_bins keys d)
  ∧ (length d ≤ length (ForecasterAutoreg.add_missing_bins keys d))%nat.
Proof.
  unfold ForecasterAutoreg.add_missing_bins. revert d.
  induction keys as [|k keys IH]; intros d Hd; simpl; [by split|].
  destruct (Dict.mem d k); [by apply IH|].
  destruct (IH (Dict.set d k [])) as [H1 H2].
  - apply dict_set_Forall; [done|]. simpl. unfold Py.len. simpl. lia.
  - split; [done|]. pose proof (dict_set_length d k ([] : list V)). lia.
Qed.

Lemma choice_Ok_length (g g' : G) (pool sample : list V) (size : Z) (replace : bool) :
  choice g (Some pool) size replace = Ok (g', sample) → Py.len sample = size.
Proof.
  unfold choice.
  destruct (decide (size < 0)); [done|].
  destruct (decide (pool = [] ∧ 0 < size)) as [|Hne]; [done|].
  destruct (decide (replace = false ∧ Py.len pool < size)) as [|Hsz]; [done|].
  intros E. apply (f_equal (λ r, match r with Ok p => length p.2 | Raise _ => 0%nat end)) in E.
  simpl in E. rewrite rng_choice_length in E.
  - unfold Py.len. lia.
  - destruct pool; [right|by left]. apply not_and_l in Hne as [|]; [done|lia].
  - intros ->. apply not_and_l in Hsz as [|]; [done|]. unfold Py.len in *. lia.
Qed.

Lemma fill_empty_bins_capped (pool : list V) (empty_bins : list Z) d d' :
  ForecasterAutoreg.fill_empty_bins (G := G) pool empty_bins d = Ok d' →
  ForecasterAutoreg.bins_capped d →
  ForecasterAutoreg.bins_capped d' ∧ (length d ≤ length d')%nat.
Proof.
  unfold ForecasterAutoreg.fill_empty_bins. revert d.
  induction empty_bins as [|k ks IH]; intros d; cbn [foldM].
  - intros [= <-] Hd. by split.
  - destruct (choice _ _ _ _) as [[g sample]|] eqn:Ec; cbn [mbind result_bind]; [|done].
    intros Hrun Hd. apply choice_Ok_length in Ec.
    destruct (IH _ Hrun) as [H1 H2].
    + apply dict_set_Forall; [done|]. simpl. lia.
    + split; [done|]. pose proof (dict_set_length d k sample). lia.
Qed.

Lemma set_out_sample_residuals_binned f (residuals y_pred : list V)
    (append transform : bool) (seed : Z) f' :
  ForecasterAutoreg.set_out_sample_residuals (G := G) f residuals (Some y_pred) append
    transform seed = (Ok (), f') →
  ∃ d flat,
    ForecasterAutoreg.out_sample_residuals_by_bin_ f' = Some d
    ∧ ForecasterAutoreg.bins_capped d
    ∧ ForecasterAutoreg.out_sample_residuals_ f' = Some flat
    ∧ Py.len flat ≤ 200 * Py.len d.
Proof.
  unfold ForecasterAutoreg.set_out_sample_residuals.
  destruct (bool_decide _); [done|].
  destruct (_ && _); [done|].
  destruct (_ && _); [done|].
  destruct (negb _); [done|].
  set (by_bin := ForecasterAutoreg.cap_bins 123 _).
  assert (ForecasterAutoreg.bins_capped by_bin) as Hcap by apply cap_bins_capped.
  destruct (ForecasterAutoreg.np_concatenate _) as [flat|e] eqn:Ec; [|done].
  assert (flat = concat (Dict.values by_bin)) as Hflat.
  { unfold ForecasterAutoreg.np_concatenate in Ec.
    destruct (Dict.values by_bin); [done|]. by injection Ec as <-. }
  pose proof (capped_total by_bin Hcap) as [_ Hle]. rewrite <- Hflat in Hle.
  simpl. destruct (ForecasterAutoreg.in_sample_residuals_by_bin_ f) as [in_by_bin|]; [|done].
  destruct (add_missing_bins_capped (Dict.keys in_by_bin) by_bin Hcap) as [Hcap1 Hlen1].
  set (by_bin1 := ForecasterAutoreg.add_missing_bins _ _) in *.
  destruct ((filter _ by_bin1).*1) as [|k ks].
  - intros [= <-]. simpl. eexists _, _. split; [done|]. split; [done|].
    split; [done|]. unfold Py.len in *. lia.
  - destruct (match ForecasterAutoreg.binner_intervals _ with Some _ => _ | None => _ end);
      [|done].
    destruct (ForecasterAutoreg.fill_empty_bins flat (k :: ks) by_bin1) as [by_bin2|] eqn:Ef;
      [|done].
    destruct (fill_empty_bins_capped _ _ _ _ Ef Hcap1) as [Hcap2 Hlen2].
    intros [= <-]. simpl. eexists _, _. split; [done|]. split; [done|].
    split; [done|]. unfold Py.len in *. lia.
Qed.

(** Without predictions: the residuals are refused when they would have to
    be transformed, and otherwise stored, down-sampled to 1000 when there
    are more and, when appended, cut to the free space of the buffer. *)
Lemma set_out_sample_residuals_flat f (residuals : list V) (append transform : bool)
    (seed : Z) :
  let new := if decide (1000 < Py.len residuals)
             then (rng_choice (default_rng (G := G) seed) residuals 1000 false).2
             else residuals in
  let flat := match ForecasterAutoreg.out_sample_residuals_ f with
              | Some stored =>
                  if append
                  then stored ++ Py.slice_to new (Z.max 0 (1000 - Py.len stored))
                  else new
              | None => new
              end in
  ForecasterAutoreg.set_out_sample_residuals (G := G) f residuals None append transform seed
  = (if transform && bool_decide (is_Some (ForecasterAutoreg.transformer_y f))
     then (Raise (TypeError "array argument must be a numpy ndarray"), f)
     else (Ok (), ForecasterAutoreg.set_out_sample_residuals_ f (Some flat)))
  ∧ Py.len new = Z.min 1000 (Py.len residuals).
Proof.
  intros new flat. split.
  - unfold ForecasterAutoreg.set_out_sample_residuals. simpl.
    destruct (transform && _); [done|]. fold new. do 2 f_equal. unfold flat.
    destruct (ForecasterAutoreg.out_sample_residuals_ f) as [stored|]; [|done].
    destruct append; [|done].
    destruct (decide (Py.len new < _)) as [Hlt|]; [|done]. do 2 f_equal.
    rewrite slice_to_take by lia. symmetry. apply take_ge. unfold Py.len in *. lia.
  - unfold new. destruct (decide (1000 < Py.len residuals)) as [Hlt|]; [|lia].
    unfold Py.len at 1. rewrite rng_choice_length; [lia| |unfold Py.len in Hlt; lia].
    left. intros E. rewrite E in Hlt. unfold Py.len in Hlt. simpl in Hlt. lia.
Qed.

(** C7, as amended. After a fit that stores the in-sample residuals,
    [binner_intervals] has one entry per bin [i], in order, equal to the
    pair of the edges [bin_edges[i]] and [bin_edges[i + 1]]; the upper
    bound of every bin, the last included, is an edge and never [None]. *)
Theorem binner_intervals_after_fit f (y : list V) (exog : option (list (list V)))
    (store_last_window : bool) f' :
  ForecasterAutoreg.fit (G := G) f y exog store_last_window true = (Ok (), f') →
  let edges := bin_edges_ (ForecasterAutoreg.binner f') in
  ∃ intervals,
    ForecasterAutoreg.binner_intervals f' = Some intervals
    ∧ Dict.keys intervals = Py.range (Py.len edges - 1)
    ∧ (∀ i, 0 ≤ i < Py.len edges - 1 →
         ∃ lo hi, edges !! Z.to_nat i = Some lo
                  ∧ edges !! Z.to_nat (i + 1) = Some hi
                  ∧ intervals !! Z.to_nat i = Some (i, (lo, Some hi)))
    ∧ Forall (λ kv, is_Some kv.2.2) intervals.
Proof.
  intros Hfit edges.
  destruct (fit_binning f y exog store_last_window f' Hfit)
    as (f2 & yt & yp & f3 & Hb & _ & _ & Hbin & Hint).
  destruct (binning_Ok _ _ _ _ _ Hb) as (d & _ & _ & _ & _ & Hi).
  rewrite <- Hint, <- Hbin in Hi. fold edges in Hi.
  eexists. split; [exact Hi|]. split; [|split].
  - unfold Dict.keys. rewrite <- list_fmap_compose.
    rewrite <- (list_fmap_id (Py.range _)) at 2. by apply list_fmap_ext.
  - intros i Hr.
    assert (Z.to_nat i < length edges)%nat as H1 by (unfold Py.len in Hr; lia).
    assert (Z.to_nat (i + 1) < length edges)%nat as H2 by (unfold Py.len in Hr; lia).
    destruct (lookup_lt_is_Some_2 _ _ H1) as [lo Hlo].
    destruct (lookup_lt_is_Some_2 _ _ H2) as [hi Hhi].
    exists lo, hi. split; [done|]. split; [done|].
    rewrite list_lookup_fmap. unfold Py.range.
    rewrite lookup_seqZ_lt by lia. simpl.
    rewrite Z.add_0_l, Z2Nat.id by lia. by rewrite Hlo, Hhi.
  - apply Forall_fmap, Forall_forall. intros i _. by eexists.
Qed.

End ResidualPools.

(** * Further properties of the methods *)

Ltac zlia := unfold Py.len in *; lia.

(** ** The training matrices *)

Section Training.
Context {V R T B G : Type}.
Context `{!Numeric V, !Regressor V R, !Transformer V T, !Discretizer V B,
          !Generator V G, !InputCheck V, !TransformerShape V T}.

Abbreviation forecaster := (ForecasterAutoreg.t (V := V) (R := R) (T := T) (B := B)).
Implicit Types (f : forecaster) (y : list V).

Lemma rows_of_columns_lookup (n : Z) (cols : list (list V)) (r : Z) :
  0 ≤ r < n →
  ForecasterAutoreg.rows_of_columns n cols !! Z.to_nat r
  = Some ((λ col, default nan (col !! Z.to_nat r)) <$> cols).
Proof.
  intros Hr. unfold ForecasterAutoreg.rows_of_columns, Py.range.
  rewrite list_lookup_fmap, lookup_seqZ_lt by lia. simpl.
  by rewrite Z.add_0_l, Z2Nat.id by lia.
Qed.

Lemma create_train_X_y_returns f y (exog : option (list (list V))) :
  ForecasterAutoreg.well_formed f →
  ForecasterAutoreg.differentiation f = None →
  ForecasterAutoreg.max_lag f < Py.len y →
  (∀ ex, exog = Some ex → Py.len ex = Py.len y) →
  ∃ X_train y_train f',
    ForecasterAutoreg.create_train_X_y f y exog = (Ok (X_train, y_train), f')
    ∧ Py.len X_train = Py.len y - ForecasterAutoreg.max_lag f
    ∧ Py.len y_train = Py.len y - ForecasterAutoreg.max_lag f.
Proof.
  intros (Hne & Hlags & Hws & Hdiff) Hd Hn Hexog.
  set (fit_transformer := negb (ForecasterAutoreg.is_fitted f)).
  assert (Py.len (transform_dataframe y (ForecasterAutoreg.transformer_y f) fit_transformer
                    false).2 = Py.len y) as Hlen.
  { unfold transform_dataframe, Py.len. by rewrite transform_numpy_length. }
  unfold ForecasterAutoreg.create_train_X_y. fold fit_transformer.
  destruct (transform_dataframe y _ fit_transformer false) as [ty yv] eqn:Ety.
  simpl in *. rewrite Hd.
  set (f1 := ForecasterAutoreg.set_transformer_y f ty).
  set (m := ForecasterAutoreg.max_lag f) in *.
  assert (1 ≤ m) as Hm.
  { destruct (ForecasterAutoreg.lags f) as [|lag l]; [done|].
    apply Forall_cons in Hlags as [? _]. lia. }
  assert (ForecasterAutoreg._create_lags f1 yv
          = Ok (ForecasterAutoreg.rows_of_columns (Py.len yv - m)
                  ((λ lag, Py.slice yv (m - lag) (Py.len yv - lag))
                     <$> ForecasterAutoreg.lags f),
                Py.slice_from yv m)) as Hcl.
  { apply (create_lags_Ok f1 yv); [exact Hlags|simpl; fold m; zlia]. }
  assert (Py.len (ForecasterAutoreg.rows_of_columns (Py.len yv - m)
                    ((λ lag, Py.slice yv (m - lag) (Py.len yv - lag))
                       <$> ForecasterAutoreg.lags f)) = Py.len y - m) as HlenX.
  { rewrite rows_of_columns_len by zlia. zlia. }
  assert (Py.len (Py.slice_from yv m) = Py.len y - m) as Hleny.
  { rewrite len_slice_from by zlia. zlia. }
  destruct exog as [ex|]; simpl.
  - specialize (Hexog ex eq_refl). rewrite decide_False by (intros ?; zlia).
    pose proof (transform_matrix_shape ex (ForecasterAutoreg.transformer_exog f)
                  fit_transformer false) as Hshape.
    simpl. destruct (transform_matrix ex _ fit_transformer false) as [te ex'] eqn:Ete.
    simpl in Hshape. apply same_shape_length in Hshape.
    change (ForecasterAutoreg._create_lags (ForecasterAutoreg.set_transformer_exog f1 te) yv)
      with (ForecasterAutoreg._create_lags f1 yv).
    rewrite Hcl. simpl. rewrite Hd. fold m.
    eexists _, _, _. split; [done|].
    assert (length (Py.slice_from ex' m) = Z.to_nat (Py.len y - m)) as Hlex.
    { rewrite slice_from_drop by zlia. rewrite length_drop. zlia. }
    split; [|done].
    unfold Py.len. rewrite length_zip_with. zlia.
  - rewrite Hcl. simpl. rewrite Hd. eexists _, _, _. split; [done|]. by split.
Qed.

(** X1. Without differencing, on a series longer than [max_lag] with an
    [exog] of its length if any, [create_train_X_y] returns
    [len(y) - max_lag] rows and as many targets. Row [r] holds the lags
    read back from position [max_lag + r] of the transformed series,
    followed by the row [max_lag + r] of the transformed [exog]; target
    [r] is the value of the transformed series at that position. *)
Theorem training_rows f y (exog : option (list (list V))) :
  ForecasterAutoreg.well_formed f →
  ForecasterAutoreg.differentiation f = None →
  ForecasterAutoreg.max_lag f < Py.len y →
  (∀ ex, exog = Some ex → Py.len ex = Py.len y) →
  let fit_transformer := negb (ForecasterAutoreg.is_fitted f) in
  let y_values :=
    (transform_dataframe y (ForecasterAutoreg.transformer_y f) fit_transformer false).2 in
  let exog_values :=
    (λ ex, (transform_matrix ex (ForecasterAutoreg.transformer_exog f) fit_transformer
              false).2) <$> exog in
  ∃ X_train y_train f',
    ForecasterAutoreg.create_train_X_y f y exog = (Ok (X_train, y_train), f')
    ∧ Py.len X_train = Py.len y - ForecasterAutoreg.max_lag f
    ∧ Py.len y_train = Py.len y - ForecasterAutoreg.max_lag f
    ∧ ∀ r, 0 ≤ r < Py.len y - ForecasterAutoreg.max_lag f →
        let t := ForecasterAutoreg.max_lag f + r in
        X_train !! Z.to_nat r
        = Some (ForecasterAutoreg.lagged_row (ForecasterAutoreg.lags f)
                  (take (Z.to_nat t) y_values)
                ++ ForecasterAutoreg.exog_row exog_values t)
        ∧ y_train !! Z.to_nat r = y_values !! Z.to_nat t.
Proof.
  intros (Hne & Hlags & Hws & Hdiff) Hd Hn Hexog fit_transformer y_values exog_values.
  assert (Py.len y_values = Py.len y) as Hlen.
  { unfold y_values, transform_dataframe, Py.len. by rewrite transform_numpy_length. }
  unfold ForecasterAutoreg.create_train_X_y. fold fit_transformer.
  subst y_values exog_values.
  destruct (transform_dataframe y _ fit_transformer false) as [ty yv] eqn:Ety.
  simpl in *. rewrite Hd.
  set (f1 := ForecasterAutoreg.set_transformer_y f ty).
  set (m := ForecasterAutoreg.max_lag f) in *.
  assert (1 ≤ m) as Hm.
  { destruct (ForecasterAutoreg.lags f) as [|lag l]; [done|].
    apply Forall_cons in Hlags as [? _]. lia. }
  assert (ForecasterAutoreg._create_lags f1 yv
          = Ok (ForecasterAutoreg.rows_of_columns (Py.len yv - m)
                  ((λ lag, Py.slice yv (m - lag) (Py.len yv - lag))
                     <$> ForecasterAutoreg.lags f),
                Py.slice_from yv m)) as Hcl.
  { apply (create_lags_Ok f1 yv); [exact Hlags|simpl; fold m; zlia]. }
  assert (∀ r, 0 ≤ r < Py.len y - m →
            ForecasterAutoreg.rows_of_columns (Py.len yv - m)
              ((λ lag, Py.slice yv (m - lag) (Py.len yv - lag))
                 <$> ForecasterAutoreg.lags f) !! Z.to_nat r
            = Some (ForecasterAutoreg.lagged_row (ForecasterAutoreg.lags f)
                      (take (Z.to_nat (m + r)) yv))) as Hrow.
  { intros r Hr. rewrite rows_of_columns_lookup by zlia. f_equal.
    unfold ForecasterAutoreg.lagged_row. rewrite <- list_fmap_compose.
    apply Forall_fmap_ext_1. eapply Forall_impl; [exact Hlags|].
    intros lag Hlag. simpl. fold m in Hlag.
    destruct (slice_in_range yv (m - lag) (Py.len yv - lag)) as [-> _]; [zlia|zlia|].
    rewrite lookup_take_lt, lookup_drop by zlia.
    assert (Py.len (take (Z.to_nat (m + r)) yv) = m + r) as -> by solve_len.
    rewrite lookup_take_lt by zlia. do 2 f_equal. zlia. }
  assert (∀ r, 0 ≤ r < Py.len y - m →
            Py.slice_from yv m !! Z.to_nat r = yv !! Z.to_nat (m + r)) as Hy.
  { intros r Hr. rewrite slice_from_drop by zlia. rewrite lookup_drop. f_equal. zlia. }
  assert (Py.len (ForecasterAutoreg.rows_of_columns (Py.len yv - m)
                    ((λ lag, Py.slice yv (m - lag) (Py.len yv - lag))
                       <$> ForecasterAutoreg.lags f)) = Py.len y - m) as HlenX.
  { rewrite rows_of_columns_len by zlia. zlia. }
  assert (Py.len (Py.slice_from yv m) = Py.len y - m) as Hleny.
  { rewrite len_slice_from by zlia. zlia. }
  destruct exog as [ex|]; simpl.
  - specialize (Hexog ex eq_refl). rewrite decide_False by (intros ?; zlia).
    pose proof (transform_matrix_shape ex (ForecasterAutoreg.transformer_exog f)
                  fit_transformer false) as Hshape.
    simpl. destruct (transform_matrix ex _ fit_transformer false) as [te ex'] eqn:Ete.
    simpl in Hshape. apply same_shape_length in Hshape.
    change (ForecasterAutoreg._create_lags (ForecasterAutoreg.set_transformer_exog f1 te) yv)
      with (ForecasterAutoreg._create_lags f1 yv).
    rewrite Hcl. simpl. rewrite Hd. fold m.
    eexists _, _, _. split; [done|].
    assert (length (Py.slice_from ex' m) = Z.to_nat (Py.len y - m)) as Hlex.
    { rewrite slice_from_drop by zlia. rewrite length_drop. zlia. }
    split; [|split; [done|]].
    + unfold Py.len. rewrite length_zip_with. zlia.
    + intros r Hr. split; [|by apply Hy].
      assert (Z.to_nat (m + r) < length ex')%nat as Hlt by zlia.
      destruct (lookup_lt_is_Some_2 _ _ Hlt) as [row Hrowx].
      rewrite lookup_zip_with. rewrite Hrow by done. simpl.
      rewrite slice_from_drop by zlia. rewrite lookup_drop.
      replace (Z.to_nat m + Z.to_nat r)%nat with (Z.to_nat (m + r)) by zlia.
      by rewrite Hrowx.
  - rewrite Hcl. simpl. rewrite Hd. eexists _, _, _. split; [done|].
    split; [done|]. split; [done|]. intros r Hr. split; [|by apply Hy].
    rewrite Hrow by done. by rewrite app_nil_r.
Qed.


End Training.

(** ** What [fit] leaves alone *)

Section Fit.
Context {V R T B G : Type}.
Context `{!Numeric V, !Regressor V R, !Transformer V T, !Discretizer V B,
          !Generator V G, !InputCheck V, !TransformerShape V T}.

Abbreviation forecaster := (ForecasterAutoreg.t (V := V) (R := R) (T := T) (B := B)).
Implicit Types (f : forecaster) (y : list V).

(** What [create_train_X_y] leaves alone: everything but the two
    transformers and the differentiator. *)
Lemma create_train_X_y_frame f y (exog : option (list (list V))) :
  let f' := (ForecasterAutoreg.create_train_X_y f y exog).2 in
  ForecasterAutoreg.regressor f' = ForecasterAutoreg.regressor f
  ∧ ForecasterAutoreg.lags f' = ForecasterAutoreg.lags f
  ∧ ForecasterAutoreg.max_lag f' = ForecasterAutoreg.max_lag f
  ∧ ForecasterAutoreg.window_size f' = ForecasterAutoreg.window_size f
  ∧ ForecasterAutoreg.window_size_diff f' = ForecasterAutoreg.window_size_diff f
  ∧ ForecasterAutoreg.differentiation f' = ForecasterAutoreg.differentiation f
  ∧ ForecasterAutoreg.last_window_ f' = ForecasterAutoreg.last_window_ f
  ∧ ForecasterAutoreg.exog_in_ f' = ForecasterAutoreg.exog_in_ f
  ∧ ForecasterAutoreg.in_sample_residuals_ f' = ForecasterAutoreg.in_sample_residuals_ f
  ∧ ForecasterAutoreg.out_sample_residuals_ f' = ForecasterAutoreg.out_sample_residuals_ f
  ∧ ForecasterAutoreg.in_sample_residuals_by_bin_ f'
    = ForecasterAutoreg.in_sample_residuals_by_bin_ f
  ∧ ForecasterAutoreg.out_sample_residuals_by_bin_ f'
    = ForecasterAutoreg.out_sample_residuals_by_bin_ f
  ∧ ForecasterAutoreg.is_fitted f' = ForecasterAutoreg.is_fitted f
  ∧ ForecasterAutoreg.binner f' = ForecasterAutoreg.binner f
  ∧ ForecasterAutoreg.binner_intervals f' = ForecasterAutoreg.binner_intervals f.
Proof.
  unfold ForecasterAutoreg.create_train_X_y.
  destruct (transform_dataframe _ _ _ _) as [ty yv].
  destruct f as [reg lags ml ws wsd ty0 te0 diff dd lw ei isr osr isb osb fitted b bi].
  destruct diff as [d|], dd as [d0|], fitted, exog as [ex|]; simpl;
    repeat (first
      [ destruct (Differentiator.fit_transform _ _) as [[? ?]|]
      | destruct (decide (Py.len _ ≠ Py.len _))
      | destruct (transform_matrix _ _ _ _) as [? ?]
      | destruct (ForecasterAutoreg._create_lags _ _) as [[? ?]|] ]; simpl);
    repeat split; reflexivity.
Qed.

Lemma create_train_X_y_weight_func f y (exog : option (list (list V))) :
  ForecasterAutoreg.weight_func (ForecasterAutoreg.create_train_X_y f y exog).2
  = ForecasterAutoreg.weight_func f.
Proof.
  unfold ForecasterAutoreg.create_train_X_y.
  destruct (transform_dataframe _ _ _ _) as [ty yv].
  destruct f as [reg lags ml ws wsd ty0 te0 diff dd lw ei isr osr isb osb fitted b bi wf].
  destruct diff as [d|], dd as [d0|], fitted, exog as [ex|]; simpl;
    repeat (first
      [ destruct (Differentiator.fit_transform _ _) as [[? ?]|]
      | destruct (decide (Py.len _ ≠ Py.len _))
      | destruct (transform_matrix _ _ _ _) as [? ?]
      | destruct (ForecasterAutoreg._create_lags _ _) as [[? ?]|] ]; simpl);
    reflexivity.
Qed.

(** What [_binning_in_sample_residuals] leaves alone. *)
Lemma binning_frame f (y_true y_pred : list V) (seed : Z) :
  let f' := (ForecasterAutoreg._binning_in_sample_residuals (G := G) f y_true y_pred seed).2 in
  ForecasterAutoreg.regressor f' = ForecasterAutoreg.regressor f
  ∧ ForecasterAutoreg.lags f' = ForecasterAutoreg.lags f
  ∧ ForecasterAutoreg.max_lag f' = ForecasterAutoreg.max_lag f
  ∧ ForecasterAutoreg.window_size f' = ForecasterAutoreg.window_size f
  ∧ ForecasterAutoreg.window_size_diff f' = ForecasterAutoreg.window_size_diff f
  ∧ ForecasterAutoreg.differentiation f' = ForecasterAutoreg.differentiation f
  ∧ ForecasterAutoreg.last_window_ f' = ForecasterAutoreg.last_window_ f
  ∧ ForecasterAutoreg.exog_in_ f' = ForecasterAutoreg.exog_in_ f
  ∧ ForecasterAutoreg.out_sample_residuals_ f' = ForecasterAutoreg.out_sample_residuals_ f
  ∧ ForecasterAutoreg.out_sample_residuals_by_bin_ f'
    = ForecasterAutoreg.out_sample_residuals_by_bin_ f
  ∧ ForecasterAutoreg.is_fitted f' = ForecasterAutoreg.is_fitted f.
Proof.
  unfold ForecasterAutoreg._binning_in_sample_residuals.
  destruct (ForecasterAutoreg.np_concatenate _) as [flat|]; simpl; [|done].
  destruct (ForecasterAutoreg.make_binner_intervals _) as [iv|]; simpl; done.
Qed.

Lemma groupby_nonnil (rows : list (Z * V)) :
  rows ≠ [] → ForecasterAutoreg.groupby rows ≠ [].
Proof.
  intros Hne E. destruct rows as [|[k v] rows]; [done|].
  assert (k ∈ Dict.keys (ForecasterAutoreg.groupby ((k, v) :: rows))) as Hk.
  { apply elem_of_groupby_keys. simpl. left. }
  rewrite E in Hk. by apply elem_of_nil in Hk.
Qed.

(** Binning returns as soon as there is one residual. *)
Lemma binning_returns f (y_true y_pred : list V) (seed : Z) :
  y_true ≠ [] → y_pred ≠ [] →
  (ForecasterAutoreg._binning_in_sample_residuals (G := G) f y_true y_pred seed).1 = Ok ().
Proof.
  intros Ht Hp. unfold ForecasterAutoreg._binning_in_sample_residuals.
  set (d := ForecasterAutoreg.cap_bins _ _).
  assert (d ≠ []) as Hd.
  { unfold d, ForecasterAutoreg.cap_bins, Dict.map_items.
    intros E. apply fmap_nil_inv in E. revert E. apply groupby_nonnil.
    destruct y_true as [|a y_true]; [done|]. destruct y_pred as [|b y_pred]; [done|].
    done. }
  unfold ForecasterAutoreg.np_concatenate, Dict.values.
  destruct d as [|kv d]; [done|]. simpl.
  rewrite make_binner_intervals_spec. done.
Qed.

End Fit.

(** ** The outcome of [fit] *)

Section FitOutcome.
Context {V R T B G : Type}.
Context `{!Numeric V, !Regressor V R, !Transformer V T, !Discretizer V B,
          !Generator V G, !InputCheck V, !TransformerShape V T}.

Abbreviation forecaster := (ForecasterAutoreg.t (V := V) (R := R) (T := T) (B := B)).
Implicit Types (f : forecaster) (y : list V).

(** X2. A call of [fit] that returns leaves the forecaster fitted, records
    whether an [exog] was given, and stores as last window the last
    [window_size_diff] values of [y], or none when [store_last_window] is
    false. The lags, the window sizes, the differencing order and the
    out-of-sample residuals are untouched. With
    [store_in_sample_residuals = False] the flat in-sample residuals are
    cleared, while [in_sample_residuals_by_bin_], the binner and its
    intervals stay those of before the call. *)
Theorem fit_outcome f y (exog : option (list (list V)))
    (store_last_window store_in_sample_residuals : bool) f' :
  ForecasterAutoreg.fit (G := G) f y exog store_last_window store_in_sample_residuals
  = (Ok (), f') →
  ForecasterAutoreg.is_fitted f' = true
  ∧ ForecasterAutoreg.exog_in_ f' = (if exog is Some _ then true else false)
  ∧ ForecasterAutoreg.last_window_ f'
    = (if store_last_window
       then Some (Py.slice_from y (- ForecasterAutoreg.window_size_diff f))
       else None)
  ∧ ForecasterAutoreg.lags f' = ForecasterAutoreg.lags f
  ∧ ForecasterAutoreg.max_lag f' = ForecasterAutoreg.max_lag f
  ∧ ForecasterAutoreg.window_size f' = ForecasterAutoreg.window_size f
  ∧ ForecasterAutoreg.window_size_diff f' = ForecasterAutoreg.window_size_diff f
  ∧ ForecasterAutoreg.differentiation f' = ForecasterAutoreg.differentiation f
  ∧ ForecasterAutoreg.out_sample_residuals_ f' = ForecasterAutoreg.out_sample_residuals_ f
  ∧ ForecasterAutoreg.out_sample_residuals_by_bin_ f'
    = ForecasterAutoreg.out_sample_residuals_by_bin_ f
  ∧ (store_in_sample_residuals = false →
       ForecasterAutoreg.in_sample_residuals_ f' = None
       ∧ ForecasterAutoreg.in_sample_residuals_by_bin_ f'
         = ForecasterAutoreg.in_sample_residuals_by_bin_ f
       ∧ ForecasterAutoreg.binner f' = ForecasterAutoreg.binner f
       ∧ ForecasterAutoreg.binner_intervals f' = ForecasterAutoreg.binner_intervals f).
Proof.
  unfold ForecasterAutoreg.fit.
  set (f0 := ForecasterAutoreg.set_is_fitted _ false).
  pose proof (create_train_X_y_frame f0 y exog) as Hc. simpl in Hc.
  destruct (ForecasterAutoreg.create_train_X_y f0 y exog) as [[[X yt]|e] f1]; [|done].
  simpl in Hc.
  destruct Hc as (Hreg & Hl & Hml & Hws & Hwsd & Hd & Hlw & Hei & Hisr & Hosr & Hisb & Hosb
                  & Hfit & Hb & Hbi).
  destruct (ForecasterAutoreg.create_sample_weights f1 X) as [sample_weight|e]; [|done].
  set (f2 := match exog with
             | Some _ => ForecasterAutoreg.set_exog_in_ _ true
             | None => _
             end).
  assert (ForecasterAutoreg.exog_in_ f2 = (if exog is Some _ then true else false)) as Hei2.
  { unfold f2. destruct exog; simpl; [done|]. by rewrite Hei. }
  assert (ForecasterAutoreg.is_fitted f2 = true) as Hfit2 by (unfold f2; by destruct exog).
  assert (ForecasterAutoreg.lags f2 = ForecasterAutoreg.lags f
          ∧ ForecasterAutoreg.max_lag f2 = ForecasterAutoreg.max_lag f
          ∧ ForecasterAutoreg.window_size f2 = ForecasterAutoreg.window_size f
          ∧ ForecasterAutoreg.window_size_diff f2 = ForecasterAutoreg.window_size_diff f
          ∧ ForecasterAutoreg.differentiation f2 = ForecasterAutoreg.differentiation f
          ∧ ForecasterAutoreg.out_sample_residuals_ f2
            = ForecasterAutoreg.out_sample_residuals_ f
          ∧ ForecasterAutoreg.out_sample_residuals_by_bin_ f2
            = ForecasterAutoreg.out_sample_residuals_by_bin_ f
          ∧ ForecasterAutoreg.last_window_ f2 = None
          ∧ ForecasterAutoreg.in_sample_residuals_ f2 = None
          ∧ ForecasterAutoreg.in_sample_residuals_by_bin_ f2
            = ForecasterAutoreg.in_sample_residuals_by_bin_ f
          ∧ ForecasterAutoreg.binner f2 = ForecasterAutoreg.binner f
          ∧ ForecasterAutoreg.binner_intervals f2 = ForecasterAutoreg.binner_intervals f)
    as (Hl2 & Hml2 & Hws2 & Hwsd2 & Hd2 & Hosr2 & Hosb2 & Hlw2 & Hisr2 & Hisb2 & Hb2 & Hbi2).
  { unfold f2. destruct exog; simpl;
      rewrite ?Hl, ?Hml, ?Hws, ?Hwsd, ?Hd, ?Hosr, ?Hosb, ?Hlw, ?Hisr, ?Hisb, ?Hb, ?Hbi;
      repeat split; done. }
  clearbody f2. clear Hreg Hl Hml Hws Hwsd Hd Hlw Hei Hisr Hosr Hisb Hosb Hfit Hb Hbi.
  destruct store_in_sample_residuals.
  - pose proof (binning_frame (G := G) f2 yt
                  (reg_predict (ForecasterAutoreg.regressor f2) <$> X) 95123) as Hbf.
    simpl in Hbf.
    destruct (ForecasterAutoreg._binning_in_sample_residuals f2 yt _ 95123) as [[[]|e] f3];
      [|done].
    simpl in Hbf.
    destruct Hbf as (_ & Hl & Hml & Hws & Hwsd & Hd & Hlw & Hei & Hosr & Hosb & Hfit).
    destruct store_last_window; intros [= <-]; simpl;
      rewrite ?Hl, ?Hml, ?Hws, ?Hwsd, ?Hd, ?Hlw, ?Hei, ?Hosr, ?Hosb, ?Hfit;
      repeat split; try done.
    by rewrite Hwsd2.
  - destruct store_last_window; intros [= <-]; simpl; repeat split; try done.
    by rewrite Hwsd2.
Qed.

Lemma create_train_X_y_raises f y (exog : option (list (list V))) :
  ForecasterAutoreg.differentiation f = None →
  Py.len y ≤ ForecasterAutoreg.max_lag f
  ∨ (∃ ex, exog = Some ex ∧ Py.len ex ≠ Py.len y) →
  ∃ site, (ForecasterAutoreg.create_train_X_y f y exog).1 = Raise (ValueError site).
Proof.
  intros Hd Hbad. unfold ForecasterAutoreg.create_train_X_y.
  pose proof (transform_numpy_length y (ForecasterAutoreg.transformer_y f)
                (negb (ForecasterAutoreg.is_fitted f)) false) as Hlen.
  unfold transform_dataframe.
  destruct (transform_numpy y _ _ _) as [ty yv]. simpl in *. rewrite Hd.
  assert (∀ f1 : forecaster,
            ForecasterAutoreg.max_lag f1 = ForecasterAutoreg.max_lag f →
            Py.len y ≤ ForecasterAutoreg.max_lag f →
            ForecasterAutoreg._create_lags f1 yv
            = Raise (ValueError "The maximum lag must be less than the length of the series"))
    as Hlags.
  { intros f1 E Hn. unfold ForecasterAutoreg._create_lags.
    rewrite decide_True; [done|]. rewrite E. zlia. }
  destruct exog as [ex|]; simpl.
  - destruct (decide (Py.len ex ≠ Py.len y)); simpl; [by eexists|].
    destruct Hbad as [Hn|(ex' & [= <-] & Hne)]; [|done].
    destruct (transform_matrix _ _ _ _) as [te ex']. simpl.
    rewrite Hlags by done. simpl. by eexists.
  - destruct Hbad as [Hn|(ex' & ? & _)]; [|done].
    rewrite Hlags by done. simpl. by eexists.
Qed.

(** X3. Without differencing, [fit] on a series with at most [max_lag]
    values, or with an [exog] of another length than [y], raises a
    [ValueError] and leaves the forecaster unfitted, with no last window
    and no in-sample residuals, the regressor as it was. On a series
    longer than [max_lag], with an [exog] of its length if any, what
    [fit] does depends on the weights that [weight_func] gives to the
    positions of the training rows: without [weight_func], or when it
    gives no weights, or weights without [NaN] and negative value and
    whose sum is not zero, [fit] returns; otherwise it raises a
    [ValueError] and leaves the forecaster unfitted, the regressor as it
    was. *)
Theorem fit_fails_or_returns f y (exog : option (list (list V)))
    (store_last_window store_in_sample_residuals : bool) :
  ForecasterAutoreg.well_formed f →
  ForecasterAutoreg.differentiation f = None →
  let r := ForecasterAutoreg.fit (G := G) f y exog store_last_window
             store_in_sample_residuals in
  (Py.len y ≤ ForecasterAutoreg.max_lag f
   ∨ (∃ ex, exog = Some ex ∧ Py.len ex ≠ Py.len y) →
     (∃ site, r.1 = Raise (ValueError site))
     ∧ ForecasterAutoreg.is_fitted r.2 = false
     ∧ ForecasterAutoreg.last_window_ r.2 = None
     ∧ ForecasterAutoreg.in_sample_residuals_ r.2 = None
     ∧ ForecasterAutoreg.regressor r.2 = ForecasterAutoreg.regressor f)
  ∧ (ForecasterAutoreg.max_lag f < Py.len y →
     (∀ ex, exog = Some ex → Py.len ex = Py.len y) →
     let index :=
       seqZ (ForecasterAutoreg.max_lag f) (Py.len y - ForecasterAutoreg.max_lag f) in
     match ForecasterAutoreg.weight_func f ≫= (λ weight_func, weight_func index) with
     | Some w =>
         if existsb isnan w || existsb (λ v, lessb v zero) w
            || equalb (ForecasterAutoreg.np_sum w) zero
         then (∃ site, r.1 = Raise (ValueError site))
              ∧ ForecasterAutoreg.is_fitted r.2 = false
              ∧ ForecasterAutoreg.regressor r.2 = ForecasterAutoreg.regressor f
         else r.1 = Ok ()
     | None => r.1 = Ok ()
     end).
Proof.
  intros Hwf Hd r. subst r. unfold ForecasterAutoreg.fit.
  set (f0 := ForecasterAutoreg.set_is_fitted _ false).
  split.
  - intros Hbad.
    destruct (create_train_X_y_raises f0 y exog Hd Hbad) as [site Hr].
    pose proof (create_train_X_y_frame f0 y exog) as Hc. simpl in Hc.
    destruct (ForecasterAutoreg.create_train_X_y f0 y exog) as [[[X yt]|e] f1];
      simpl in *; [done|].
    destruct Hc as (Hreg & _ & _ & _ & _ & _ & Hlw & _ & Hisr & _ & _ & _ & Hfit & _).
    injection Hr as ->. split; [by exists site|]. done.
  - intros Hn Hexog.
    set (index := seqZ (ForecasterAutoreg.max_lag f) (Py.len y - ForecasterAutoreg.max_lag f)).
    destruct (create_train_X_y_returns f0 y exog Hwf Hd Hn Hexog)
      as (X & yt & f1 & Hrun & HlenX & Hleny).
    change (ForecasterAutoreg.max_lag f0) with (ForecasterAutoreg.max_lag f) in *.
    pose proof (create_train_X_y_frame f0 y exog) as Hc.
    pose proof (create_train_X_y_weight_func f0 y exog) as Hw.
    rewrite Hrun in Hc, Hw. simpl in Hc, Hw.
    destruct Hc as (Hreg & _ & Hml & _ & _ & Hd1 & _ & _ & _ & _ & _ & _ & Hfit & _).
    rewrite Hrun.
    assert (ForecasterAutoreg.train_index f1 X = index) as Hidx.
    { unfold ForecasterAutoreg.train_index, index. rewrite Hml, Hd1, Hd, HlenX. simpl.
      by rewrite Z.add_0_r. }
    assert (∀ sample_weight,
              (let f2 := ForecasterAutoreg.set_is_fitted
                           (ForecasterAutoreg.set_regressor f1
                              (reg_fit (ForecasterAutoreg.regressor f1) X yt sample_weight))
                           true in
               let f3 := match exog with
                         | Some _ => ForecasterAutoreg.set_exog_in_ f2 true
                         | None => f2
                         end in
               match (if store_in_sample_residuals
                      then ForecasterAutoreg._binning_in_sample_residuals (G := G) f3 yt
                             (reg_predict (ForecasterAutoreg.regressor f3) <$> X) 95123
                      else (Ok (), f3)) with
               | (Raise e, f) => (Raise e, f)
               | (Ok _, f) =>
                   if store_last_window
                   then (Ok (),
                         ForecasterAutoreg.set_last_window_ f
                           (Some (Py.slice_from y (- ForecasterAutoreg.window_size_diff f))))
                   else (Ok (), f)
               end).1 = Ok ()) as Hret.
    { intros sample_weight. cbv zeta.
      destruct store_in_sample_residuals; [|by destruct store_last_window].
      set (f3 := match exog with Some _ => _ | None => _ end).
      pose proof (binning_returns (G := G) f3 yt
                    (reg_predict (ForecasterAutoreg.regressor f3) <$> X) 95123) as Hb.
      destruct (ForecasterAutoreg._binning_in_sample_residuals f3 yt _ 95123) as [rb f4].
      simpl in Hb. rewrite Hb.
      + by destruct store_last_window.
      + intros ->. solve_len.
      + intros E. apply fmap_nil_inv in E. subst X. solve_len. }
    unfold ForecasterAutoreg.create_sample_weights. rewrite Hidx, Hw.
    change (ForecasterAutoreg.weight_func f0) with (ForecasterAutoreg.weight_func f).
    destruct (ForecasterAutoreg.weight_func f) as [weight_func|]; simpl; [|apply Hret].
    destruct (weight_func index) as [w|]; [|apply Hret].
    destruct (existsb isnan w); simpl.
    { split; [by eexists|]. split; [by rewrite Hfit|]. by rewrite Hreg. }
    destruct (existsb _ w); simpl.
    { split; [by eexists|]. split; [by rewrite Hfit|]. by rewrite Hreg. }
    destruct (equalb _ zero); simpl.
    { split; [by eexists|]. split; [by rewrite Hfit|]. by rewrite Hreg. }
    apply Hret.
Qed.

End FitOutcome.

(** ** The in-sample residuals by bin *)

Section Binning.
Context {V R T B G : Type}.
Context `{!Numeric V, !Regressor V R, !Transformer V T, !Discretizer V B,
          !Generator V G, !InputCheck V, !GeneratorLaws V G}.

Abbreviation forecaster := (ForecasterAutoreg.t (V := V) (R := R) (T := T) (B := B)).
Implicit Types (f : forecaster).

Lemma groups_cons (r : Z * V) (rows : list (Z * V)) (keys : list Z) :
  NoDup keys →
  concat ((λ k, filter (λ r : Z * V, r.1 = k) (r :: rows)) <$> keys)
  ≡ₚ (if decide (r.1 ∈ keys) then [r] else [])
     ++ concat ((λ k, filter (λ r : Z * V, r.1 = k) rows) <$> keys).
Proof.
  induction 1 as [|k keys Hk Hnd IH]; [done|].
  csimpl. rewrite filter_cons. rewrite IH.
  destruct (decide (r.1 = k)) as [E|E].
  - destruct (decide (r.1 ∈ k :: keys)) as [_|Hn]; [|by (exfalso; apply Hn; rewrite E; left)].
    destruct (decide (r.1 ∈ keys)) as [Hin|_]; [by rewrite E in Hin|]. done.
  - destruct (decide (r.1 ∈ keys)) as [Hin|Hin].
    + destruct (decide (r.1 ∈ k :: keys)) as [_|Hn]; [|by (exfalso; apply Hn; right)].
      simpl. by rewrite Permutation_middle.
    + destruct (decide (r.1 ∈ k :: keys)) as [[?|?]%elem_of_cons|_]; done.
Qed.

Lemma groups_perm (keys : list Z) (rows : list (Z * V)) :
  NoDup keys → Forall (λ r, r.1 ∈ keys) rows →
  concat ((λ k, filter (λ r : Z * V, r.1 = k) rows) <$> keys) ≡ₚ rows.
Proof.
  intros Hnd. induction 1 as [|r rows Hr _ IH].
  - induction keys as [|k keys IHk]; [done|]. csimpl. apply IHk. by inversion Hnd.
  - rewrite groups_cons by done. rewrite decide_True by done. simpl. by rewrite IH.
Qed.

Lemma groupby_perm (rows : list (Z * V)) :
  concat (Dict.values (ForecasterAutoreg.groupby rows)) ≡ₚ rows.*2.
Proof.
  unfold Dict.values, ForecasterAutoreg.groupby. rewrite <- list_fmap_compose.
  set (keys := remove_dups _).
  transitivity ((concat ((λ k, filter (λ r : Z * V, r.1 = k) rows) <$> keys)).*2).
  - assert (∀ l : list Z,
              concat ((λ k, (filter (λ r : Z * V, r.1 = k) rows).*2) <$> l)
              = (concat ((λ k, filter (λ r : Z * V, r.1 = k) rows) <$> l)).*2) as E.
    { intros l. induction l as [|k l IH]; [done|]. csimpl. rewrite fmap_app. by rewrite IH. }
    by rewrite <- E.
  - apply fmap_Permutation. apply groups_perm; [apply NoDup_remove_dups|].
    apply Forall_forall. intros r Hr. unfold keys.
    rewrite elem_of_remove_dups, merge_sort_Permutation. by apply list_elem_of_fmap_2.
Qed.

Lemma remove_dups_sorted (l : list Z) :
  StronglySorted Z.le l → StronglySorted Z.lt (remove_dups l).
Proof.
  induction 1 as [|x l Hs IH Hx]; [constructor|].
  simpl. destruct (decide_rel _ x l) as [Hin|Hin]; [done|].
  constructor; [done|]. apply Forall_forall. intros z Hy.
  rewrite elem_of_remove_dups in Hy.
  rewrite Forall_forall in Hx. specialize (Hx z Hy).
  assert (z ≠ x) by (by intros ->). lia.
Qed.

Lemma groupby_keys_sorted (rows : list (Z * V)) :
  StronglySorted Z.lt (Dict.keys (ForecasterAutoreg.groupby rows)).
Proof.
  rewrite groupby_keys. apply remove_dups_sorted.
  apply (StronglySorted_merge_sort Z.le).
Qed.

Lemma filter_zip_keys (g : V → Z) (k : Z) (l l' : list V) :
  length l = length l' →
  length (filter (λ r : Z * V, r.1 = k) (zip (g <$> l) l'))
  = length (filter (λ p, g p = k) l).
Proof.
  revert l'. induction l as [|p l IH]; intros [|p' l'] Hlen; simplify_eq/=; [done|].
  rewrite !filter_cons. simpl. destruct (decide (g p = k)); simpl; by rewrite IH.
Qed.

Lemma cap_bins_id (seed : Z) (d : list (Z * list V)) :
  Forall (λ kv, Py.len kv.2 ≤ 200) d → ForecasterAutoreg.cap_bins (G := G) seed d = d.
Proof.
  unfold ForecasterAutoreg.cap_bins, Dict.map_items.
  induction 1 as [|[k v] d Hv _ IH]; [done|]. csimpl. rewrite IH. simpl in Hv.
  by rewrite decide_False by lia.
Qed.

Lemma cap_bins_total (seed : Z) (d : list (Z * list V)) :
  (sum_list_with (λ kv, length kv.2) (ForecasterAutoreg.cap_bins (G := G) seed d)
   ≤ sum_list_with (λ kv, length kv.2) d)%nat.
Proof.
  unfold ForecasterAutoreg.cap_bins, Dict.map_items.
  induction d as [|[k v] d IH]; [done|]. csimpl.
  destruct (decide (200 < Py.len v)) as [Hlt|]; [|lia].
  rewrite rng_choice_length; [zlia| |zlia].
  left. intros ->. solve_len.
Qed.

(** X4. After [_binning_in_sample_residuals] on as many true values as
    predictions, the binner is the one fitted on the predictions; the keys
    of [in_sample_residuals_by_bin_] are, in increasing order and without
    repetition, exactly the bins in which a prediction falls; every stored
    bin is non-empty and holds at most 200 values; [in_sample_residuals_]
    is the concatenation of the bins in key order, so it has at most as
    many values as there are residuals, and, when no bin receives more
    than 200 predictions, it is a permutation of [y_true - y_pred]. *)
Theorem binned_residuals_partition f (y_true y_pred : list V) (seed : Z) f' :
  length y_true = length y_pred →
  ForecasterAutoreg._binning_in_sample_residuals (G := G) f y_true y_pred seed = (Ok (), f') →
  ∃ by_bin flat,
    ForecasterAutoreg.binner f' = binner_fit (ForecasterAutoreg.binner f) y_pred
    ∧ ForecasterAutoreg.in_sample_residuals_by_bin_ f' = Some by_bin
    ∧ ForecasterAutoreg.in_sample_residuals_ f' = Some flat
    ∧ flat = concat (Dict.values by_bin)
    ∧ StronglySorted Z.lt (Dict.keys by_bin)
    ∧ (∀ k, k ∈ Dict.keys by_bin
            ↔ ∃ p, p ∈ y_pred ∧ binner_transform (ForecasterAutoreg.binner f') p = k)
    ∧ Forall (λ kv, kv.2 ≠ [] ∧ Py.len kv.2 ≤ 200) by_bin
    ∧ Py.len flat ≤ Py.len y_true
    ∧ ((∀ k, (length (filter (λ p, binner_transform (ForecasterAutoreg.binner f') p = k)
                        y_pred) ≤ 200)%nat) →
       flat ≡ₚ zip_with sub y_true y_pred).
Proof.
  intros Hlen Hrun.
  pose proof (binning_by_bin (G := G) f y_true y_pred seed) as Hb. rewrite Hrun in Hb.
  simpl in Hb. destruct Hb as [Hbinner Hby].
  destruct (binning_Ok (G := G) f y_true y_pred seed f' Hrun)
    as (by_bin & Hd & Hflat & Hcap & Hne & _).
  rewrite Hby in Hd. injection Hd as <-.
  assert (length (zip_with sub y_true y_pred) = length y_pred) as Hlr
    by (rewrite length_zip_with; lia).
  rewrite snd_zip in Hbinner, Hby, Hflat, Hcap, Hne by lia.
  rewrite fst_zip in Hby, Hflat, Hcap, Hne by lia.
  set (b := ForecasterAutoreg.binner f') in *.
  set (rows := zip (binner_transform b <$> y_pred) (zip_with sub y_true y_pred)) in *.
  assert (length rows = length y_pred) as Hrows.
  { unfold rows. rewrite length_zip, length_fmap. lia. }
  eexists _, _. split; [exact Hbinner|]. split; [exact Hby|]. split; [exact Hflat|].
  split; [done|]. split; [|split; [|split; [|split]]].
  - rewrite cap_bins_keys. apply groupby_keys_sorted.
  - intros k. rewrite cap_bins_keys, elem_of_groupby_keys.
    unfold rows. rewrite fst_zip by (rewrite length_fmap; lia).
    rewrite list_elem_of_fmap. split; intros (p & ? & ?); by exists p.
  - apply Forall_forall. intros kv Hkv.
    rewrite Forall_forall in Hne. unfold ForecasterAutoreg.bins_capped in Hcap.
    rewrite Forall_forall in Hcap. split; [by apply Hne|by apply Hcap].
  - rewrite total_always.
    pose proof (cap_bins_total seed (ForecasterAutoreg.groupby rows)) as Hle.
    rewrite groupby_total in Hle. zlia.
  - intros Hsmall. rewrite cap_bins_id.
    + rewrite groupby_perm. unfold rows. by rewrite snd_zip by (rewrite length_fmap; lia).
    + unfold ForecasterAutoreg.groupby. apply Forall_fmap, Forall_forall. intros k _. simpl.
      unfold Py.len. rewrite length_fmap. unfold rows.
      rewrite filter_zip_keys by lia. specialize (Hsmall k). lia.
Qed.

End Binning.

(** ** Lookups in a dictionary *)

Section DictFacts.
Context {A : Type}.
Implicit Types (d : list (Z * A)) (k : Z) (v : A).

Lemma dict_get_set_eq d k v : Dict.get (Dict.set d k v) k = Some v.
Proof.
  induction d as [|[k' v'] d IH]; simpl.
  - by rewrite decide_True.
  - destruct (decide (k' = k)); simpl; [by rewrite decide_True|].
    by rewrite decide_False.
Qed.

Lemma dict_get_set_ne d k k' v : k' ≠ k → Dict.get (Dict.set d k v) k' = Dict.get d k'.
Proof.
  intros Hne. induction d as [|[k0 v0] d IH]; simpl.
  - by rewrite decide_False.
  - destruct (decide (k0 = k)) as [->|]; simpl.
    + by rewrite !decide_False.
    + destruct (decide (k0 = k')); [done|]. apply IH.
Qed.

Lemma dict_get_Some_elem d k v : Dict.get d k = Some v → (k, v) ∈ d.
Proof.
  induction d as [|[k0 v0] d IH]; simpl; [done|].
  destruct (decide (k0 = k)) as [->|].
  - intros [= ->]. left.
  - intros ?. right. by apply IH.
Qed.

Lemma dict_get_is_Some d k : is_Some (Dict.get d k) ↔ k ∈ Dict.keys d.
Proof.
  unfold Dict.keys. induction d as [|[k0 v0] d IH]; simpl.
  - split; [by intros [? ?]|by intros ?%elem_of_nil].
  - destruct (decide (k0 = k)) as [->|].
    + split; [intros _; left|by eexists].
    + rewrite IH. rewrite elem_of_cons. split; [by right|]. by intros [?|?].
Qed.

End DictFacts.

(** ** The out-of-sample residuals by bin *)

Section OutSampleBins.
Context {V R T B G : Type}.
Context `{!Numeric V, !Regressor V R, !Transformer V T, !Discretizer V B,
          !Generator V G, !InputCheck V, !GeneratorLaws V G}.

Abbreviation forecaster := (ForecasterAutoreg.t (V := V) (R := R) (T := T) (B := B)).
Implicit Types (f : forecaster) (d : list (Z * list V)).

Lemma add_missing_bins_get (keys : list Z) d (k : Z) :
  (k ∈ keys → is_Some (Dict.get (ForecasterAutoreg.add_missing_bins keys d) k))
  ∧ (∀ v, Dict.get d k = Some v →
          Dict.get (ForecasterAutoreg.add_missing_bins keys d) k = Some v).
Proof.
  unfold ForecasterAutoreg.add_missing_bins. revert d.
  induction keys as [|k0 keys IH]; intros d; simpl.
  - split; [by intros ?%elem_of_nil|done].
  - unfold Dict.mem. destruct (bool_decide (is_Some (Dict.get d k0))) eqn:Em.
    + apply bool_decide_eq_true in Em. split; [|apply IH].
      intros Hk. apply elem_of_cons in Hk as [E|Hk]; [|by apply IH].
      subst k0. destruct Em as [v Hv]. exists v. by apply IH.
    + apply bool_decide_eq_false in Em. split.
      * intros Hk. apply elem_of_cons in Hk as [E|Hk]; [|by apply IH].
        subst k0. exists []. apply IH. apply dict_get_set_eq.
      * intros v Hv. apply IH. rewrite dict_get_set_ne; [done|].
        intros ->. apply Em. by eexists.
Qed.

(** Every empty bin is filled with one and the same sample: the generator
    is seeded with 123 anew for each of them. *)
Lemma fill_empty_bins_get (pool : list V) (empty_bins : list Z) d d' :
  ForecasterAutoreg.fill_empty_bins (G := G) pool empty_bins d = Ok d' →
  empty_bins ≠ [] →
  ∃ g sample,
    choice (default_rng 123) (Some pool) 200 true = Ok (g, sample)
    ∧ ∀ k, Dict.get d' k = if decide (k ∈ empty_bins) then Some sample else Dict.get d k.
Proof.
  unfold ForecasterAutoreg.fill_empty_bins. intros Hrun Hne.
  destruct (choice (default_rng 123) (Some pool) 200 true) as [[g sample]|e] eqn:Ec.
  2: { destruct empty_bins as [|k ks]; [done|]. cbn [foldM] in Hrun.
       done. }
  exists g, sample. split; [done|]. clear Hne. revert d Hrun.
  induction empty_bins as [|k0 ks IH]; intros d; cbn [foldM].
  - intros [= <-] k. rewrite decide_False; [done|]. by intros ?%elem_of_nil.
  - cbn [mbind result_bind]. intros Hrun k.
    rewrite (IH _ Hrun k).
    destruct (decide (k ∈ ks)) as [Hin|Hin].
    + rewrite decide_True; [done|by right].
    + destruct (decide (k = k0)) as [->|Hne].
      * rewrite decide_True by left. apply dict_get_set_eq.
      * rewrite decide_False by (intros [?|?]%elem_of_cons; done).
        by apply dict_get_set_ne.
Qed.

(** X5. After a call of [set_out_sample_residuals] with predictions that
    returns, [in_sample_residuals_by_bin_] was set and is unchanged, every
    one of its bins is a key of [out_sample_residuals_by_bin_], and every
    bin stored there is non-empty with at most 200 values: a bin that
    received no out-of-sample residual is filled with a sample of the
    others. *)
Theorem out_sample_bins_cover f (residuals y_pred : list V) (append transform : bool)
    (seed : Z) f' :
  ForecasterAutoreg.set_out_sample_residuals (G := G) f residuals (Some y_pred) append
    transform seed = (Ok (), f') →
  ∃ d in_bins,
    ForecasterAutoreg.out_sample_residuals_by_bin_ f' = Some d
    ∧ ForecasterAutoreg.in_sample_residuals_by_bin_ f = Some in_bins
    ∧ ForecasterAutoreg.in_sample_residuals_by_bin_ f' = Some in_bins
    ∧ (∀ k, k ∈ Dict.keys in_bins → k ∈ Dict.keys d)
    ∧ (∀ k, k ∈ Dict.keys d →
            ∃ v, Dict.get d k = Some v ∧ v ≠ [] ∧ Py.len v ≤ 200).
Proof.
  intros Hrun.
  destruct (set_out_sample_residuals_binned f residuals y_pred append transform seed f' Hrun)
    as (d0 & flat0 & Hd0 & Hcap & _).
  revert Hrun. unfold ForecasterAutoreg.set_out_sample_residuals.
  destruct (bool_decide _); [done|].
  destruct (_ && _); [done|].
  destruct (_ && _); [done|].
  destruct (negb _); [done|].
  set (by_bin := ForecasterAutoreg.cap_bins 123 _).
  destruct (ForecasterAutoreg.np_concatenate _) as [flat|e]; [|done].
  simpl. destruct (ForecasterAutoreg.in_sample_residuals_by_bin_ f) as [in_bins|] eqn:Ein;
    [|done].
  set (by_bin1 := ForecasterAutoreg.add_missing_bins _ _).
  assert (∀ k, k ∈ Dict.keys in_bins → is_Some (Dict.get by_bin1 k)) as Hin.
  { intros k Hk. by apply add_missing_bins_get. }
  assert (∀ d k, (∀ k, is_Some (Dict.get by_bin1 k) → is_Some (Dict.get d k)) →
                 k ∈ Dict.keys in_bins → k ∈ Dict.keys d) as Hkeys.
  { intros d k Hd Hk. apply dict_get_is_Some, Hd, Hin, Hk. }
  assert (∀ d k v, ForecasterAutoreg.bins_capped d → Dict.get d k = Some v → Py.len v ≤ 200)
    as Hle.
  { intros d k v Hc Hv. apply dict_get_Some_elem in Hv.
    unfold ForecasterAutoreg.bins_capped in Hc. rewrite Forall_forall in Hc.
    by apply (Hc (k, v)). }
  destruct ((filter (λ kv : Z * list V, Py.len kv.2 = 0) by_bin1).*1) as [|k0 ks] eqn:Ee.
  - intros [= <-]. simpl in Hd0. injection Hd0 as <-.
    exists by_bin1, in_bins. split; [done|]. split; [done|]. split; [done|].
    split; [intros k; by apply Hkeys|].
    intros k Hk. apply dict_get_is_Some in Hk as [v Hv]. exists v. split; [done|].
    split; [|by eapply Hle]. intros ->.
    apply dict_get_Some_elem in Hv.
    assert (k ∈ (filter (λ kv : Z * list V, Py.len kv.2 = 0) by_bin1).*1) as Hk.
    { apply list_elem_of_fmap. exists (k, []). split; [done|].
      by apply list_elem_of_filter. }
    rewrite Ee in Hk. by apply elem_of_nil in Hk.
  - destruct (match ForecasterAutoreg.binner_intervals _ with Some _ => _ | None => _ end);
      [|done].
    destruct (ForecasterAutoreg.fill_empty_bins flat (k0 :: ks) by_bin1) as [by_bin2|] eqn:Ef;
      [|done].
    intros [= <-]. simpl in Hd0. injection Hd0 as <-.
    destruct (fill_empty_bins_get flat (k0 :: ks) by_bin1 by_bin2 Ef) as (g & sample & Hc & Hget);
      [done|].
    apply choice_Ok_length in Hc.
    exists by_bin2, in_bins. split; [done|]. split; [done|]. split; [done|].
    split.
    + intros k. apply Hkeys. intros k' Hk'. rewrite Hget. by destruct (decide _).
    + intros k Hk. apply dict_get_is_Some in Hk as [v Hv]. exists v. split; [done|].
      split; [|by eapply Hle]. intros ->. rewrite Hget in Hv.
      destruct (decide (k ∈ k0 :: ks)) as [Hm|Hm].
      * injection Hv as ->. solve_len.
      * apply Hm. rewrite <- Ee. apply dict_get_Some_elem in Hv.
        apply list_elem_of_fmap. exists (k, []). split; [done|].
        by apply list_elem_of_filter.
Qed.

End OutSampleBins.

(** ** The flat out-of-sample residuals *)

Section OutSampleFlat.
Context {V R T B G : Type}.
Context `{!Numeric V, !Regressor V R, !Transformer V T, !Discretizer V B,
          !Generator V G, !InputCheck V, !GeneratorLaws V G, !TransformerShape V T}.

Abbreviation forecaster := (ForecasterAutoreg.t (V := V) (R := R) (T := T) (B := B)).
Implicit Types (f : forecaster).

(** X6. Without predictions, [set_out_sample_residuals] raises a
    [TypeError] and changes nothing when [transform] is true and the
    forecaster has a [transformer_y]: the residuals have become a pandas
    Series by then, which [transform_numpy] does not take. Otherwise it
    returns and only replaces [out_sample_residuals_], no residual being
    transformed. When residuals were stored and [append] is true, the
    stored ones are kept in front: a buffer of 1000 or more stays as it
    is, otherwise the new length is the smaller of 1000 and the sum of
    both lengths; given at most 1000 new residuals, the buffer is the
    stored ones followed by the first new ones that fit. Otherwise the
    buffer holds the smaller of 1000 and the number of new residuals, and
    it is the new residuals when there are at most 1000. *)
Theorem out_sample_residuals_appended f (residuals : list V) (append transform : bool)
    (seed : Z) :
  let run := ForecasterAutoreg.set_out_sample_residuals (G := G) f residuals None append
               transform seed in
  (transform = true → is_Some (ForecasterAutoreg.transformer_y f) →
   run = (Raise (TypeError "array argument must be a numpy ndarray"), f))
  ∧ (transform = false ∨ ForecasterAutoreg.transformer_y f = None →
     ∃ flat,
       run = (Ok (), ForecasterAutoreg.set_out_sample_residuals_ f (Some flat))
       ∧ match ForecasterAutoreg.out_sample_residuals_ f, append with
         | Some stored, true =>
             stored `prefix_of` flat
             ∧ (1000 ≤ Py.len stored → flat = stored)
             ∧ (Py.len stored ≤ 1000 →
                Py.len flat = Z.min 1000 (Py.len stored + Py.len residuals))
             ∧ (Py.len residuals ≤ 1000 →
                flat = stored ++ Py.slice_to residuals (Z.max 0 (1000 - Py.len stored)))
         | _, _ =>
             Py.len flat = Z.min 1000 (Py.len residuals)
             ∧ (Py.len residuals ≤ 1000 → flat = residuals)
         end).
Proof.
  intros run. subst run.
  destruct (set_out_sample_residuals_flat (G := G) f residuals append transform seed)
    as [Hrun Hlen1].
  cbv zeta in Hrun, Hlen1. rewrite Hrun. clear Hrun.
  set (new1 := if decide (1000 < Py.len residuals) then _ else residuals) in *.
  assert (Py.len residuals ≤ 1000 → new1 = residuals) as Hsame.
  { intros Hle. unfold new1. by rewrite decide_False by lia. }
  clearbody new1. split.
  - intros -> Htr. by rewrite bool_decide_eq_true_2.
  - intros Hplain.
    assert (transform && bool_decide (is_Some (ForecasterAutoreg.transformer_y f)) = false)
      as ->.
    { destruct Hplain as [->| ->]; [done|]. rewrite bool_decide_eq_false_2; [|by intros [? ?]].
      by destruct transform. }
    eexists. split; [done|].
    destruct (ForecasterAutoreg.out_sample_residuals_ f) as [stored|]; [|by split].
    destruct append; [|by split].
    split; [by eexists|]. split; [|split].
    + intros Hfull. rewrite Z.max_l by lia. rewrite slice_to_take by lia.
      simpl. by rewrite app_nil_r.
    + intros Hle. rewrite len_app. rewrite slice_to_take by lia.
      unfold Py.len in *. rewrite length_take. lia.
    + intros Hle. by rewrite Hsame.
Qed.

End OutSampleFlat.

(** ** The caps of the residual pools *)

Section DictEntries.
Context {A : Type}.
Implicit Types (d : list (Z * A)) (k : Z) (v : A).

Lemma dict_get_map_items {C} (g : Z → A → C) d k :
  Dict.get (Dict.map_items g d) k = g k <$> Dict.get d k.
Proof.
  unfold Dict.map_items. induction d as [|[k' v'] d IH]; [done|].
  csimpl. destruct (decide (k' = k)) as [->|]; [done|]. apply IH.
Qed.

Lemma dict_get_keyed (g : Z → A) (ks : list Z) k :
  Dict.get ((λ k, (k, g k)) <$> ks) k = if decide (k ∈ ks) then Some (g k) else None.
Proof.
  induction ks as [|k' ks IH].
  - destruct (decide (k ∈ [])) as [Hin|]; [by apply elem_of_nil in Hin|done].
  - rewrite fmap_cons. cbn [Dict.get].
    destruct (decide (k' = k)) as [->|Hne].
    + rewrite decide_True; [done|left].
    + rewrite IH. destruct (decide (k ∈ ks)) as [Hin|Hin].
      * rewrite decide_True; [done|by right].
      * rewrite decide_False; [done|]. by intros [?|?]%elem_of_cons.
Qed.

Lemma dict_set_keys d k v :
  Dict.keys (Dict.set d k v)
  = if decide (k ∈ Dict.keys d) then Dict.keys d else Dict.keys d ++ [k].
Proof.
  unfold Dict.keys. induction d as [|[k' v'] d IH].
  - destruct (decide (k ∈ [].*1)) as [Hin|]; [by apply elem_of_nil in Hin|done].
  - cbn [Dict.set]. destruct (decide (k' = k)) as [->|Hne]; rewrite !fmap_cons; cbn [fst].
    + rewrite decide_True; [done|left].
    + rewrite IH. destruct (decide (k ∈ d.*1)) as [Hin|Hin].
      * rewrite decide_True; [done|by right].
      * rewrite decide_False; [done|]. by intros [?|?]%elem_of_cons.
Qed.

Lemma dict_set_NoDup d k v : NoDup (Dict.keys d) → NoDup (Dict.keys (Dict.set d k v)).
Proof.
  intros Hd. rewrite dict_set_keys. destruct (decide (k ∈ Dict.keys d)); [done|].
  apply NoDup_app. split; [done|]. split; [|apply NoDup_singleton].
  intros k' Hk' ->%list_elem_of_singleton. done.
Qed.

Lemma dict_elem_get d k v : NoDup (Dict.keys d) → (k, v) ∈ d → Dict.get d k = Some v.
Proof.
  unfold Dict.keys. induction d as [|[k' v'] d IH]; csimpl; [by intros _ ?%elem_of_nil|].
  intros [Hk' Hd]%NoDup_cons [E|Hin]%elem_of_cons.
  - injection E as -> ->. by rewrite decide_True.
  - rewrite decide_False; [by apply IH|]. intros ->. apply Hk'.
    by apply (list_elem_of_fmap_2 fst) in Hin.
Qed.

End DictEntries.

Section ResidualCaps.
Context {V R T B G : Type}.
Context `{!Numeric V, !Regressor V R, !Transformer V T, !Discretizer V B,
          !Generator V G, !InputCheck V, !GeneratorLaws V G}.

Abbreviation forecaster := (ForecasterAutoreg.t (V := V) (R := R) (T := T) (B := B)).
Implicit Types (f : forecaster) (d : list (Z * list V)).

Lemma groupby_get (rows : list (Z * V)) (k : Z) :
  Dict.get (ForecasterAutoreg.groupby rows) k
  = if decide ((filter (λ r : Z * V, r.1 = k) rows).*2 = []) then None
    else Some (filter (λ r : Z * V, r.1 = k) rows).*2.
Proof.
  unfold ForecasterAutoreg.groupby.
  rewrite (dict_get_keyed (λ k, (filter (λ r : Z * V, r.1 = k) rows).*2)).
  destruct (decide (k ∈ remove_dups (merge_sort Z.le rows.*1))) as [Hin|Hin];
    rewrite elem_of_remove_dups, merge_sort_Permutation in Hin.
  - rewrite decide_False; [done|].
    apply list_elem_of_fmap in Hin as ([k' v] & -> & Hr). simpl.
    intros E. apply fmap_nil_inv in E.
    assert ((k', v) ∈ filter (λ r : Z * V, r.1 = k') rows) as Hf
      by (by apply list_elem_of_filter).
    rewrite E in Hf. by apply elem_of_nil in Hf.
  - rewrite decide_True; [done|].
    destruct (filter (λ r : Z * V, r.1 = k) rows) as [|[k' v] l] eqn:E; [done|].
    exfalso. apply Hin.
    assert ((k', v) ∈ filter (λ r : Z * V, r.1 = k) rows) as Hf by (rewrite E; left).
    apply list_elem_of_filter in Hf as [Hk Hr]. simpl in Hk. subst k'.
    by apply (list_elem_of_fmap_2 fst) in Hr.
Qed.

Lemma groupby_NoDup (rows : list (Z * V)) :
  NoDup (Dict.keys (ForecasterAutoreg.groupby rows)).
Proof. rewrite groupby_keys. apply NoDup_remove_dups. Qed.

Lemma cap_bins_get (seed : Z) d (k : Z) :
  Dict.get (ForecasterAutoreg.cap_bins (G := G) seed d) k
  = ForecasterAutoreg.down_sampled (G := G) 200 seed <$> Dict.get d k.
Proof. unfold ForecasterAutoreg.cap_bins. by rewrite dict_get_map_items. Qed.

Lemma slice_to_all {A} (v : list A) (b : Z) : Py.len v < b → Py.slice_to v b = v.
Proof.
  intros Hb. rewrite slice_to_take by (pose proof (len_nonneg v); lia).
  apply take_ge. unfold Py.len in Hb. lia.
Qed.

Lemma append_bins_get (stored new : list (Z * list V)) (k : Z) :
  NoDup (Dict.keys new) →
  Dict.get (ForecasterAutoreg.append_bins stored new) k
  = match Dict.get stored k, Dict.get new k with
    | Some old, Some v => Some (old ++ Py.slice_to v (Z.max 0 (200 - Py.len old)))
    | Some old, None => Some old
    | None, o => o
    end.
Proof.
  unfold ForecasterAutoreg.append_bins. revert stored.
  induction new as [|[k0 v0] new IH]; intros stored Hnew.
  - simpl. by destruct (Dict.get stored k).
  - unfold Dict.keys in Hnew. rewrite fmap_cons in Hnew.
    apply NoDup_cons in Hnew as [Hk0 Hnew]. cbn [foldl]. rewrite IH by done.
    cbn [Dict.get]. destruct (decide (k0 = k)) as [->|Hne].
    + assert (Dict.get new k = None) as ->.
      { destruct (Dict.get new k) eqn:E; [|done]. exfalso. apply Hk0.
        apply (dict_get_is_Some new k). by eexists. }
      destruct (Dict.get stored k) as [old|] eqn:Eold.
      * destruct (decide (Py.len v0 < Z.max 0 (200 - Py.len old))) as [Hlt|Hge].
        -- rewrite dict_get_set_eq. by rewrite slice_to_all.
        -- by rewrite dict_get_set_eq.
      * by rewrite dict_get_set_eq.
    + assert (∀ w, Dict.get (Dict.set stored k0 w) k = Dict.get stored k) as Hset
        by (intros w; by apply dict_get_set_ne).
      destruct (Dict.get stored k0) as [old|].
      * destruct (decide _); by rewrite Hset.
      * by rewrite Hset.
Qed.

Lemma append_bins_NoDup (stored new : list (Z * list V)) :
  NoDup (Dict.keys stored) → NoDup (Dict.keys (ForecasterAutoreg.append_bins stored new)).
Proof.
  unfold ForecasterAutoreg.append_bins. revert stored.
  induction new as [|[k0 v0] new IH]; intros stored Hs; [done|].
  cbn [foldl]. apply IH.
  destruct (Dict.get stored k0) as [old|]; [destruct (decide _)|]; by apply dict_set_NoDup.
Qed.

Lemma add_missing_bins_NoDup (keys : list Z) d :
  NoDup (Dict.keys d) → NoDup (Dict.keys (ForecasterAutoreg.add_missing_bins keys d)).
Proof.
  unfold ForecasterAutoreg.add_missing_bins. revert d.
  induction keys as [|k keys IH]; intros d Hd; [done|].
  cbn [foldl]. apply IH. destruct (Dict.mem d k); [done|]. by apply dict_set_NoDup.
Qed.

(** The bins stored by [_binning_in_sample_residuals]: the residuals of
    every bin that occurs, down-sampled to 200. *)
Lemma binning_bins f (y_true y_pred : list V) (seed : Z) f' :
  length y_true = length y_pred →
  ForecasterAutoreg._binning_in_sample_residuals (G := G) f y_true y_pred seed = (Ok (), f') →
  ∃ d,
    ForecasterAutoreg.in_sample_residuals_by_bin_ f' = Some d
    ∧ ForecasterAutoreg.bins_capped d
    ∧ ForecasterAutoreg.binner f' = binner_fit (ForecasterAutoreg.binner f) y_pred
    ∧ ∀ k,
        let raw := ForecasterAutoreg.residuals_in_bin (ForecasterAutoreg.binner f')
                     (zip_with sub y_true y_pred) y_pred k in
        Dict.get d k
        = if decide (raw = []) then None
          else Some (ForecasterAutoreg.down_sampled (G := G) 200 seed raw).
Proof.
  intros Hlen Hrun.
  destruct (binning_Ok _ _ _ _ _ Hrun) as (d & Hd & _ & Hcap & _).
  pose proof (binning_by_bin (G := G) f y_true y_pred seed) as [Hb Hd'].
  rewrite Hrun in Hb, Hd'. cbv zeta in Hb, Hd'. simpl in Hb, Hd'.
  assert ((zip (zip_with sub y_true y_pred) y_pred).*2 = y_pred) as E2.
  { apply snd_zip. rewrite length_zip_with. lia. }
  assert ((zip (zip_with sub y_true y_pred) y_pred).*1 = zip_with sub y_true y_pred) as E1.
  { apply fst_zip. rewrite length_zip_with. lia. }
  rewrite E2 in Hb. rewrite E1, E2 in Hd'. rewrite Hd in Hd'. injection Hd' as ->.
  eexists. split; [done|]. split; [done|]. split; [done|].
  intros k raw. rewrite cap_bins_get, groupby_get. fold raw.
  unfold ForecasterAutoreg.residuals_in_bin in raw. fold raw.
  by destruct (decide (raw = [])).
Qed.

(** The bins after [set_out_sample_residuals] with predictions. *)
Lemma out_sample_bins_spec f (residuals y_pred : list V) (append transform : bool)
    (seed : Z) f' :
  ForecasterAutoreg.set_out_sample_residuals (G := G) f residuals (Some y_pred) append
    transform seed = (Ok (), f') →
  ∃ d bins,
    ForecasterAutoreg.out_sample_residuals_by_bin_ f' = Some d
    ∧ ForecasterAutoreg.bins_capped d
    ∧ ForecasterAutoreg.out_sample_residuals_ f' = Some (concat (Dict.values bins))
    ∧ ForecasterAutoreg.bins_capped bins
    ∧ Py.len (concat (Dict.values bins)) ≤ 200 * Py.len bins
    ∧ Py.len bins ≤ Py.len d
    ∧ (∀ k,
         let new := ForecasterAutoreg.residuals_in_bin (ForecasterAutoreg.binner f) residuals
                      y_pred k in
         Dict.get bins k
         = ForecasterAutoreg.down_sampled (G := G) 200 123
             <$> match (if append then ForecasterAutoreg.out_sample_residuals_by_bin_ f
                        else None) ≫= (λ stored, Dict.get stored k) with
                 | Some old => Some (old ++ Py.slice_to new (Z.max 0 (200 - Py.len old)))
                 | None => if decide (new = []) then None else Some new
                 end)
    ∧ ((append = true →
        ∀ stored, ForecasterAutoreg.out_sample_residuals_by_bin_ f = Some stored →
                  NoDup (Dict.keys stored)) →
       ∀ k v, Dict.get bins k = Some v → v ≠ [] → Dict.get d k = Some v).
Proof.
  intros Hrun.
  destruct (set_out_sample_residuals_binned f residuals y_pred append transform seed f' Hrun)
    as (d & flat0 & Hd & Hcapd & Hflat0 & _).
  revert Hrun. unfold ForecasterAutoreg.set_out_sample_residuals.
  case_bool_decide as Hlen; [done|].
  destruct (_ && _); [done|].
  destruct (_ && _); [done|].
  destruct (negb _); [done|].
  assert ((zip residuals y_pred).*2 = y_pred) as E2 by (apply snd_zip; zlia).
  assert ((zip residuals y_pred).*1 = residuals) as E1 by (apply fst_zip; zlia).
  rewrite E1, E2.
  set (newd := ForecasterAutoreg.groupby _).
  set (by_bin0 := match ForecasterAutoreg.out_sample_residuals_by_bin_ f with
                  | Some stored =>
                      if append then ForecasterAutoreg.append_bins stored newd else newd
                  | None => newd
                  end).
  set (bins := ForecasterAutoreg.cap_bins 123 by_bin0).
  assert (ForecasterAutoreg.bins_capped bins) as Hcap by apply cap_bins_capped.
  destruct (ForecasterAutoreg.np_concatenate _) as [flat|e] eqn:Ec; [|done].
  assert (flat = concat (Dict.values bins)) as ->.
  { unfold ForecasterAutoreg.np_concatenate in Ec.
    destruct (Dict.values bins); [done|]. by injection Ec as <-. }
  simpl. destruct (ForecasterAutoreg.in_sample_residuals_by_bin_ f) as [in_by_bin|]; [|done].
  destruct (add_missing_bins_capped (Dict.keys in_by_bin) bins Hcap) as [Hcap1 Hlen1].
  set (by_bin1 := ForecasterAutoreg.add_missing_bins _ _) in *.
  assert (∀ k,
            let new := ForecasterAutoreg.residuals_in_bin (ForecasterAutoreg.binner f)
                         residuals y_pred k in
            Dict.get bins k
            = ForecasterAutoreg.down_sampled (G := G) 200 123
                <$> match (if append then ForecasterAutoreg.out_sample_residuals_by_bin_ f
                           else None) ≫= (λ stored, Dict.get stored k) with
                    | Some old => Some (old ++ Py.slice_to new (Z.max 0 (200 - Py.len old)))
                    | None => if decide (new = []) then None else Some new
                    end) as Hbins.
  { intros k new. unfold bins. rewrite cap_bins_get. f_equal.
    assert (Dict.get newd k = if decide (new = []) then None else Some new) as Hnew.
    { unfold newd. rewrite groupby_get. done. }
    unfold by_bin0.
    destruct (ForecasterAutoreg.out_sample_residuals_by_bin_ f) as [stored|];
      [|by destruct append].
    destruct append; [|done]. simpl.
    rewrite append_bins_get by apply groupby_NoDup. rewrite Hnew.
    destruct (Dict.get stored k) as [old|]; [|done].
    destruct (decide (new = [])) as [->|]; [|done].
    unfold Py.slice_to. by rewrite take_nil, app_nil_r. }
  assert ((append = true →
           ∀ stored, ForecasterAutoreg.out_sample_residuals_by_bin_ f = Some stored →
                     NoDup (Dict.keys stored)) →
          NoDup (Dict.keys by_bin1)) as Hnodup.
  { intros Hstored. apply add_missing_bins_NoDup. unfold bins.
    rewrite cap_bins_keys. unfold by_bin0.
    destruct (ForecasterAutoreg.out_sample_residuals_by_bin_ f) as [stored|];
      [|apply groupby_NoDup].
    destruct append; [|apply groupby_NoDup].
    apply append_bins_NoDup. by apply Hstored. }
  pose proof (capped_total bins Hcap) as [_ Htotal].
  destruct ((filter (λ kv : Z * list V, Py.len kv.2 = 0) by_bin1).*1) as [|k0 ks] eqn:Ee.
  - intros [= <-]. simpl in Hd. injection Hd as <-.
    exists by_bin1, bins. split; [done|]. split; [done|]. split; [done|].
    split; [done|]. split; [done|]. split; [zlia|]. split; [done|].
    intros _ k v Hv _. by apply add_missing_bins_get.
  - destruct (match ForecasterAutoreg.binner_intervals _ with Some _ => _ | None => _ end);
      [|done].
    destruct (ForecasterAutoreg.fill_empty_bins _ (k0 :: ks) by_bin1) as [by_bin2|] eqn:Ef;
      [|done].
    destruct (fill_empty_bins_capped _ _ _ _ Ef Hcap1) as [_ Hlen2].
    destruct (fill_empty_bins_get _ _ _ _ Ef) as (g & sample & _ & Hget); [done|].
    intros [= <-]. simpl in Hd. injection Hd as <-.
    exists by_bin2, bins. split; [done|]. split; [done|]. split; [done|].
    split; [done|]. split; [done|]. split; [zlia|]. split; [done|].
    intros Hstored k v Hv Hne. rewrite Hget.
    assert (Dict.get by_bin1 k = Some v) as Hv1 by (by apply add_missing_bins_get).
    rewrite decide_False; [done|]. rewrite <- Ee. intros Hk.
    apply list_elem_of_fmap in Hk as ([k' w] & -> & Hw).
    apply list_elem_of_filter in Hw as [Hw0 Hw]. simpl in *.
    apply (dict_elem_get _ _ _ (Hnodup Hstored)) in Hw. rewrite Hv1 in Hw.
    injection Hw as ->. destruct w; [done|]. unfold Py.len in Hw0. simpl in Hw0. lia.
Qed.

(** C6, as amended. After a fit that stores the in-sample residuals every
    bin of [in_sample_residuals_by_bin_] holds at most 200 values:
    [_binning_in_sample_residuals] stores, for every bin in which a
    prediction falls, its residuals in their order, replaced by a sample
    of 200 drawn without replacement from a generator seeded with
    [random_state] when there are more. After a call of
    [set_out_sample_residuals] with predictions that returns, every bin of
    [out_sample_residuals_by_bin_] holds at most 200 values. The bins
    receiving residuals are settled first: to a bin stored before, when
    [append] is true, the new residuals are appended as far as the places
    left under 200 allow, and any other bin is the new residuals; then a
    bin that still has more than 200 values is replaced by a sample of 200
    drawn with the seed 123. The flat [out_sample_residuals_] is the
    concatenation of these bins, as they are before the bins missing from
    the in-sample ones are added and the empty ones filled, so it holds at
    most 200 values per bin, not at most 1000; the non-empty ones among
    them are bins of the final dictionary. A call without predictions
    raises a [TypeError] and changes nothing when the residuals would
    have to be transformed; otherwise it returns and only replaces the
    flat [out_sample_residuals_]: more than 1000 new residuals are
    replaced by a sample of 1000 drawn without replacement with the seed
    [random_state], and they are stored as they are, or, when [append] is
    true and residuals are stored, after the stored ones as far as the
    places left under 1000 allow; the buffer then holds at most 1000
    values as long as the one stored before did. *)
Theorem residual_caps f :
  (∀ (y : list V) (exog : option (list (list V))) (store_last_window : bool) f',
     ForecasterAutoreg.fit (G := G) f y exog store_last_window true = (Ok (), f') →
     ∃ d, ForecasterAutoreg.in_sample_residuals_by_bin_ f' = Some d
          ∧ ForecasterAutoreg.bins_capped d)
  ∧ (∀ (y_true y_pred : list V) (random_state : Z) f',
       length y_true = length y_pred →
       ForecasterAutoreg._binning_in_sample_residuals (G := G) f y_true y_pred random_state
       = (Ok (), f') →
       ∃ d,
         ForecasterAutoreg.in_sample_residuals_by_bin_ f' = Some d
         ∧ ForecasterAutoreg.bins_capped d
         ∧ ForecasterAutoreg.binner f' = binner_fit (ForecasterAutoreg.binner f) y_pred
         ∧ ∀ k,
             let raw := ForecasterAutoreg.residuals_in_bin (ForecasterAutoreg.binner f')
                          (zip_with sub y_true y_pred) y_pred k in
             Dict.get d k
             = if decide (raw = []) then None
               else Some (ForecasterAutoreg.down_sampled (G := G) 200 random_state raw))
  ∧ (∀ (residuals y_pred : list V) (append transform : bool) (random_state : Z) f',
       ForecasterAutoreg.set_out_sample_residuals (G := G) f residuals (Some y_pred) append
         transform random_state = (Ok (), f') →
       ∃ d bins,
         ForecasterAutoreg.out_sample_residuals_by_bin_ f' = Some d
         ∧ ForecasterAutoreg.bins_capped d
         ∧ ForecasterAutoreg.out_sample_residuals_ f' = Some (concat (Dict.values bins))
         ∧ ForecasterAutoreg.bins_capped bins
         ∧ Py.len (concat (Dict.values bins)) ≤ 200 * Py.len bins
         ∧ Py.len bins ≤ Py.len d
         ∧ (∀ k,
              let new := ForecasterAutoreg.residuals_in_bin (ForecasterAutoreg.binner f)
                           residuals y_pred k in
              Dict.get bins k
              = ForecasterAutoreg.down_sampled (G := G) 200 123
                  <$> match (if append then ForecasterAutoreg.out_sample_residuals_by_bin_ f
                             else None) ≫= (λ stored, Dict.get stored k) with
                      | Some old =>
                          Some (old ++ Py.slice_to new (Z.max 0 (200 - Py.len old)))
                      | None => if decide (new = []) then None else Some new
                      end)
         ∧ ((append = true →
             ∀ stored, ForecasterAutoreg.out_sample_residuals_by_bin_ f = Some stored →
                       NoDup (Dict.keys stored)) →
            ∀ k v, Dict.get bins k = Some v → v ≠ [] → Dict.get d k = Some v))
  ∧ (∀ (residuals : list V) (append transform : bool) (random_state : Z),
       let new := ForecasterAutoreg.down_sampled (G := G) 1000 random_state residuals in
       let flat := match ForecasterAutoreg.out_sample_residuals_ f with
                   | Some stored =>
                       if append
                       then stored ++ Py.slice_to new (Z.max 0 (1000 - Py.len stored))
                       else new
                   | None => new
                   end in
       ForecasterAutoreg.set_out_sample_residuals (G := G) f residuals None append transform
         random_state
       = (if transform && bool_decide (is_Some (ForecasterAutoreg.transformer_y f))
          then (Raise (TypeError "array argument must be a numpy ndarray"), f)
          else (Ok (), ForecasterAutoreg.set_out_sample_residuals_ f (Some flat)))
       ∧ Py.len new = Z.min 1000 (Py.len residuals)
       ∧ ((∀ stored, ForecasterAutoreg.out_sample_residuals_ f = Some stored →
                     Py.len stored ≤ 1000) →
          Py.len flat ≤ 1000)).
Proof.
  split; [|split; [|split]].
  - intros y exog slw f' Hfit.
    destruct (fit_binning f y exog slw f' Hfit) as (f2 & yt & yp & f3 & Hb & -> & _).
    destruct (binning_Ok _ _ _ _ _ Hb) as (d & Hd & _ & Hcap & _). by exists d.
  - intros. by apply binning_bins.
  - intros. by eapply out_sample_bins_spec.
  - intros residuals append transform seed new flat.
    destruct (set_out_sample_residuals_flat (G := G) f residuals append transform seed)
      as [Hrun Hlen]. cbv zeta in Hrun, Hlen.
    assert (Py.len new = Z.min 1000 (Py.len residuals)) as Hnew by exact Hlen.
    split; [exact Hrun|]. split; [exact Hnew|].
    intros Hstored. subst flat.
    destruct (ForecasterAutoreg.out_sample_residuals_ f) as [stored|] eqn:Es.
    + specialize (Hstored stored eq_refl). destruct append.
      * rewrite len_app. pose proof (len_slice_to_le new (Z.max 0 (1000 - Py.len stored))).
        lia.
      * lia.
    + lia.
Qed.

End ResidualCaps.

(** ** Invariants of a loop *)

Section Loops.
Context {A S : Type}.

Lemma foldM_invariant (P : S → Prop) (body : S → A → result S) (l : list A) (s s' : S) :
  (∀ s x s', P s → body s x = Ok s' → P s') → P s → foldM body l s = Ok s' → P s'.
Proof.
  intros Hstep. revert s. induction l as [|x l IH]; intros s Hs; cbn [foldM].
  - by intros [= <-].
  - destruct (body s x) as [s1|] eqn:E; cbn [mbind result_bind]; [|done].
    apply IH. by eapply Hstep.
Qed.

Lemma foldM_count (count : S → nat) (body : S → A → result S) (l : list A) (s s' : S) :
  (∀ s x s', body s x = Ok s' → count s' = Datatypes.S (count s)) →
  foldM body l s = Ok s' → count s' = (count s + length l)%nat.
Proof.
  intros Hstep. revert s. induction l as [|x l IH]; intros s; cbn [foldM].
  - intros [= <-]. simpl. lia.
  - destruct (body s x) as [s1|] eqn:E; cbn [mbind result_bind]; [|done].
    intros Hrun. rewrite (IH _ Hrun), (Hstep _ _ _ E). simpl. lia.
Qed.

End Loops.

(** ** Shape and failures of the bootstrapping *)

Section Bootstrapping.
Context {V R T B G : Type}.
Context `{!Numeric V, !Regressor V R, !Transformer V T, !Discretizer V B,
          !Generator V G, !InputCheck V}.

Abbreviation forecaster := (ForecasterAutoreg.t (V := V) (R := R) (T := T) (B := B)).
Implicit Types (f : forecaster).

Lemma getitem_IndexError {A} (l : list A) (j : Z) (e : exn) :
  Py.getitem l j = Raise e → e = IndexError.
Proof.
  unfold Py.getitem. destruct (Py.norm_index _ _) as [p|]; [|by intros [= <-]].
  destruct (l !! p); [done|]. by intros [= <-].
Qed.

Lemma take_indices_IndexError {A} (l : list A) (js : list Z) :
  (∃ j, j ∈ js ∧ Py.norm_index (Py.len l) j = None) →
  Py.take_indices l js = Raise IndexError.
Proof.
  unfold Py.take_indices. intros (j & Hj & Hn).
  induction js as [|j0 js IH]; [by apply elem_of_nil in Hj|].
  simpl. destruct (Py.getitem l j0) as [x|e] eqn:E; simpl.
  - apply elem_of_cons in Hj as [->|Hj]; [|by rewrite IH].
    unfold Py.getitem in E. by rewrite Hn in E.
  - by apply getitem_IndexError in E as ->.
Qed.

Lemma recursive_step_IndexError f (steps : Z) (exog : option (list (list V)))
    (residuals : ForecasterAutoreg.residuals_arg) (binned_residuals : bool)
    (predictions window : list V) (rng : option G) (i : Z) :
  (∃ lag, lag ∈ ForecasterAutoreg.lags f
          ∧ Py.norm_index (Py.len window) (- lag - (steps - i)) = None) →
  ForecasterAutoreg.recursive_step f steps exog residuals binned_residuals
    (predictions, window, rng) i = Raise IndexError.
Proof.
  intros (lag & Hlag & Hn). unfold ForecasterAutoreg.recursive_step.
  rewrite take_indices_IndexError; [done|].
  exists (- lag - (steps - i)). split; [|done].
  apply list_elem_of_fmap. by exists lag.
Qed.

Lemma recursive_predict_short_window f (steps : Z) (window : list V)
    (exog : option (list (list V))) (residuals : ForecasterAutoreg.residuals_arg)
    (binned_residuals : bool) (rng : option G) :
  0 < steps →
  (∃ lag, lag ∈ ForecasterAutoreg.lags f ∧ Py.len window < lag) →
  ForecasterAutoreg._recursive_predict f steps window exog residuals binned_residuals rng
  = Raise IndexError.
Proof.
  intros Hsteps (lag & Hlag & Hshort).
  unfold ForecasterAutoreg._recursive_predict, Py.full.
  rewrite decide_False by lia. cbn [mbind result_bind].
  unfold Py.range. rewrite seqZ_cons by lia. cbn [foldM].
  rewrite recursive_step_IndexError; [done|].
  exists lag. split; [done|].
  unfold Py.norm_index. rewrite len_app.
  assert (Py.len (replicate (Z.to_nat steps) (nan : V)) = steps) as -> by solve_len.
  pose proof (len_nonneg window).
  rewrite decide_False by lia. by rewrite decide_False by lia.
Qed.

(** X7. With [check_inputs = False] and no differencing, [predict] of at
    least one step from a window shorter than one of the lags raises
    [IndexError] out of the recursive loop, on its first step, and leaves
    the forecaster as it was. *)
Theorem predict_unchecked_short_window `{!TransformerShape V T} f (steps : Z)
    (last_window : option (list V)) (exog : option (list (list V))) (w : list V) :
  ForecasterAutoreg.differentiation f = None →
  0 < steps →
  match last_window with
  | Some _ => last_window
  | None => ForecasterAutoreg.last_window_ f
  end = Some w →
  (∃ lag, lag ∈ ForecasterAutoreg.lags f ∧ Py.len w < lag) →
  ForecasterAutoreg.predict (G := G) f steps last_window exog false
  = (Raise IndexError, f).
Proof.
  intros Hd Hsteps Hw (lag & Hlag & Hshort).
  unfold ForecasterAutoreg.predict, ForecasterAutoreg._create_predict_inputs.
  rewrite Hw. unfold ForecasterAutoreg.prepare_last_window. rewrite Hd.
  rewrite recursive_predict_short_window; [done|done|].
  exists lag. split; [done|].
  unfold Py.len at 1. rewrite transform_numpy_length.
  unfold Py.slice_from. rewrite length_drop. zlia.
Qed.

(** X8. When [predict_bootstrapping] returns, neither [steps] nor [n_boot]
    is negative, and the result has [steps] rows of [n_boot] values. *)
Theorem bootstrapping_shape f (steps : Z) (last_window : option (list V))
    (exog : option (list (list V))) (n_boot random_state : Z)
    (in_sample_residuals binned_residuals : bool) (boot_predictions : list (list V)) f' :
  ForecasterAutoreg.predict_bootstrapping (G := G) f steps last_window exog n_boot
    random_state in_sample_residuals binned_residuals = (Ok boot_predictions, f') →
  0 ≤ steps ∧ 0 ≤ n_boot
  ∧ Py.len boot_predictions = steps
  ∧ Forall (λ row, Py.len row = n_boot) boot_predictions.
Proof.
  unfold ForecasterAutoreg.predict_bootstrapping.
  destruct (ForecasterAutoreg._create_predict_inputs _ _ _ _ _ _ _ _)
    as [[[w ex]|e] f1]; [|done].
  intros [= Hrun <-]. revert Hrun.
  destruct (if binned_residuals then _ else _) as [sampled|]; cbn [mbind result_bind]; [|done].
  unfold ForecasterAutoreg.full_2d.
  destruct (decide (steps < 0 ∨ n_boot < 0)) as [|Hpos]; cbn [mbind result_bind]; [done|].
  destruct (foldM _ _ _) as [boot|] eqn:Eboot; cbn [mbind result_bind]; [|done].
  destruct (mapM _ boot.1) as [cols|] eqn:Ecols; cbn [mbind result_bind]; [|done].
  destruct (decide (n_boot = 0)); cbn [mbind result_bind]; [done|].
  intros [= <-].
  apply (foldM_count (λ st : list (list V) * G, length st.1)) in Eboot.
  2: { intros [cs g] i [cs' g']. unfold ForecasterAutoreg.boot_step.
       destruct (if binned_residuals then _ else _) as [res|]; cbn [mbind result_bind];
         [|done].
       destruct (ForecasterAutoreg._recursive_predict _ _ _ _ _ _ _) as [r|];
         cbn [mbind result_bind]; [|done].
       intros [= <- _]. simpl. rewrite length_app. simpl. lia. }
  apply mapM_length in Ecols. simpl in Eboot.
  unfold Py.range in Eboot. rewrite length_seqZ in Eboot.
  split; [lia|]. split; [lia|]. split.
  - unfold Py.len, ForecasterAutoreg.rows_of_columns, Py.range.
    rewrite length_fmap, length_seqZ. lia.
  - unfold ForecasterAutoreg.rows_of_columns. apply Forall_fmap, Forall_forall.
    intros r _. simpl. unfold Py.len. rewrite !length_fmap. lia.
Qed.

End Bootstrapping.

(** ** The binned bootstrapping without its bins *)

Section BinnedBootstrapping.
Context {V R T B G : Type}.
Context `{!Numeric V, !Regressor V R, !Transformer V T, !Discretizer V B,
          !Generator V G, !InputCheck V, !TransformerShape V T}.

Abbreviation forecaster := (ForecasterAutoreg.t (V := V) (R := R) (T := T) (B := B)).
Implicit Types (f : forecaster).

Lemma setitem_length {A} (l l' : list A) (j : Z) (x : A) :
  Py.setitem l j x = Ok l' → length l' = length l.
Proof.
  unfold Py.setitem. destruct (Py.norm_index _ _); [|done].
  intros [= <-]. by rewrite length_insert.
Qed.

Lemma cumsum_length (x : list V) : length (Differentiator.cumsum x) = length x.
Proof.
  destruct x as [|v x]; [done|]. simpl. f_equal.
  revert v. induction x as [|u x IH]; intros v; [done|]. simpl. by rewrite IH.
Qed.

Lemma inverse_transform_next_window_length (d : Differentiator.t V) (x x' : list V) :
  Differentiator.inverse_transform_next_window d x = Ok x' → length x' = length x.
Proof.
  unfold Differentiator.inverse_transform_next_window.
  apply (foldM_invariant (λ acc : list V, length acc = length x)); [|done].
  intros acc i acc' Hacc.
  destruct (Py.getitem _ _) as [anchor|]; cbn [mbind result_bind]; [|done].
  intros [= <-]. by rewrite length_fmap, cumsum_length.
Qed.

Lemma undo_differentiation_length f (x x' : list V) :
  ForecasterAutoreg.undo_differentiation f x = Ok x' → length x' = length x.
Proof.
  unfold ForecasterAutoreg.undo_differentiation.
  destruct (ForecasterAutoreg.differentiation f); [|by intros [= <-]].
  destruct (ForecasterAutoreg.differentiator f) as [d|]; cbn [mbind result_bind of_option];
    [|done].
  apply inverse_transform_next_window_length.
Qed.

Lemma recursive_predict_013_length f (steps : Z) (w : list V)
    (exog : option (list (list V))) (p : list V) :
  ForecasterAutoreg._recursive_predict_013 f steps w exog = Ok p → Py.len p = steps.
Proof.
  unfold ForecasterAutoreg._recursive_predict_013, Py.full.
  destruct (decide (steps < 0)); cbn [mbind result_bind]; [done|].
  destruct (foldM _ _ _) as [st|] eqn:E; cbn [mbind result_bind]; [|done].
  intros [= <-].
  apply (foldM_invariant (λ st : list V * list V, Py.len st.1 = steps)) in E;
    [done| |simpl; solve_len].
  intros [p0 w0] i [p1 w1] Hp. unfold ForecasterAutoreg.recursive_step_013.
  destruct (Py.take_indices _ _) as [X|]; cbn [mbind result_bind]; [|done].
  destruct (match exog with Some _ => _ | None => _ end) as [X'|];
    cbn [mbind result_bind]; [|done].
  destruct (Py.setitem p0 _ _) as [p2|] eqn:Ep; cbn [mbind result_bind]; [|done].
  destruct (Py.setitem w0 _ _) as [w2|]; cbn [mbind result_bind]; [|done].
  intros [= <- _]. simpl in *. apply setitem_length in Ep. zlia.
Qed.

Lemma boot_loop_without_residuals f (steps : Z) (w : list V)
    (exog : option (list (list V))) (sampled : list (list V)) (l : list Z)
    (cols : list (list V)) (g : G) :
  foldM (ForecasterAutoreg.boot_step f steps w exog None sampled true) l (cols, g)
  = match l with
    | [] => Ok (cols, g)
    | _ => p ← ForecasterAutoreg._recursive_predict_013 f steps w exog;
           Ok (cols ++ replicate (length l) p, g)
    end.
Proof.
  assert (∀ cols i,
            ForecasterAutoreg.boot_step f steps w exog None sampled true (cols, g) i
            = p ← ForecasterAutoreg._recursive_predict_013 f steps w exog;
              Ok (cols ++ [p], g)) as Hstep.
  { intros cols0 i. unfold ForecasterAutoreg.boot_step. cbn [mbind result_bind].
    change (ForecasterAutoreg._recursive_predict f steps w exog ForecasterAutoreg.ResNone
              true (Some g))
      with (ForecasterAutoreg._recursive_predict f steps w exog ForecasterAutoreg.ResNone
              false (Some g)).
    rewrite recursive_predict_013_eq.
    by destruct (ForecasterAutoreg._recursive_predict_013 _ _ _ _). }
  revert cols. induction l as [|i l IH]; intros cols; [done|].
  cbn [foldM]. rewrite Hstep.
  destruct (ForecasterAutoreg._recursive_predict_013 f steps w exog) as [p|];
    cbn [mbind result_bind]; [|done].
  rewrite IH. destruct l as [|i' l]; [done|].
  cbn [mbind result_bind]. by rewrite <- app_assoc.
Qed.

Lemma mapM_replicate {A C} (g : A → result C) (n : nat) (x : A) :
  mapM g (replicate n x)
  = match n with O => Ok [] | _ => y ← g x; Ok (replicate n y) end.
Proof.
  induction n as [|n IH]; [done|]. cbn [replicate mapM].
  destruct (g x) as [y|]; cbn [mbind result_bind]; [|done].
  rewrite IH. by destruct n.
Qed.

(** X9. When [in_sample_residuals_by_bin_] is [None], the binned
    bootstrapping on in-sample residuals with at least one iteration
    raises nothing of its own: it fails as [predict] fails, and otherwise
    every one of its [n_boot] columns is the point prediction of
    [predict], no residual being added. *)
Theorem binned_bootstrapping_without_bins f (steps : Z) (last_window : option (list V))
    (exog : option (list (list V))) (n_boot random_state : Z) :
  ForecasterAutoreg.in_sample_residuals_by_bin_ f = None →
  0 < n_boot →
  ForecasterAutoreg.predict_bootstrapping (G := G) f steps last_window exog n_boot
    random_state true true
  = match ForecasterAutoreg.predict (G := G) f steps last_window exog true with
    | (Ok predictions, f') =>
        (Ok ((λ p, replicate (Z.to_nat n_boot) p) <$> predictions), f')
    | (Raise e, f') => (Raise e, f')
    end.
Proof.
  intros Hbins Hn.
  unfold ForecasterAutoreg.predict_bootstrapping, ForecasterAutoreg.predict.
  change (ForecasterAutoreg._create_predict_inputs f steps last_window exog true true true
            true)
    with (ForecasterAutoreg._create_predict_inputs f steps last_window exog false true false
            true).
  pose proof (create_predict_inputs_frame f steps last_window exog false true false true)
    as (Hf & _ & _).
  destruct (ForecasterAutoreg._create_predict_inputs _ _ _ _ _ _ _ _)
    as [[[w ex]|e] f1]; [|done].
  simpl in Hf.
  assert (ForecasterAutoreg.in_sample_residuals_by_bin_ f1 = None) as -> by (by rewrite Hf).
  cbn [mbind result_bind]. f_equal.
  rewrite recursive_predict_013_eq. unfold ForecasterAutoreg.full_2d.
  destruct (decide (steps < 0)) as [Hneg|Hpos].
  { rewrite (decide_True (P := steps < 0 ∨ n_boot < 0)) by lia.
    unfold ForecasterAutoreg._recursive_predict_013, Py.full.
    by rewrite (decide_True (P := steps < 0)) by lia. }
  rewrite (decide_False (P := steps < 0 ∨ n_boot < 0)) by lia. cbn [mbind result_bind].
  rewrite boot_loop_without_residuals.
  assert (length (Py.range n_boot) = Z.to_nat n_boot) as Hlen
    by (unfold Py.range; by rewrite length_seqZ).
  destruct (Py.range n_boot) as [|i0 l] eqn:El; [simpl in Hlen; lia|].
  rewrite Hlen.
  destruct (ForecasterAutoreg._recursive_predict_013 f1 steps w ex) as [p|] eqn:Ep;
    cbn [mbind result_bind fmap result_fmap]; [|done].
  apply recursive_predict_013_length in Ep.
  cbn [fst app]. rewrite mapM_replicate.
  destruct (Z.to_nat n_boot) as [|n] eqn:En; [lia|].
  destruct (ForecasterAutoreg.undo_differentiation f1 p) as [p'|] eqn:Eu;
    cbn [mbind result_bind]; [|done].
  rewrite (decide_False (P := n_boot = 0)) by lia. cbn [mbind result_bind].
  apply undo_differentiation_length in Eu.
  rewrite fmap_replicate.
  set (q := (transform_numpy p' (ForecasterAutoreg.transformer_y f1) false true).2).
  assert (length q = Z.to_nat steps) as Hq.
  { unfold q. rewrite transform_numpy_length. zlia. }
  f_equal. f_equal. apply list_eq. intros r.
  unfold ForecasterAutoreg.rows_of_columns, Py.range. rewrite !list_lookup_fmap.
  destruct (decide (r < Z.to_nat steps)%nat) as [Hr|Hr].
  - rewrite lookup_seqZ_lt by lia. simpl.
    destruct (lookup_lt_is_Some_2 q r) as [v Hv]; [lia|].
    rewrite fmap_replicate. rewrite Z.add_0_l, Nat2Z.id. by rewrite Hv.
  - rewrite lookup_seqZ_ge by lia. simpl.
    by rewrite (proj2 (lookup_ge_None q r)) by lia.
Qed.

Lemma recursive_predict_missing_bin f (steps : Z) (w : list V)
    (exog : option (list (list V))) (d : list (Z * list V)) (rng : option G) :
  0 < steps →
  Forall (λ lag, 1 ≤ lag ≤ Py.len w) (ForecasterAutoreg.lags f) →
  (∀ e, exog = Some e → 0 < Py.len e) →
  let pred := reg_predict (ForecasterAutoreg.regressor f)
                (ForecasterAutoreg.lagged_row (ForecasterAutoreg.lags f) w
                 ++ ForecasterAutoreg.exog_row exog 0) in
  let bin := binner_transform (ForecasterAutoreg.binner f) pred in
  Dict.get d bin = None →
  ForecasterAutoreg._recursive_predict f steps w exog (ForecasterAutoreg.ResDict d) true rng
  = Raise (KeyError bin).
Proof.
  intros Hsteps Hlags Hexog pred bin Hbin.
  unfold ForecasterAutoreg._recursive_predict, Py.full.
  rewrite decide_False by lia. cbn [mbind result_bind].
  unfold Py.range. rewrite seqZ_cons by lia. cbn [foldM].
  assert (ForecasterAutoreg.recursive_step f steps exog (ForecasterAutoreg.ResDict d) true
            (replicate (Z.to_nat steps) nan, w ++ replicate (Z.to_nat steps) nan, rng) 0
          = Raise (KeyError bin)) as ->; [|done].
  unfold ForecasterAutoreg.recursive_step.
  rewrite take_indices_history; [|solve_len|done].
  cbn [mbind result_bind].
  assert (match exog with
          | Some ex => row ← Py.getitem ex 0;
                       Ok (ForecasterAutoreg.lagged_row (ForecasterAutoreg.lags f) w ++ row)
          | None => Ok (ForecasterAutoreg.lagged_row (ForecasterAutoreg.lags f) w)
          end
          = Ok (ForecasterAutoreg.lagged_row (ForecasterAutoreg.lags f) w
                ++ ForecasterAutoreg.exog_row exog 0)) as ->.
  { unfold ForecasterAutoreg.exog_row. destruct exog as [e|]; [|by rewrite app_nil_r].
    specialize (Hexog e eq_refl). destruct e as [|row e]; [solve_len|]. done. }
  cbn [mbind result_bind ForecasterAutoreg.add_step_residual].
  fold pred. fold bin. unfold Dict.getitem. by rewrite Hbin.
Qed.

(** X10. In the binned bootstrapping, when the first prediction falls in a
    bin that is not a key of the residuals of the chosen mode,
    [predict_bootstrapping] raises [KeyError] of that bin; the forecaster
    is the one left by [_create_predict_inputs]. *)
Theorem binned_bootstrapping_missing_bin f (steps : Z) (last_window : option (list V))
    (exog : option (list (list V))) (n_boot random_state : Z) (in_sample_residuals : bool)
    (w : list V) (ex : option (list (list V))) f1 (d : list (Z * list V)) :
  ForecasterAutoreg._create_predict_inputs f steps last_window exog true in_sample_residuals
    true true = (Ok (w, ex), f1) →
  (if in_sample_residuals then ForecasterAutoreg.in_sample_residuals_by_bin_ f1
   else ForecasterAutoreg.out_sample_residuals_by_bin_ f1) = Some d →
  0 < steps → 0 < n_boot →
  Forall (λ lag, 1 ≤ lag ≤ Py.len w) (ForecasterAutoreg.lags f1) →
  (∀ e, ex = Some e → 0 < Py.len e) →
  let pred := reg_predict (ForecasterAutoreg.regressor f1)
                (ForecasterAutoreg.lagged_row (ForecasterAutoreg.lags f1) w
                 ++ ForecasterAutoreg.exog_row ex 0) in
  let bin := binner_transform (ForecasterAutoreg.binner f1) pred in
  Dict.get d bin = None →
  ForecasterAutoreg.predict_bootstrapping (G := G) f steps last_window exog n_boot
    random_state in_sample_residuals true
  = (Raise (KeyError bin), f1).
Proof.
  intros Hin Hd Hsteps Hn Hlags Hex pred bin Hbin.
  unfold ForecasterAutoreg.predict_bootstrapping. rewrite Hin, Hd.
  cbn [mbind result_bind]. unfold ForecasterAutoreg.full_2d.
  rewrite (decide_False (P := steps < 0 ∨ n_boot < 0)) by lia. cbn [mbind result_bind].
  unfold Py.range. rewrite seqZ_cons by lia. cbn [foldM].
  assert (∀ sampled cols g i,
            ForecasterAutoreg.boot_step f1 steps w ex (Some d) sampled true (cols, g) i
            = Raise (KeyError bin)) as ->; [|done].
  intros sampled cols g i. unfold ForecasterAutoreg.boot_step. cbn [mbind result_bind].
  by rewrite recursive_predict_missing_bin.
Qed.

End BinnedBootstrapping.

(** ** What a returned prediction tells *)

Section PredictLength.
Context {V R T B G : Type}.
Context `{!Numeric V, !Regressor V R, !Transformer V T, !Discretizer V B,
          !Generator V G, !InputCheck V, !TransformerShape V T}.

Abbreviation forecaster := (ForecasterAutoreg.t (V := V) (R := R) (T := T) (B := B)).
Implicit Types (f : forecaster).

Lemma recursive_predict_013_steps f (steps : Z) (w : list V)
    (exog : option (list (list V))) (p : list V) :
  ForecasterAutoreg._recursive_predict_013 f steps w exog = Ok p → 0 ≤ steps.
Proof.
  unfold ForecasterAutoreg._recursive_predict_013, Py.full.
  destruct (decide (steps < 0)); cbn [mbind result_bind]; [done|]. lia.
Qed.

(** X11. When [predict] returns, [steps] is not negative, as many values
    as [steps] are returned, a last window was given or stored, and, with
    [check_inputs = True], [check_predict_input] accepted the inputs. *)
Theorem predict_returns_steps_values f (steps : Z) (last_window : option (list V))
    (exog : option (list (list V))) (check_inputs : bool) (predictions : list V) f' :
  ForecasterAutoreg.predict (G := G) f steps last_window exog check_inputs
  = (Ok predictions, f') →
  0 ≤ steps
  ∧ Py.len predictions = steps
  ∧ is_Some (match last_window with
             | Some _ => last_window
             | None => ForecasterAutoreg.last_window_ f
             end)
  ∧ (check_inputs = true →
     ∀ w, match last_window with
          | Some _ => last_window
          | None => ForecasterAutoreg.last_window_ f
          end = Some w →
          check_predict_input (ForecasterAutoreg.predict_check_args f steps (Some w) exog)
          = None).
Proof.
  unfold ForecasterAutoreg.predict.
  destruct (ForecasterAutoreg._create_predict_inputs _ _ _ _ _ _ _ _)
    as [[[w ex]|e] f1] eqn:Ein; [|done].
  rewrite recursive_predict_013_eq.
  destruct (ForecasterAutoreg._recursive_predict_013 f1 steps w ex) as [p|] eqn:Ep;
    simpl; [|done].
  destruct (ForecasterAutoreg.undo_differentiation f1 p) as [p'|] eqn:Eu;
    simpl; [|done].
  intros [= <- <-].
  pose proof (recursive_predict_013_steps _ _ _ _ _ Ep) as Hsteps.
  apply recursive_predict_013_length in Ep. apply undo_differentiation_length in Eu.
  split; [done|]. split.
  { unfold Py.len in *. rewrite transform_numpy_length. lia. }
  revert Ein. unfold ForecasterAutoreg._create_predict_inputs.
  destruct (match last_window with Some _ => _ | None => _ end) as [w0|].
  - intros Ein. split; [by eexists|]. intros -> w1 [= <-].
    destruct (check_predict_input _); [done|done].
  - by destruct (if check_inputs then _ else _).
Qed.

(** X12. When [in_sample_residuals_] is [None] and the inputs are
    accepted, the bootstrapping on in-sample residuals without binning
    raises a [ValueError], out of the draw of the residuals. *)
Theorem flat_bootstrapping_without_residuals f (steps : Z) (last_window : option (list V))
    (exog : option (list (list V))) (n_boot random_state : Z) (w : list V)
    (ex : option (list (list V))) f1 :
  ForecasterAutoreg.in_sample_residuals_ f = None →
  ForecasterAutoreg._create_predict_inputs f steps last_window exog true true false true
  = (Ok (w, ex), f1) →
  ∃ site,
    ForecasterAutoreg.predict_bootstrapping (G := G) f steps last_window exog n_boot
      random_state true false
    = (Raise (ValueError site), f1).
Proof.
  intros Hres Hin. unfold ForecasterAutoreg.predict_bootstrapping. rewrite Hin.
  pose proof (create_predict_inputs_frame f steps last_window exog true true false true)
    as (Hf & _ & _).
  rewrite Hin in Hf. simpl in Hf.
  assert (ForecasterAutoreg.in_sample_residuals_ f1 = None) as -> by (by rewrite Hf).
  unfold ForecasterAutoreg.choice_2d, choice.
  destruct (decide (steps < 0 ∨ n_boot < 0)); by eexists.
Qed.

End PredictLength.

(** ** Loops with equal bodies *)

Section LoopExtensionality.
Context {A S : Type}.

Lemma foldM_ext_in (body body' : S → A → result S) (l : list A) (s : S) :
  (∀ x, x ∈ l → ∀ s, body s x = body' s x) → foldM body l s = foldM body' l s.
Proof.
  revert s. induction l as [|x l IH]; intros s Hext; [done|].
  cbn [foldM]. rewrite Hext by left.
  destruct (body' s x) as [s1|]; [|done]. cbn [mbind result_bind].
  apply IH. intros y Hy. apply Hext. by right.
Qed.

End LoopExtensionality.

(** ** Bootstrapping with residuals that change nothing *)

Section NeutralResiduals.
Context {V R T B G : Type}.
Context `{!Numeric V, !Regressor V R, !Transformer V T, !Discretizer V B,
          !Generator V G, !InputCheck V, !TransformerShape V T,
          !GeneratorLaws V G, !GeneratorSound V G}.

Abbreviation forecaster := (ForecasterAutoreg.t (V := V) (R := R) (T := T) (B := B)).
Implicit Types (f : forecaster).

Lemma recursive_predict_neutral f (steps : Z) (w : list V) (ex : option (list (list V)))
    (a : list V) (rng : option G) :
  Py.len a = steps →
  (∀ r X, r ∈ a →
          add (reg_predict (ForecasterAutoreg.regressor f) X) r
          = reg_predict (ForecasterAutoreg.regressor f) X) →
  ForecasterAutoreg._recursive_predict f steps w ex (ForecasterAutoreg.ResArray a) false rng
  = ForecasterAutoreg._recursive_predict f steps w ex ForecasterAutoreg.ResNone false rng.
Proof.
  intros Hlen Hneutral. unfold ForecasterAutoreg._recursive_predict.
  destruct (Py.full steps nan) as [p0|]; [|done]. cbn [mbind result_bind].
  rewrite (foldM_ext_in
             (ForecasterAutoreg.recursive_step f steps ex (ForecasterAutoreg.ResArray a) false)
             (ForecasterAutoreg.recursive_step f steps ex ForecasterAutoreg.ResNone false));
    [done|].
  intros i Hi [[p lw] g]. unfold Py.range in Hi. apply elem_of_seqZ in Hi.
  unfold ForecasterAutoreg.recursive_step.
  destruct (Py.take_indices _ _) as [X|]; [|done]. cbn [mbind result_bind].
  destruct (match ex with Some _ => _ | None => _ end) as [X'|]; [|done].
  cbn [mbind result_bind ForecasterAutoreg.add_step_residual].
  destruct (lookup_lt_is_Some_2 a (Z.to_nat i)) as [r Hr]; [zlia|].
  rewrite (getitem_pos a i r) by (done || lia). cbn [mbind result_bind].
  rewrite Hneutral; [done|]. by eapply list_elem_of_lookup_2.
Qed.

Lemma choice_2d_columns (g g' : G) (pool : list V) (rows cols : Z) (m : list (list V))
    (i : Z) :
  ForecasterAutoreg.choice_2d g (Some pool) rows cols = Ok (g', m) →
  0 ≤ i < cols →
  ∃ col, ForecasterAutoreg.column m i = Ok col
         ∧ Py.len col = rows ∧ Forall (λ v, v ∈ pool) col.
Proof.
  unfold ForecasterAutoreg.choice_2d.
  destruct (decide (rows < 0 ∨ cols < 0)) as [|Hpos]; [done|].
  destruct (choice g (Some pool) (rows * cols) true) as [[g1 flat]|] eqn:Ec;
    cbn [mbind result_bind]; [|done].
  intros Hm Hi. injection Hm as <- <-.
  pose proof (choice_Ok_length _ _ _ _ _ _ Ec) as Hlen.
  assert (Forall (λ v, v ∈ pool) flat) as Hin.
  { revert Ec. unfold choice.
    destruct (decide (rows * cols < 0)); [done|].
    destruct (decide (pool = [] ∧ 0 < rows * cols)) as [|Hne]; [done|].
    destruct (decide (true = false ∧ _)); [done|]. intros [= E].
    replace flat with (rng_choice g pool (Z.to_nat (rows * cols)) true).2 by (by rewrite E).
    apply rng_choice_elem. destruct pool; [right|by left].
    apply not_and_l in Hne as [|]; [done|lia]. }
  unfold ForecasterAutoreg.column, ForecasterAutoreg.reshape.
  exists ((λ r, default nan (flat !! Z.to_nat (r * cols + i))) <$> Py.range rows).
  split; [|split].
  - rewrite mapM_fmap. apply mapM_Ok. apply Forall_forall. intros r Hr.
    unfold Py.range in Hr. apply elem_of_seqZ in Hr. simpl.
    assert (Z.to_nat (r * cols + i) < length flat)%nat as Hlt by (unfold Py.len in *; nia).
    destruct (lookup_lt_is_Some_2 _ _ Hlt) as [v Hv]. rewrite Hv. simpl.
    apply getitem_pos; [lia|].
    rewrite lookup_take_lt by lia. rewrite lookup_drop. rewrite <- Hv. f_equal. nia.
  - unfold Py.range. solve_len.
  - apply Forall_fmap, Forall_forall. intros r Hr.
    unfold Py.range in Hr. apply elem_of_seqZ in Hr. simpl.
    assert (Z.to_nat (r * cols + i) < length flat)%nat as Hlt by (unfold Py.len in *; nia).
    destruct (lookup_lt_is_Some_2 _ _ Hlt) as [v Hv]. rewrite Hv. simpl.
    rewrite Forall_forall in Hin. apply Hin. by eapply list_elem_of_lookup_2.
Qed.

Lemma boot_loop_constant (body : list (list V) * G → Z → result (list (list V) * G))
    (R0 : result (list V)) (l : list Z) (cols : list (list V)) (g : G) :
  (∀ i, i ∈ l → ∀ cols g, body (cols, g) i = p ← R0; Ok (cols ++ [p], g)) →
  foldM body l (cols, g)
  = match l with
    | [] => Ok (cols, g)
    | _ => p ← R0; Ok (cols ++ replicate (length l) p, g)
    end.
Proof.
  revert cols. induction l as [|i l IH]; intros cols Hbody; [done|].
  cbn [foldM]. rewrite Hbody by left.
  destruct R0 as [p|]; cbn [mbind result_bind]; [|done].
  rewrite IH by (intros j Hj; apply Hbody; by right).
  destruct l as [|i' l]; [done|]. cbn [mbind result_bind]. by rewrite <- app_assoc.
Qed.

Lemma constant_ensemble f (steps n_boot : Z) (w : list V) (ex : option (list (list V)))
    (body : list (list V) * G → Z → result (list (list V) * G)) (g0 : G) :
  0 < n_boot → 0 ≤ steps →
  (∀ i, i ∈ Py.range n_boot → ∀ cols g,
     body (cols, g) i
     = p ← ForecasterAutoreg._recursive_predict_013 f steps w ex; Ok (cols ++ [p], g)) →
  (boot ← foldM body (Py.range n_boot) ([], g0);
   cols ← mapM (ForecasterAutoreg.undo_differentiation f) boot.1;
   _ ← (if decide (n_boot = 0) then
          Raise (ValueError "Cannot apply_along_axis when any iteration dimensions are 0")
        else Ok ());
   let cols := (λ col, (transform_numpy col (ForecasterAutoreg.transformer_y f) false
                          true).2) <$> cols in
   Ok (ForecasterAutoreg.rows_of_columns steps cols))
  = (p ← ForecasterAutoreg._recursive_predict_013 f steps w ex;
     predictions ← ForecasterAutoreg.undo_differentiation f p;
     Ok ((λ v, replicate (Z.to_nat n_boot) v)
           <$> (transform_numpy predictions (ForecasterAutoreg.transformer_y f) false
                  true).2)).
Proof.
  intros Hn Hsteps Hbody.
  rewrite (boot_loop_constant body _ _ _ _ Hbody).
  assert (length (Py.range n_boot) = Z.to_nat n_boot) as Hlen
    by (unfold Py.range; by rewrite length_seqZ).
  destruct (Py.range n_boot) as [|i0 l] eqn:El; [simpl in Hlen; lia|].
  rewrite Hlen.
  destruct (ForecasterAutoreg._recursive_predict_013 f steps w ex) as [p|] eqn:Ep;
    cbn [mbind result_bind]; [|done].
  apply recursive_predict_013_length in Ep.
  cbn [fst app]. rewrite mapM_replicate.
  destruct (Z.to_nat n_boot) as [|n] eqn:En; [lia|].
  destruct (ForecasterAutoreg.undo_differentiation f p) as [p'|] eqn:Eu;
    cbn [mbind result_bind]; [|done].
  rewrite (decide_False (P := n_boot = 0)) by lia. cbn [mbind result_bind].
  apply undo_differentiation_length in Eu.
  rewrite fmap_replicate.
  set (q := (transform_numpy p' (ForecasterAutoreg.transformer_y f) false true).2).
  assert (length q = Z.to_nat steps) as Hq.
  { unfold q. rewrite transform_numpy_length. zlia. }
  f_equal. apply list_eq. intros r.
  unfold ForecasterAutoreg.rows_of_columns, Py.range. rewrite !list_lookup_fmap.
  destruct (decide (r < Z.to_nat steps)%nat) as [Hr|Hr].
  - rewrite lookup_seqZ_lt by lia. simpl.
    destruct (lookup_lt_is_Some_2 q r) as [v Hv]; [lia|].
    rewrite fmap_replicate. rewrite Z.add_0_l, Nat2Z.id. by rewrite Hv.
  - rewrite lookup_seqZ_ge by lia. simpl.
    by rewrite (proj2 (lookup_ge_None q r)) by lia.
Qed.

(** X13. Without binning, when every residual of the pool of the chosen
    mode leaves every prediction of the regressor unchanged when added to
    it, and [predict] returns, [predict_bootstrapping] with at least one
    iteration returns the prediction of [predict] in every one of its
    [n_boot] columns, and leaves the forecaster in the same state. *)
Theorem neutral_residuals_bootstrapping f (steps : Z) (last_window : option (list V))
    (exog : option (list (list V))) (n_boot random_state : Z) (in_sample_residuals : bool)
    (pool predictions : list V) f' :
  (if in_sample_residuals then ForecasterAutoreg.in_sample_residuals_ f
   else ForecasterAutoreg.out_sample_residuals_ f) = Some pool →
  pool ≠ [] →
  (∀ r X, r ∈ pool →
          add (reg_predict (ForecasterAutoreg.regressor f) X) r
          = reg_predict (ForecasterAutoreg.regressor f) X) →
  0 < n_boot →
  ForecasterAutoreg.predict (G := G) f steps last_window exog true = (Ok predictions, f') →
  ForecasterAutoreg.predict_bootstrapping (G := G) f steps last_window exog n_boot
    random_state in_sample_residuals false
  = (Ok ((λ p, replicate (Z.to_nat n_boot) p) <$> predictions), f').
Proof.
  intros Hpool Hne Hneutral Hn.
  unfold ForecasterAutoreg.predict_bootstrapping, ForecasterAutoreg.predict.
  assert (ForecasterAutoreg._create_predict_inputs f steps last_window exog true
            in_sample_residuals false true
          = ForecasterAutoreg._create_predict_inputs f steps last_window exog false true
              false true) as ->.
  { unfold ForecasterAutoreg._create_predict_inputs,
      ForecasterAutoreg.check_out_sample_residuals.
    destruct in_sample_residuals; [done|]. simpl. rewrite Hpool.
    by rewrite bool_decide_false by done. }
  pose proof (create_predict_inputs_frame f steps last_window exog false true false true)
    as (Hf & _ & _).
  destruct (ForecasterAutoreg._create_predict_inputs _ _ _ _ _ _ _ _)
    as [[[w ex]|e] f1]; [|done].
  simpl in Hf.
  assert ((if in_sample_residuals then ForecasterAutoreg.in_sample_residuals_ f1
           else ForecasterAutoreg.out_sample_residuals_ f1) = Some pool) as ->.
  { rewrite Hf. by destruct in_sample_residuals. }
  assert (ForecasterAutoreg.regressor f1 = ForecasterAutoreg.regressor f) as Hreg
    by (by rewrite Hf).
  rewrite recursive_predict_013_eq.
  destruct (ForecasterAutoreg._recursive_predict_013 f1 steps w ex) as [p|] eqn:Ep;
    [|done].
  pose proof (recursive_predict_013_length _ _ _ _ _ Ep) as Hlenp.
  assert (0 ≤ steps) as Hsteps by (rewrite <- Hlenp; apply len_nonneg).
  cbn [mbind result_bind fmap result_fmap fst].
  destruct (ForecasterAutoreg.undo_differentiation f1 p) as [p'|] eqn:Eu; [|done].
  cbn [mbind result_bind]. intros [= <- <-]. f_equal.
  destruct (ForecasterAutoreg.choice_2d (default_rng random_state) (Some pool) steps n_boot)
    as [[g1 sampled]|] eqn:Ec.
  2: { exfalso. revert Ec. unfold ForecasterAutoreg.choice_2d, choice.
       destruct (decide (steps < 0 ∨ n_boot < 0)); [lia|].
       destruct (decide (steps * n_boot < 0)); [nia|].
       destruct (decide (pool = [] ∧ _)) as [[? _]|]; [done|].
       destruct (decide (true = false ∧ _)) as [[? _]|]; [done|].
       by destruct (rng_choice _ _ _ _). }
  cbn [mbind result_bind]. unfold ForecasterAutoreg.full_2d.
  rewrite (decide_False (P := steps < 0 ∨ n_boot < 0)) by lia.
  cbn [mbind result_bind snd fst].
  rewrite (constant_ensemble f1 steps n_boot w ex); [|done|done|].
  - rewrite Ep. cbn [mbind result_bind]. by rewrite Eu.
  - intros i Hi cols g. unfold Py.range in Hi. apply elem_of_seqZ in Hi.
    unfold ForecasterAutoreg.boot_step.
    destruct (choice_2d_columns _ _ _ _ _ _ i Ec) as (col & -> & Hlen & Hin); [lia|].
    cbn [mbind result_bind fmap result_fmap].
    rewrite recursive_predict_neutral; [|done|].
    + rewrite recursive_predict_013_eq, Ep. done.
    + intros r X Hr. rewrite Hreg. apply Hneutral.
      rewrite Forall_forall in Hin. by apply Hin.
Qed.

End NeutralResiduals.

(** ** The invariant of the forecaster *)

Section Invariant.
Context {V R T B G : Type}.
Context `{!Numeric V, !Regressor V R, !Transformer V T, !Discretizer V B,
          !Generator V G, !InputCheck V}.

Abbreviation forecaster := (ForecasterAutoreg.t (V := V) (R := R) (T := T) (B := B)).
Implicit Types (f : forecaster).

(** The attributes [well_formed] reads, the differentiator up to what it
    was fitted on. *)
Lemma well_formed_ext f f' :
  ForecasterAutoreg.lags f' = ForecasterAutoreg.lags f →
  ForecasterAutoreg.max_lag f' = ForecasterAutoreg.max_lag f →
  ForecasterAutoreg.window_size f' = ForecasterAutoreg.window_size f →
  ForecasterAutoreg.window_size_diff f' = ForecasterAutoreg.window_size_diff f →
  ForecasterAutoreg.differentiation f' = ForecasterAutoreg.differentiation f →
  (ForecasterAutoreg.differentiator f' = ForecasterAutoreg.differentiator f
   ∨ ∃ d d', ForecasterAutoreg.differentiator f = Some d
             ∧ ForecasterAutoreg.differentiator f' = Some d'
             ∧ Differentiator.order d' = Differentiator.order d) →
  ForecasterAutoreg.well_formed f → ForecasterAutoreg.well_formed f'.
Proof.
  intros Hl Hm Hw Hwd Hd Hdd (Hne & Hlags & Hws & Hdiff).
  unfold ForecasterAutoreg.well_formed. rewrite Hl, Hm, Hw, Hwd, Hd.
  split; [done|]. split; [done|]. split; [done|].
  destruct (ForecasterAutoreg.differentiation f) as [d0|]; [|done].
  destruct Hdiff as (H1 & H2 & dd & Hdd0 & Hord). split; [done|]. split; [done|].
  destruct Hdd as [->|(d & d' & E1 & E2 & E3)]; [by exists dd|].
  exists d'. split; [done|]. rewrite E3. congruence.
Qed.

Lemma prepare_last_window_well_formed f (w : list V) :
  ForecasterAutoreg.well_formed f →
  ForecasterAutoreg.well_formed (ForecasterAutoreg.prepare_last_window f w).2.
Proof.
  intros Hwf. unfold ForecasterAutoreg.prepare_last_window.
  destruct (ForecasterAutoreg.differentiation f) as [d0|] eqn:Ed; [|done].
  destruct (ForecasterAutoreg.differentiator f) as [d|] eqn:Edd; [|done].
  destruct (Differentiator.fit_transform d _) as [[d' values]|] eqn:Ef; [|done].
  simpl. apply (well_formed_ext f); [done|done|done|done|done| |exact Hwf].
  right. exists d, d'. split; [done|]. split; [done|].
  by eapply differentiator_fit_transform_order_eq.
Qed.

Lemma create_predict_inputs_well_formed f steps last_window exog pb isr br ci :
  ForecasterAutoreg.well_formed f →
  ForecasterAutoreg.well_formed
    (ForecasterAutoreg._create_predict_inputs f steps last_window exog pb isr br ci).2.
Proof.
  intros Hwf. unfold ForecasterAutoreg._create_predict_inputs.
  destruct (if ci then _ else _); [|done].
  destruct (match last_window with Some _ => _ | None => _ end) as [w|]; [|done].
  pose proof (prepare_last_window_well_formed f w Hwf) as Hp.
  by destruct (ForecasterAutoreg.prepare_last_window f w) as [[v|e] f'].
Qed.

Lemma create_train_X_y_differentiator f (y : list V) (exog : option (list (list V))) :
  let f' := (ForecasterAutoreg.create_train_X_y f y exog).2 in
  ForecasterAutoreg.differentiator f' = ForecasterAutoreg.differentiator f
  ∨ ∃ d d', ForecasterAutoreg.differentiator f = Some d
            ∧ ForecasterAutoreg.differentiator f' = Some d'
            ∧ Differentiator.order d' = Differentiator.order d.
Proof.
  unfold ForecasterAutoreg.create_train_X_y.
  destruct (transform_dataframe _ _ _ _) as [ty yv].
  destruct f as [reg lags ml ws wsd ty0 te0 diff dd lw ei isr osr isb osb fitted b bi].
  destruct diff as [d|], dd as [d0|], fitted, exog as [ex|]; simpl;
    repeat (first
      [ destruct (Differentiator.fit_transform _ _) as [[? ?]|] eqn:Ef
      | destruct (decide (Py.len _ ≠ Py.len _))
      | destruct (transform_matrix _ _ _ _) as [? ?]
      | destruct (ForecasterAutoreg._create_lags _ _) as [[? ?]|] ]; simpl);
    try (by left);
    right; eexists _, _; (split; [done|]); (split; [done|]);
    by eapply differentiator_fit_transform_order_eq.
Qed.

Lemma binning_differentiator f (y_true y_pred : list V) (seed : Z) :
  ForecasterAutoreg.differentiator
    (ForecasterAutoreg._binning_in_sample_residuals (G := G) f y_true y_pred seed).2
  = ForecasterAutoreg.differentiator f.
Proof.
  unfold ForecasterAutoreg._binning_in_sample_residuals.
  destruct (ForecasterAutoreg.np_concatenate _) as [flat|]; simpl; [|done].
  destruct (ForecasterAutoreg.make_binner_intervals _) as [iv|]; simpl; done.
Qed.

Lemma set_out_sample_residuals_frame f (residuals : list V) (y_pred : option (list V))
    (append transform : bool) (seed : Z) :
  let f' := (ForecasterAutoreg.set_out_sample_residuals (G := G) f residuals y_pred append
               transform seed).2 in
  f' = ForecasterAutoreg.set_out_sample_residuals_by_bin_
         (ForecasterAutoreg.set_out_sample_residuals_ f
            (ForecasterAutoreg.out_sample_residuals_ f'))
         (ForecasterAutoreg.out_sample_residuals_by_bin_ f').
Proof.
  unfold ForecasterAutoreg.set_out_sample_residuals.
  destruct f as [reg lags ml ws wsd ty0 te0 diff dd lw ei isr osr isb osb fitted b bi].
  cbn [ForecasterAutoreg.is_fitted ForecasterAutoreg.transformer_y
       ForecasterAutoreg.out_sample_residuals_ ForecasterAutoreg.out_sample_residuals_by_bin_
       ForecasterAutoreg.binner].
  destruct (match y_pred with Some _ => _ | None => _ end); [done|].
  destruct (_ && _); [done|].
  destruct (_ && _); [done|].
  destruct y_pred as [p|]; [|done].
  destruct (negb _); [done|].
  destruct (ForecasterAutoreg.np_concatenate _) as [flat|]; [|done].
  cbn [ForecasterAutoreg.in_sample_residuals_by_bin_
       ForecasterAutoreg.set_out_sample_residuals_
       ForecasterAutoreg.set_out_sample_residuals_by_bin_].
  destruct isb as [in_bins|]; [|done].
  destruct ((filter _ _).*1) as [|k ks]; [done|].
  destruct (match ForecasterAutoreg.binner_intervals _ with Some _ => _ | None => _ end);
    [|done].
  by destruct (ForecasterAutoreg.fill_empty_bins _ _ _).
Qed.

Lemma fit_well_formed f (y : list V) (exog : option (list (list V)))
    (store_last_window store_in_sample_residuals : bool) :
  ForecasterAutoreg.well_formed f →
  ForecasterAutoreg.well_formed
    (ForecasterAutoreg.fit (G := G) f y exog store_last_window store_in_sample_residuals).2.
Proof.
  intros Hwf. unfold ForecasterAutoreg.fit.
  set (f0 := ForecasterAutoreg.set_is_fitted _ false).
  assert (ForecasterAutoreg.well_formed f0) as Hwf0 by exact Hwf.
  pose proof (create_train_X_y_frame f0 y exog) as Hc.
  pose proof (create_train_X_y_differentiator f0 y exog) as Hcd.
  destruct (ForecasterAutoreg.create_train_X_y f0 y exog) as [r f1]. simpl in Hc, Hcd.
  destruct Hc as (_ & Hl & Hml & Hws & Hwsd & Hd & _).
  assert (ForecasterAutoreg.well_formed f1) as Hwf1
    by (by apply (well_formed_ext f0)).
  clearbody f0. clear Hl Hml Hws Hwsd Hd Hcd.
  destruct r as [[X yt]|e]; [|done].
  destruct (ForecasterAutoreg.create_sample_weights f1 X) as [sample_weight|e]; [|done].
  set (f2 := match exog with Some _ => _ | None => _ end).
  assert (ForecasterAutoreg.well_formed f2) as Hwf2 by (unfold f2; by destruct exog).
  clearbody f2.
  destruct store_in_sample_residuals.
  - pose proof (binning_frame (G := G) f2 yt
                  (reg_predict (ForecasterAutoreg.regressor f2) <$> X) 95123) as Hb.
    pose proof (binning_differentiator f2 yt
                  (reg_predict (ForecasterAutoreg.regressor f2) <$> X) 95123) as Hbd.
    destruct (ForecasterAutoreg._binning_in_sample_residuals f2 yt _ 95123) as [rb f3].
    simpl in Hb, Hbd. destruct Hb as (_ & Hl & Hml & Hws & Hwsd & Hd & _).
    assert (ForecasterAutoreg.well_formed f3) as Hwf3
      by (apply (well_formed_ext f2); try done; by left).
    destruct rb as [[]|e]; [|done]. by destruct store_last_window.
  - by destruct store_last_window.
Qed.

(** X14. [fit], [predict], [predict_bootstrapping] and
    [set_out_sample_residuals] keep the invariant of the forecaster,
    whatever their arguments and whether they return or raise: the lags
    lie between 1 and [max_lag], [window_size] is [max_lag], and
    [window_size_diff] is [max_lag] plus the differencing order, which
    comes with a differentiator of that order. *)
Theorem well_formed_kept f :
  ForecasterAutoreg.well_formed f →
  (∀ y exog store_last_window store_in_sample_residuals,
     ForecasterAutoreg.well_formed
       (ForecasterAutoreg.fit (G := G) f y exog store_last_window
          store_in_sample_residuals).2)
  ∧ (∀ steps last_window exog check_inputs,
       ForecasterAutoreg.well_formed
         (ForecasterAutoreg.predict (G := G) f steps last_window exog check_inputs).2)
  ∧ (∀ steps last_window exog n_boot random_state in_sample_residuals binned_residuals,
       ForecasterAutoreg.well_formed
         (ForecasterAutoreg.predict_bootstrapping (G := G) f steps last_window exog n_boot
            random_state in_sample_residuals binned_residuals).2)
  ∧ (∀ residuals y_pred append transform random_state,
       ForecasterAutoreg.well_formed
         (ForecasterAutoreg.set_out_sample_residuals (G := G) f residuals y_pred append
            transform random_state).2).
Proof.
  intros Hwf. split; [|split; [|split]].
  - intros. by apply fit_well_formed.
  - intros steps lw exog ci. unfold ForecasterAutoreg.predict.
    pose proof (create_predict_inputs_well_formed f steps lw exog false true false ci Hwf).
    by destruct (ForecasterAutoreg._create_predict_inputs _ _ _ _ _ _ _ _)
      as [[[w ex]|e] f'].
  - intros steps lw exog n_boot seed isr br.
    unfold ForecasterAutoreg.predict_bootstrapping.
    pose proof (create_predict_inputs_well_formed f steps lw exog true isr br true Hwf).
    by destruct (ForecasterAutoreg._create_predict_inputs _ _ _ _ _ _ _ _)
      as [[[w ex]|e] f'].
  - intros residuals y_pred append transform seed.
    pose proof (set_out_sample_residuals_frame f residuals y_pred append transform seed)
      as Hf. simpl in Hf. rewrite Hf. exact Hwf.
Qed.

End Invariant.

(** ** The predictors of [create_predict_X] *)

Section CreatePredictX.
Context {V R T B G : Type}.
Context `{!Numeric V, !Regressor V R, !Transformer V T, !Discretizer V B,
          !Generator V G, !InputCheck V, !TransformerShape V T}.
Abbreviation forecaster := (ForecasterAutoreg.t (V := V) (R := R) (T := T) (B := B)).
Implicit Types (f : forecaster).

Lemma predictors_of_history (lags : list Z) (steps : Z) (w preds : list V) :
  0 ≤ steps → Py.len preds = steps →
  Forall (λ lag, 1 ≤ lag ≤ Py.len w) lags →
  ForecasterAutoreg.predictors_of lags steps (w ++ preds)
  = Ok ((λ i, ForecasterAutoreg.lagged_row lags (w ++ take (Z.to_nat i) preds))
        <$> Py.range steps).
Proof.
  intros Hsteps Hlen Hlags. unfold ForecasterAutoreg.predictors_of, Py.range2, Py.range.
  replace (0 - - steps) with steps by lia.
  replace (seqZ (- steps) steps) with ((λ i, i - steps) <$> seqZ 0 steps).
  2: { transitivity (Z.add (- steps) <$> seqZ 0 steps).
       - apply list_fmap_ext. intros; lia.
       - rewrite fmap_add_seqZ. f_equal. lia. }
  rewrite mapM_fmap. apply mapM_Ok. apply Forall_forall. intros i Hi.
  apply elem_of_seqZ in Hi. simpl.
  unfold Py.take_indices, ForecasterAutoreg.lagged_row. rewrite mapM_fmap. apply mapM_Ok.
  eapply Forall_impl; [exact Hlags|]. intros lag Hlag. simpl.
  assert (Z.to_nat (Py.len (w ++ take (Z.to_nat i) preds) - lag) < length (w ++ preds))%nat
    as Hlt by solve_len.
  destruct (lookup_lt_is_Some_2 _ _ Hlt) as [v Hv].
  assert ((w ++ take (Z.to_nat i) preds)
            !! Z.to_nat (Py.len (w ++ take (Z.to_nat i) preds) - lag) = Some v) as ->.
  { rewrite <- Hv. rewrite !lookup_app.
    destruct (w !! _) as [x|] eqn:Ew; [done|].
    apply lookup_ge_None in Ew. apply lookup_take_lt. solve_len. }
  simpl. apply getitem_pos; [solve_len|].
  rewrite <- Hv. f_equal. solve_len.
Qed.

(** X15. Without transformer of [y] and without differencing, on accepted
    inputs with a window of at least [window_size_diff] values and at
    least [steps] rows of [exog], [create_predict_X] returns [steps] rows;
    row [i] holds the lags read from the last window followed by the
    first [i] predictions, then the row [i] of [exog]; and the regressor
    applied to the rows gives the predictions of [predict]. The forecaster
    is unchanged. *)
Theorem create_predict_X_rows f (steps : Z) (last_window : option (list V))
    (exog : option (list (list V))) (w : list V) :
  ForecasterAutoreg.transformer_y f = None →
  ForecasterAutoreg.differentiation f = None →
  match last_window with
  | Some _ => last_window
  | None => ForecasterAutoreg.last_window_ f
  end = Some w →
  check_predict_input (ForecasterAutoreg.predict_check_args f steps (Some w) exog) = None →
  0 ≤ steps →
  0 < ForecasterAutoreg.window_size_diff f ≤ Py.len w →
  Forall (λ lag, 1 ≤ lag ≤ ForecasterAutoreg.window_size_diff f) (ForecasterAutoreg.lags f) →
  (∀ ex, exog = Some ex → steps ≤ Py.len ex) →
  let window := Py.slice_from w (- ForecasterAutoreg.window_size_diff f) in
  let exog_values := ForecasterAutoreg.prepare_exog f steps exog in
  ∃ X_predict predictions,
    ForecasterAutoreg.create_predict_X (G := G) f steps last_window exog = (Ok X_predict, f)
    ∧ ForecasterAutoreg.predict (G := G) f steps last_window exog true = (Ok predictions, f)
    ∧ Py.len X_predict = steps
    ∧ reg_predict (ForecasterAutoreg.regressor f) <$> X_predict = predictions
    ∧ ∀ i, 0 ≤ i < steps →
        X_predict !! Z.to_nat i
        = Some (ForecasterAutoreg.lagged_row (ForecasterAutoreg.lags f)
                  (window ++ take (Z.to_nat i) predictions)
                ++ ForecasterAutoreg.exog_row exog_values i).
Proof.
  intros Hty Hd Hw Hcheck Hsteps Hwsd Hlags Hexog window exog_values.
  assert (Py.len window = ForecasterAutoreg.window_size_diff f) as Hlenw.
  { unfold window. rewrite slice_from_neg by lia. solve_len. }
  assert (∀ ci, ForecasterAutoreg._create_predict_inputs f steps last_window exog false true
                  false ci = (Ok (window, exog_values), f)) as Hin.
  { intros ci. unfold ForecasterAutoreg._create_predict_inputs. rewrite Hw, Hcheck.
    assert ((if ci then ForecasterAutoreg.check_out_sample_residuals f false true false
             else Ok ()) = Ok ()) as -> by (by destruct ci).
    unfold ForecasterAutoreg.prepare_last_window. rewrite Hd, Hty.
    by rewrite transform_numpy_None. }
  assert (∀ ex, exog_values = Some ex → steps ≤ Py.len ex) as Hexv.
  { unfold exog_values, ForecasterAutoreg.prepare_exog. intros ex' Hex'.
    destruct exog as [ex|]; [|done]. injection Hex' as <-.
    specialize (Hexog ex eq_refl).
    pose proof (transform_matrix_shape ex (ForecasterAutoreg.transformer_exog f) false false)
      as Hs%same_shape_length.
    rewrite slice_to_take by done. solve_len. }
  destruct (recursive_predict_autoregression f steps window exog_values None)
    as (preds & Hrun & Hlen & Hspec); [done| |done|].
  { eapply Forall_impl; [exact Hlags|]. intros lag ?. simpl in *. rewrite Hlenw. lia. }
  assert (ForecasterAutoreg.predict (G := G) f steps last_window exog true = (Ok preds, f))
    as Hpred.
  { unfold ForecasterAutoreg.predict. rewrite Hin, Hrun. cbn [mbind result_bind].
    unfold ForecasterAutoreg.undo_differentiation. rewrite Hd, Hty.
    cbn [mbind result_bind]. by rewrite transform_numpy_None. }
  set (X := (λ i, ForecasterAutoreg.lagged_row (ForecasterAutoreg.lags f)
                    (window ++ take (Z.to_nat i) preds)) <$> Py.range steps).
  assert (Py.len X = steps) as HlenX by (unfold X, Py.range; solve_len).
  set (Xe := match exog_values with Some ev => zip_with app X ev | None => X end).
  assert (∀ i, 0 ≤ i < steps →
            Xe !! Z.to_nat i
            = Some (ForecasterAutoreg.lagged_row (ForecasterAutoreg.lags f)
                      (window ++ take (Z.to_nat i) preds)
                    ++ ForecasterAutoreg.exog_row exog_values i)) as Hrows.
  { intros i Hi.
    assert (X !! Z.to_nat i
            = Some (ForecasterAutoreg.lagged_row (ForecasterAutoreg.lags f)
                      (window ++ take (Z.to_nat i) preds))) as HX.
    { unfold X, Py.range. rewrite list_lookup_fmap, lookup_seqZ_lt by lia. simpl.
      by rewrite Z.add_0_l, Z2Nat.id by lia. }
    unfold Xe, ForecasterAutoreg.exog_row. destruct exog_values as [ev|].
    - specialize (Hexv ev eq_refl).
      destruct (lookup_lt_is_Some_2 ev (Z.to_nat i)) as [row Hrow]; [zlia|].
      rewrite lookup_zip_with, HX, Hrow. done.
    - rewrite HX. by rewrite app_nil_r. }
  assert (Py.len Xe = steps) as HlenXe.
  { unfold Xe. destruct exog_values as [ev|]; [|done].
    specialize (Hexv ev eq_refl). unfold Py.len in *. rewrite length_zip_with. lia. }
  exists Xe, preds. split; [|split; [done|split; [done|split; [|done]]]].
  - unfold ForecasterAutoreg.create_predict_X. rewrite Hpred, Hin.
    rewrite predictors_of_history; [|done|done|].
    2: { eapply Forall_impl; [exact Hlags|]. intros lag ?. simpl in *. rewrite Hlenw. lia. }
    cbn [mbind result_bind]. fold X. f_equal. unfold Xe.
    destruct exog_values as [ev|] eqn:Eev; [|done].
    unfold ForecasterAutoreg.concatenate_columns. rewrite decide_True; [done|].
    unfold exog_values, ForecasterAutoreg.prepare_exog in Eev.
    destruct exog as [ex|]; [|done]. injection Eev as <-.
    specialize (Hexog ex eq_refl).
    pose proof (transform_matrix_shape ex (ForecasterAutoreg.transformer_exog f) false false)
      as Hs%same_shape_length.
    rewrite slice_to_take by done. solve_len.
  - apply list_eq. intros i. rewrite list_lookup_fmap.
    destruct (decide (Z.of_nat i < steps)) as [Hi|Hi].
    + specialize (Hrows (Z.of_nat i) ltac:(lia)). rewrite Nat2Z.id in Hrows.
      rewrite Hrows. simpl.
      destruct (Hspec (Z.of_nat i) ltac:(lia)) as (X0 & pred & _ & -> & -> & Hp & _).
      by rewrite Nat2Z.id in Hp.
    + rewrite (proj2 (lookup_ge_None Xe i)) by zlia.
      by rewrite (proj2 (lookup_ge_None preds i)) by zlia.
Qed.

End CreatePredictX.

(** ** The training lags of the direct forecaster *)

Section DirectLags.
Context {V R T G : Type}.
Context `{!Numeric V, !Regressor V R, !Transformer V T, !Generator V G, !InputCheck V}.
Abbreviation direct := (ForecasterAutoregMultiVariate.t (V := V) (R := R) (T := T)).
Implicit Types (f : direct).

(** X16. [_create_lags] of the direct forecaster, asked for both
    matrices, on a series with at least one training row: both have
    [len(y) - window_size - (steps - 1)] rows; row [r] of [X_data] holds
    the lags read back from position [window_size + r], and row [r] of
    [y_data] holds the [steps] values from that position on. *)
Theorem direct_lags_alignment f (y : list V) (lags : list Z) :
  1 ≤ ForecasterAutoregMultiVariate.steps f →
  0 ≤ ForecasterAutoregMultiVariate.window_size f →
  Forall (λ lag, 1 ≤ lag ≤ ForecasterAutoregMultiVariate.window_size f) lags →
  let n_rows := Py.len y - ForecasterAutoregMultiVariate.window_size f
                - (ForecasterAutoregMultiVariate.steps f - 1) in
  0 < n_rows →
  ∃ X_data y_data,
    ForecasterAutoregMultiVariate._create_lags f y lags (Some "both"%string)
    = Ok (Some X_data, Some y_data)
    ∧ Py.len X_data = n_rows ∧ Py.len y_data = n_rows
    ∧ ∀ r, 0 ≤ r < n_rows →
        X_data !! Z.to_nat r
        = Some (ForecasterAutoreg.lagged_row lags
                  (take (Z.to_nat (ForecasterAutoregMultiVariate.window_size f + r)) y))
        ∧ y_data !! Z.to_nat r
          = Some (take (Z.to_nat (ForecasterAutoregMultiVariate.steps f))
                    (drop (Z.to_nat (ForecasterAutoregMultiVariate.window_size f + r)) y)).
Proof.
  intros Hsteps Hws Hlags n_rows Hrows.
  set (ws := ForecasterAutoregMultiVariate.window_size f) in *.
  set (st := ForecasterAutoregMultiVariate.steps f) in *.
  assert (Py.len y = n_rows + ws + st - 1) as Hn by (unfold n_rows; lia).
  assert (mapM (λ lag, ForecasterAutoreg.assign_column n_rows
                         (Py.slice y (ws - lag) (- (lag + st - 1)))) lags
          = Ok ((λ lag, Py.slice y (ws - lag) (Py.len y - (lag + st - 1))) <$> lags)) as HX.
  { apply mapM_Ok. eapply Forall_impl; [exact Hlags|]. intros lag Hlag. simpl in *.
    rewrite slice_neg_stop by lia.
    replace (Py.len y + - (lag + st - 1)) with (Py.len y - (lag + st - 1)) by lia.
    unfold ForecasterAutoreg.assign_column.
    destruct (slice_in_range y (ws - lag) (Py.len y - (lag + st - 1))) as [_ ->];
      [lia|lia|]. by rewrite decide_True by lia. }
  assert (mapM (λ step, ForecasterAutoreg.assign_column n_rows
                          (Py.slice y (ws + step) (ws + step + n_rows))) (Py.range st)
          = Ok ((λ step, Py.slice y (ws + step) (ws + step + n_rows)) <$> Py.range st)) as HY.
  { apply mapM_Ok. apply Forall_forall. intros step Hstep. unfold Py.range in Hstep.
    apply elem_of_seqZ in Hstep. unfold ForecasterAutoreg.assign_column.
    destruct (slice_in_range y (ws + step) (ws + step + n_rows)) as [_ ->];
      [lia|lia|]. by rewrite decide_True by lia. }
  unfold ForecasterAutoregMultiVariate._create_lags. fold ws st n_rows.
  rewrite decide_True by done. unfold ForecasterAutoreg.full_2d.
  pose proof (len_nonneg lags) as Hl0.
  rewrite decide_False by lia. cbn [mbind result_bind].
  rewrite HX. cbn [mbind result_bind]. rewrite decide_True by done.
  rewrite decide_False by lia. cbn [mbind result_bind]. rewrite HY.
  cbn [mbind result_bind]. eexists _, _. split; [done|].
  split; [apply rows_of_columns_len; lia|]. split; [apply rows_of_columns_len; lia|].
  intros r Hr. rewrite !rows_of_columns_lookup by lia. split; f_equal.
  - unfold ForecasterAutoreg.lagged_row. rewrite <- list_fmap_compose.
    apply Forall_fmap_ext_1. eapply Forall_impl; [exact Hlags|].
    intros lag Hlag. simpl in *.
    destruct (slice_in_range y (ws - lag) (Py.len y - (lag + st - 1))) as [-> _];
      [lia|lia|].
    rewrite lookup_take_lt, lookup_drop by lia.
    assert (Py.len (take (Z.to_nat (ws + r)) y) = ws + r) as -> by solve_len.
    rewrite lookup_take_lt by lia. do 2 f_equal. lia.
  - rewrite <- list_fmap_compose. apply list_eq. intros j.
    unfold Py.range. rewrite list_lookup_fmap.
    destruct (decide (Z.of_nat j < st)) as [Hj|Hj].
    + rewrite lookup_seqZ_lt by lia. simpl.
      destruct (slice_in_range y (ws + (0 + Z.of_nat j)) (ws + (0 + Z.of_nat j) + n_rows))
        as [-> _]; [lia|lia|].
      rewrite lookup_take_lt, lookup_drop by lia.
      rewrite lookup_take_lt, lookup_drop by lia.
      assert (Z.to_nat (ws + (0 + Z.of_nat j)) + Z.to_nat r < length y)%nat as Hlt by zlia.
      destruct (lookup_lt_is_Some_2 _ _ Hlt) as [v Hv]. rewrite Hv. simpl.
      rewrite <- Hv. f_equal. lia.
    + rewrite lookup_seqZ_ge by lia. simpl.
      symmetry. apply lookup_ge_None. rewrite length_take. lia.
Qed.

End DirectLags.

(** ** The out-of-sample residuals of the direct forecaster *)

Section DirectResiduals.
Context {V R T G : Type}.
Context `{!Numeric V, !Regressor V R, !Transformer V T, !Generator V G, !InputCheck V,
          !GeneratorLaws V G}.
Abbreviation direct := (ForecasterAutoregMultiVariate.t (V := V) (R := R) (T := T)).
Implicit Types (f : direct) (stored : gmap Z (option (list V))).

Lemma store_step_residuals_spec (append : bool) (seed : Z) stored (key : Z) (value : list V) :
  is_Some (stored !! key) →
  ∃ value',
    ForecasterAutoregMultiVariate.store_step_residuals (G := G) append seed stored (key, value)
    = Ok (<[key := Some value']> stored)
    ∧ ((∀ old, stored !! key = Some (Some old) → Py.len old ≤ 1000) →
       Py.len value' ≤ 1000)
    ∧ (append = true → ∀ old, stored !! key = Some (Some old) → old `prefix_of` value')
    ∧ (append = false ∨ stored !! key = Some None → Py.len value ≤ 1000 → value' = value).
Proof.
  intros [old Hold]. unfold ForecasterAutoregMultiVariate.store_step_residuals.
  set (v1 := if decide (1000 < Py.len value) then _ else value).
  assert (Py.len v1 ≤ 1000) as Hv1.
  { unfold v1. destruct (decide (1000 < Py.len value)) as [Hlt|]; [|lia].
    unfold Py.len at 1. rewrite rng_choice_length; [lia| |zlia].
    left. intros E. rewrite E in Hlt. solve_len. }
  assert (Py.len value ≤ 1000 → v1 = value) as Hsame.
  { intros Hle. unfold v1. by rewrite decide_False by lia. }
  clearbody v1. rewrite Hold. destruct append; cbn [mbind result_bind of_option].
  - destruct old as [old|].
    + destruct (decide (Py.len v1 < Z.max 0 (1000 - Py.len old))) as [Hlt|Hge];
        cbn [mbind result_bind]; eexists; (split; [done|]).
      * split; [|split].
        -- intros Hcap. rewrite len_app. pose proof (len_nonneg v1). lia.
        -- intros _ o [= <-]. by eexists.
        -- intros [?|?]; done.
      * split; [|split].
        -- intros Hcap. specialize (Hcap old eq_refl). rewrite len_app.
           pose proof (len_slice_to_le v1 (Z.max 0 (1000 - Py.len old)) ltac:(lia)). lia.
        -- intros _ o [= <-]. by eexists.
        -- intros [?|?]; done.
    + eexists. split; [done|]. split; [done|]. split; [done|]. intros _. exact Hsame.
  - eexists. split; [done|]. split; [done|]. split; [done|]. intros _. exact Hsame.
Qed.

Lemma store_loop_spec (append : bool) (seed : Z) (l : list (Z * list V)) stored :
  NoDup l.*1 →
  (∀ kv, kv ∈ l → is_Some (stored !! kv.1)) →
  ∃ stored',
    foldM (ForecasterAutoregMultiVariate.store_step_residuals (G := G) append seed) l stored
    = Ok stored'
    ∧ (∀ k, k ∉ l.*1 → stored' !! k = stored !! k)
    ∧ ∀ k value, (k, value) ∈ l →
        ∃ value',
          stored' !! k = Some (Some value')
          ∧ ((∀ old, stored !! k = Some (Some old) → Py.len old ≤ 1000) →
             Py.len value' ≤ 1000)
          ∧ (append = true → ∀ old, stored !! k = Some (Some old) → old `prefix_of` value')
          ∧ (append = false ∨ stored !! k = Some None → Py.len value ≤ 1000 →
             value' = value).
Proof.
  revert stored. induction l as [|[k0 v0] l IH]; intros stored Hnd Hin.
  - exists stored. split; [done|]. split; [done|]. by intros k v ?%elem_of_nil.
  - apply NoDup_cons in Hnd as [Hk0 Hnd]. simpl in Hk0.
    destruct (store_step_residuals_spec append seed stored k0 v0) as (v1 & Hstep & Hv1).
    { apply (Hin (k0, v0)). left. }
    destruct (IH (<[k0 := Some v1]> stored) Hnd) as (stored' & Hrun & Hout & Hupd).
    { intros [k v] Hkv. simpl. destruct (decide (k = k0)) as [->|Hne].
      - rewrite lookup_insert_eq. by eexists.
      - rewrite lookup_insert_ne by done. apply (Hin (k, v)). by right. }
    exists stored'. cbn [foldM]. rewrite Hstep. cbn [mbind result_bind].
    split; [done|]. split.
    + intros k Hk. simpl in Hk. apply not_elem_of_cons in Hk as [Hne Hk].
      rewrite Hout by done. by rewrite lookup_insert_ne.
    + intros k v [[= -> ->]|Hkv]%elem_of_cons.
      * exists v1. split; [|done]. rewrite Hout by done. by rewrite lookup_insert_eq.
      * assert (k ≠ k0) as Hne.
        { intros ->. apply Hk0. apply list_elem_of_fmap. by exists (k0, v). }
        destruct (Hupd k v Hkv) as (v' & Hv' & Hcap).
        rewrite lookup_insert_ne in Hcap by done. by exists v'.
Qed.

(** X17. [set_out_sample_residuals] of the direct forecaster raises
    [NotFittedError] before a fit and otherwise returns. When nothing was
    stored before, the stored steps are exactly 1, ..., [steps]. The
    residuals of a step that is not stored are ignored, and a step without
    new residuals is left as it was. An updated step holds at most 1000
    values if it did before, keeps the old values in front when [append]
    is true, and holds the new values, transformed if asked, when they are
    at most 1000 and either [append] is false or the step was empty. *)
Theorem direct_out_sample_residuals f (residuals : gmap Z (list V))
    (append transform : bool) (seed : Z) :
  let run := ForecasterAutoregMultiVariate.set_out_sample_residuals (G := G) f residuals append
               transform seed in
  let stored :=
    match ForecasterAutoregMultiVariate.out_sample_residuals_ f with
    | None =>
        list_to_map ((λ step, (step, None))
                     <$> Py.range2 1 (ForecasterAutoregMultiVariate.steps f + 1))
    | Some stored => stored
    end in
  (ForecasterAutoregMultiVariate.is_fitted f = false → run = (Raise NotFittedError, f))
  ∧ (ForecasterAutoregMultiVariate.is_fitted f = true →
     ∀ tr,
       ForecasterAutoregMultiVariate.series_transformer f
         (ForecasterAutoregMultiVariate.level f) = Ok tr →
     let new value := match transform, tr with
                      | true, Some _ => (transform_numpy value tr false false).2
                      | _, _ => value
                      end in
     ∃ stored',
       run = (Ok (), ForecasterAutoregMultiVariate.with_out_sample_residuals f (Some stored'))
       ∧ (ForecasterAutoregMultiVariate.out_sample_residuals_ f = None →
          ∀ k, is_Some (stored !! k) ↔ 1 ≤ k ≤ ForecasterAutoregMultiVariate.steps f)
       ∧ (∀ k, residuals !! k = None ∨ stored !! k = None → stored' !! k = stored !! k)
       ∧ ∀ k value, residuals !! k = Some value → is_Some (stored !! k) →
           ∃ value',
             stored' !! k = Some (Some value')
             ∧ ((∀ old, stored !! k = Some (Some old) → Py.len old ≤ 1000) →
                Py.len value' ≤ 1000)
             ∧ (append = true → ∀ old, stored !! k = Some (Some old) →
                old `prefix_of` value')
             ∧ (append = false ∨ stored !! k = Some None → Py.len (new value) ≤ 1000 →
                value' = new value)).
Proof.
  intros run stored. subst run.
  unfold ForecasterAutoregMultiVariate.set_out_sample_residuals. fold stored. split.
  - by intros ->.
  - intros -> tr Htr. cbn [negb].
    set (new := λ value : list V,
                  match transform, tr with
                  | true, Some _ => (transform_numpy value tr false false).2
                  | _, _ => value
                  end).
    change (ForecasterAutoregMultiVariate.series_transformer
              (ForecasterAutoregMultiVariate.with_out_sample_residuals f (Some stored))
              (ForecasterAutoregMultiVariate.level _))
      with (ForecasterAutoregMultiVariate.series_transformer f
              (ForecasterAutoregMultiVariate.level f)).
    rewrite Htr.
    set (filtered := filter (λ kv : Z * list V, is_Some (stored !! kv.1)) residuals).
    set (m := match transform, tr with
              | true, Some _ => (λ value, (transform_numpy value tr false false).2) <$> filtered
              | _, _ => filtered
              end).
    assert (m = new <$> filtered) as Hm.
    { unfold m, new. destruct transform; [destruct tr|]; try done; by rewrite map_fmap_id. }
    assert (∀ k v', m !! k = Some v' ↔
                    ∃ v, residuals !! k = Some v ∧ is_Some (stored !! k) ∧ v' = new v)
      as Hlook.
    { intros k v'. rewrite Hm, lookup_fmap. unfold filtered. split.
      - intros (v & Hv & ->)%fmap_Some. apply map_lookup_filter_Some in Hv as [Hv Hs].
        by exists v.
      - intros (v & Hv & Hs & ->). apply fmap_Some. exists v. split; [|done].
        by apply map_lookup_filter_Some. }
    destruct (store_loop_spec append seed (map_to_list m) stored) as (stored' & Hrun & Hout & Hupd).
    { apply NoDup_fst_map_to_list. }
    { intros [k v] Hkv. apply elem_of_map_to_list in Hkv. apply Hlook in Hkv. simpl.
      by destruct Hkv as (? & ? & ? & ?). }
    rewrite Hrun. exists stored'. split; [done|]. split; [|split].
    + intros Hnone k. unfold stored. rewrite Hnone.
      set (l := (λ step : Z, (step, @None (list V)))
                <$> Py.range2 1 (ForecasterAutoregMultiVariate.steps f + 1)).
      assert (k ∈ l.*1 ↔ 1 ≤ k ≤ ForecasterAutoregMultiVariate.steps f) as Hk.
      { assert (∀ xs : list Z, ((λ step : Z, (step, @None (list V))) <$> xs).*1 = xs) as E.
        { induction xs as [|x xs IHxs]; [done|]. csimpl. by rewrite IHxs. }
        unfold l. rewrite E. unfold Py.range2. rewrite elem_of_seqZ. lia. }
      rewrite <- Hk. split.
      * intros [v Hv]. apply elem_of_list_to_map_2 in Hv.
        apply list_elem_of_fmap. by exists (k, v).
      * intros Hin. destruct (list_to_map l !! k) as [v|] eqn:E; [by eexists|].
        by apply not_elem_of_list_to_map_2 in E.
    + intros k Hk. apply Hout. intros Hin.
      apply list_elem_of_fmap in Hin as ([k' v'] & -> & Hkv). simpl in *.
      apply elem_of_map_to_list, Hlook in Hkv as (v & Hv & [o Ho] & _).
      destruct Hk as [Hk|Hk]; congruence.
    + intros k value Hv Hs.
      destruct (Hupd k (new value)) as (value' & Hv' & Hrest).
      { apply elem_of_map_to_list, Hlook. by exists value. }
      by exists value'.
Qed.

End DirectResiduals.

(** ** Construction and [set_lags] *)

Section Lags.
Context {V R T B G : Type}.
Context `{!Numeric V, !Regressor V R, !Transformer V T, !Discretizer V B,
          !Generator V G, !InputCheck V}.
Abbreviation forecaster := (ForecasterAutoreg.t (V := V) (R := R) (T := T) (B := B)).
Implicit Types (f : forecaster).

Lemma initialize_lags_Ok (lags : ForecasterAutoreg.lags_arg) (l : list Z) :
  ForecasterAutoreg.initialize_lags lags = Ok l → l ≠ [] ∧ Forall (λ lag, 1 ≤ lag) l.
Proof.
  unfold ForecasterAutoreg.initialize_lags. destruct lags as [n|l0].
  - destruct (decide (n < 1)); [done|]. intros [= <-]. unfold Py.range2. split.
    + intros E. apply (f_equal length) in E. rewrite length_seqZ in E. simpl in E. lia.
    + apply Forall_forall. intros lag Hlag. apply elem_of_seqZ in Hlag. lia.
  - destruct (decide (l0 = [])); [done|].
    destruct (decide (Forall _ l0)); [|done]. by intros [= <-].
Qed.

Lemma lags_within_max (l : list Z) (m : Z) :
  Forall (λ lag, 1 ≤ lag) l → Py.max_list l = Ok m → Forall (λ lag, 1 ≤ lag ≤ m) l.
Proof.
  intros Hl Hm. destruct (max_list_Ok l) as (m' & Hm' & Hle).
  { intros ->. done. }
  rewrite Hm in Hm'. injection Hm' as <-.
  apply Forall_forall. intros lag Hlag. rewrite Forall_forall in Hl, Hle.
  split; [by apply Hl|by apply Hle].
Qed.

(** X18. On a well-formed forecaster, [set_lags] raises what
    [initialize_lags] raises, the forecaster unchanged; otherwise it
    returns, the forecaster is well formed again, [max_lag] is the largest
    of the new lags, [window_size_diff] is [max_lag] plus the differencing
    order, and the fitted flag, the stored last window and the regressor
    are the ones of before the call. *)
Theorem set_lags_window_sizes f (lags : ForecasterAutoreg.lags_arg) :
  ForecasterAutoreg.well_formed f →
  let r := ForecasterAutoreg.set_lags f lags in
  match ForecasterAutoreg.initialize_lags lags with
  | Raise e => r = (Raise e, f)
  | Ok l =>
      r.1 = Ok ()
      ∧ ForecasterAutoreg.well_formed r.2
      ∧ ForecasterAutoreg.lags r.2 = l
      ∧ Forall (λ lag, lag ≤ ForecasterAutoreg.max_lag r.2) l
      ∧ ForecasterAutoreg.max_lag r.2 ∈ l
      ∧ ForecasterAutoreg.window_size_diff r.2
        = ForecasterAutoreg.max_lag r.2 + ForecasterAutoreg.diff_order f
      ∧ ForecasterAutoreg.is_fitted r.2 = ForecasterAutoreg.is_fitted f
      ∧ ForecasterAutoreg.last_window_ r.2 = ForecasterAutoreg.last_window_ f
      ∧ ForecasterAutoreg.regressor r.2 = ForecasterAutoreg.regressor f
  end.
Proof.
  intros (Hne & Hlags & Hws & Hdiff) r. subst r. unfold ForecasterAutoreg.set_lags.
  destruct (ForecasterAutoreg.initialize_lags lags) as [l|e] eqn:El; [|done].
  apply initialize_lags_Ok in El as [Hlne Hl1].
  destruct (max_list_Ok l Hlne) as (m & Hm & Hle). rewrite Hm. simpl.
  pose proof (lags_within_max l m Hl1 Hm) as Hwithin.
  split; [done|]. split.
  { unfold ForecasterAutoreg.well_formed. simpl. split; [done|]. split; [done|].
    split; [done|]. destruct (ForecasterAutoreg.differentiation f) as [d|]; [|done].
    destruct Hdiff as (H1 & _ & Hdd). done. }
  split; [done|]. split; [done|]. split.
  { destruct l as [|x l]; [done|]. injection Hm as <-.
    clear. revert x. induction l as [|y l IH]; intros x; simpl; [left|].
    pose proof (IH (Z.max x y)) as Hin. apply elem_of_cons in Hin as [E|Hin].
    - rewrite E. destruct (Z.max_spec x y) as [[_ ->]|[_ ->]]; [right; left|left].
    - right. by right. }
  split; [|done]. unfold ForecasterAutoreg.diff_order.
  destruct (ForecasterAutoreg.differentiation f); simpl; lia.
Qed.

(** X19. [__init__] either returns a well-formed forecaster that is not
    fitted, holds the weight function it was given, has no last window,
    no residuals and no binner intervals, and whose [window_size_diff] is
    [max_lag] plus the differencing order, which is at least 1 when
    given; or it raises what [initialize_lags] raises, or the
    [ValueError] of a differencing order below 1. *)
Theorem init_well_formed (regressor : R) (lags : ForecasterAutoreg.lags_arg)
    (transformer_y transformer_exog : option T) (differentiation : option Z) (binner0 : B)
    (weight_func : option (list Z → option (list V))) :
  match (ForecasterAutoreg.init regressor lags transformer_y transformer_exog differentiation
           binner0 weight_func : result forecaster) with
  | Ok f =>
      ForecasterAutoreg.well_formed f
      ∧ ForecasterAutoreg.weight_func f = weight_func
      ∧ ForecasterAutoreg.is_fitted f = false
      ∧ ForecasterAutoreg.last_window_ f = None
      ∧ ForecasterAutoreg.in_sample_residuals_ f = None
      ∧ ForecasterAutoreg.out_sample_residuals_ f = None
      ∧ ForecasterAutoreg.in_sample_residuals_by_bin_ f = None
      ∧ ForecasterAutoreg.out_sample_residuals_by_bin_ f = None
      ∧ ForecasterAutoreg.binner_intervals f = None
      ∧ ForecasterAutoreg.window_size_diff f
        = ForecasterAutoreg.max_lag f + default 0 differentiation
      ∧ (∀ d, differentiation = Some d → 1 ≤ d)
  | Raise e =>
      (∃ e', ForecasterAutoreg.initialize_lags lags = Raise e' ∧ e = e')
      ∨ (∃ d, differentiation = Some d ∧ d < 1
              ∧ e = ValueError "differentiation must be an integer equal to or greater than 1")
  end.
Proof.
  unfold ForecasterAutoreg.init.
  destruct (ForecasterAutoreg.initialize_lags lags) as [l|e] eqn:El; cbn [mbind result_bind].
  2: { left. by exists e. }
  apply initialize_lags_Ok in El as [Hlne Hl1].
  destruct (max_list_Ok l Hlne) as (m & Hm & Hle). rewrite Hm. cbn [mbind result_bind].
  pose proof (lags_within_max l m Hl1 Hm) as Hwithin.
  destruct differentiation as [d|].
  - destruct (decide (d < 1)) as [Hd|Hd].
    + right. by exists d.
    + unfold ForecasterAutoreg.well_formed. simpl.
      repeat split; try done; try lia.
      * by eexists.
      * intros d' [= <-]. lia.
  - unfold ForecasterAutoreg.well_formed. simpl. repeat split; try done; lia.
Qed.

End Lags.

(** ** The residual checks of the direct bootstrapping *)

Section DirectBootstrapping.
Context {V R T G : Type}.
Context `{!Numeric V, !Regressor V R, !Transformer V T, !Generator V G, !InputCheck V}.
Abbreviation direct := (ForecasterAutoregMultiVariate.t (V := V) (R := R) (T := T)).
Implicit Types (f : direct) (S : list Z) (pool : gmap Z (option (list V))).

Lemma check_residuals_outcome S pool :
  Forall (λ s, is_Some (pool !! s)) S →
  (ForecasterAutoregMultiVariate.check_residuals S pool = Ok ()
   ∧ Forall (ForecasterAutoregMultiVariate.usable_residuals pool) S)
  ∨ ((∃ site, ForecasterAutoregMultiVariate.check_residuals S pool = Raise (ValueError site))
     ∧ ¬ Forall (ForecasterAutoregMultiVariate.usable_residuals pool) S).
Proof.
  unfold ForecasterAutoregMultiVariate.check_residuals.
  induction S as [|s S IH]; intros Hkeys; [left; by split|].
  apply Forall_cons_1 in Hkeys as [[o Ho] Hkeys]. specialize (IH Hkeys).
  cbn [mapM]. rewrite Ho. destruct o as [a|].
  - destruct (existsb isnan a) eqn:Enan.
    + right. split; [by eexists|]. intros Hall. apply Forall_cons_1 in Hall as [(a' & Ha & Hn) _].
      rewrite Ho in Ha. injection Ha as <-. congruence.
    + cbn [mbind result_bind].
      destruct IH as [[Hok Hall]|[[site Hr] Hnot]].
      * left. split.
        -- destruct (mapM _ S); [done|done].
        -- constructor; [by exists a|done].
      * right. split.
        -- exists site. destruct (mapM _ S); [done|done].
        -- intros Hall. apply Forall_cons_1 in Hall as [_ Hall]. done.
  - right. split; [by eexists|]. intros Hall.
    apply Forall_cons_1 in Hall as [(a' & Ha & _) _]. rewrite Ho in Ha. done.
Qed.

Lemma usable_is_Some S pool :
  Forall (ForecasterAutoregMultiVariate.usable_residuals pool) S →
  Forall (λ s, is_Some (pool !! s)) S.
Proof.
  intros Hall. eapply Forall_impl; [exact Hall|].
  intros s (a & Ha & _). by rewrite Ha.
Qed.

(** X20. The residuals are checked before anything else: on a fitted
    direct forecaster, when the residuals of the chosen mode are missing,
    [None] or hold a [NaN] for one of the requested steps,
    [predict_bootstrapping] raises a [ValueError] whatever the other
    arguments. When it returns, the forecaster is fitted, [n_boot] is not
    negative, and the residuals of every requested step are stored without
    [NaN]. *)
Theorem direct_bootstrapping_residual_checks f (steps : steps_arg)
    (last_window : option (list (string * list V))) (exog : option (list (list V)))
    (n_boot random_state : Z) (use_in_sample_residuals : bool) :
  let S := ForecasterAutoregMultiVariate.prepare_steps_direct steps
             (ForecasterAutoregMultiVariate.steps f) in
  let usable :=
    ∃ pool,
      (if use_in_sample_residuals
       then Some (ForecasterAutoregMultiVariate.in_sample_residuals_ f)
       else ForecasterAutoregMultiVariate.out_sample_residuals_ f) = Some pool
      ∧ Forall (ForecasterAutoregMultiVariate.usable_residuals pool) S in
  let run := ForecasterAutoregMultiVariate.predict_bootstrapping (G := G) f steps last_window
               exog n_boot random_state use_in_sample_residuals in
  (ForecasterAutoregMultiVariate.is_fitted f = true → ¬ usable →
     ∃ site, run = Raise (ValueError site))
  ∧ (∀ boot_predictions, run = Ok boot_predictions →
       ForecasterAutoregMultiVariate.is_fitted f = true ∧ usable ∧ 0 ≤ n_boot).
Proof.
  intros S usable run. subst run. unfold ForecasterAutoregMultiVariate.predict_bootstrapping.
  fold S. destruct (ForecasterAutoregMultiVariate.is_fitted f) eqn:Efit.
  - assert ((∃ site, ForecasterAutoregMultiVariate.select_residuals f S
                       use_in_sample_residuals
                     ≫= (λ residuals,
                           ForecasterAutoregMultiVariate.check_residuals S residuals
                           ≫= λ _, Ok (StepsList S, Some (S, residuals)))
                     = Raise (ValueError site)) ∧ ¬ usable
            ∨ (∃ pool, ForecasterAutoregMultiVariate.select_residuals f S
                         use_in_sample_residuals
                       ≫= (λ residuals,
                             ForecasterAutoregMultiVariate.check_residuals S residuals
                             ≫= λ _, Ok (StepsList S, Some (S, residuals)))
                       = Ok (StepsList S, Some (S, pool))) ∧ usable) as Hcases.
    { unfold ForecasterAutoregMultiVariate.select_residuals, usable.
      destruct use_in_sample_residuals.
      - case_bool_decide as Hkeys.
        + cbn [mbind result_bind].
          destruct (check_residuals_outcome S _ Hkeys) as [[-> Hall]|[[site ->] Hnot]].
          * right. split; [by eexists|]. by eexists.
          * left. split; [by eexists|]. intros (pool & [= <-] & Hall). done.
        + left. split; [by eexists|]. intros (pool & [= <-] & Hall).
          by apply usable_is_Some in Hall.
      - destruct (ForecasterAutoregMultiVariate.out_sample_residuals_ f) as [out|].
        + case_bool_decide as Hkeys.
          * cbn [mbind result_bind].
            destruct (check_residuals_outcome S _ Hkeys) as [[-> Hall]|[[site ->] Hnot]].
            -- right. split; [by eexists|]. by eexists.
            -- left. split; [by eexists|]. intros (pool & [= <-] & Hall). done.
          * left. split; [by eexists|]. intros (pool & [= <-] & Hall).
            by apply usable_is_Some in Hall.
        + left. split; [by eexists|]. by intros (pool & ? & _). }
    destruct Hcases as [[[site ->] Hnot]|[[pool ->] Huse]].
    + split; [intros _ _; by exists site|]. intros m Hm. done.
    + split; [intros _ Hnot; done|]. intros m Hm. split; [done|]. split; [done|].
      cbn [mbind result_bind fst snd] in Hm.
      destruct (ForecasterAutoregMultiVariate.predict _ _ _ _ _); [|done].
      cbn [mbind result_bind] in Hm.
      destruct (ForecasterAutoregMultiVariate.series_transformer _ _); [|done].
      cbn [mbind result_bind] in Hm.
      destruct (decide (n_boot < 0)); [done|lia].
  - split; [done|]. intros m Hm. exfalso.
    cbn [mbind result_bind fst snd] in Hm.
    destruct (ForecasterAutoregMultiVariate.predict _ _ _ _ _); [|done].
    cbn [mbind result_bind] in Hm.
    destruct (ForecasterAutoregMultiVariate.series_transformer _ _); [|done].
    cbn [mbind result_bind] in Hm.
    destruct (decide (n_boot < 0)); [done|]. done.
Qed.

End DirectBootstrapping.

(** ** Reproducible ensembles *)

Section LoopsTotal.
Context {S A : Type}.



End LoopsTotal.

Section Reproducibility.
Context {V R T B G : Type}.
Context `{!Numeric V, !Regressor V R, !Transformer V T, !Discretizer V B,
          !Generator V G, !InputCheck V, !TransformerShape V T, !GeneratorLaws V G}.

Abbreviation forecaster := (ForecasterAutoreg.t (V := V) (R := R) (T := T) (B := B)).
Abbreviation direct := (ForecasterAutoregMultiVariate.t (V := V) (R := R) (T := T)).
Implicit Types (f : forecaster) (h : direct).













(** *** The direct forecaster *)







End Reproducibility.

(** ** The concrete collaborators satisfy the laws *)

#[global] Instance shift_shape : TransformerShape (option Q) Concrete.shift.
Proof.
  assert (∀ (g : option Q → option Q) (m : list (list (option Q))),
            same_shape m (fmap (M := list) (fmap (M := list) g) m)) as H.
  { intros g m. unfold same_shape. induction m as [|r m IH]; csimpl; constructor; [|done].
    by rewrite length_fmap. }
  split; intros t m; apply H.
Qed.

#[global] Instance counter_laws : GeneratorLaws (option Q) Concrete.counter.
Proof.
  split. intros g pop n replace Hpop Hsize. simpl. unfold Concrete.draw. simpl.
  destruct replace.
  - by rewrite length_fmap, length_seq.
  - specialize (Hsize eq_refl). unfold Concrete.rotate_from.
    rewrite length_take, length_rotate. lia.
Qed.

#[global] Instance counter_sound : GeneratorSound (option Q) Concrete.counter.
Proof.
  split. intros g pop n replace Hpop. simpl. unfold Concrete.draw. simpl.
  destruct replace.
  - apply Forall_forall. intros v Hv. apply list_elem_of_fmap in Hv as (i & -> & Hi).
    apply elem_of_seq in Hi. destruct Hpop as [Hpop| ->]; [|lia].
    assert (0 < length pop)%nat as Hlen by (destruct pop; [done|simpl; lia]).
    destruct (lookup_lt_is_Some_2 pop ((Z.to_nat g + i) `mod` length pop)) as [x Hx].
    { apply Nat.mod_upper_bound. lia. }
    rewrite Hx. simpl. by eapply list_elem_of_lookup_2.
  - apply Forall_forall. intros v Hv. apply elem_of_take in Hv as (i & Hv & _).
    unfold Concrete.rotate_from in Hv. apply list_elem_of_lookup_2 in Hv.
    by apply elem_of_rotate in Hv.
Qed.

(** ** The scenarios, evaluated *)

Section Scenarios.
Import Concrete.

Lemma mean_forecaster_well_formed : ForecasterAutoreg.well_formed mean_forecaster.
Proof.
  split; [done|]. split; [|done].
  vm_compute. repeat (constructor; [split; discriminate|]). constructor.
Qed.


(** Witness of C1: the forecaster fitted on [1, ..., 10] predicts 9 from
    its stored window, and three recursive steps from [8, 9, 10] exist. *)
Lemma recursive_predict_contract_witness :
  ForecasterAutoreg.predict (G := counter) mean_forecaster 1 None None true
  = (Ok [of_Z 9], mean_forecaster)
  ∧ ∃ preds,
      ForecasterAutoreg._recursive_predict (G := counter) mean_forecaster 3
        (of_Z <$> [8; 9; 10]) None ForecasterAutoreg.ResNone false None = Ok (preds, None)
      ∧ Py.len preds = 3.
Proof.
  split.
  - apply (proj1 recursive_predict_contract estimator shift quantile_binner counter
             _ _ _ _ _ mean_forecaster None);
      [reflexivity|reflexivity|reflexivity|reflexivity|intros row; reflexivity
      |reflexivity|vm_compute; reflexivity|intros _; vm_compute; eexists; reflexivity].
  - destruct (proj2 recursive_predict_contract (option Q) estimator shift quantile_binner
                counter _ _ _ _ _ _ mean_forecaster 3 (of_Z <$> [8; 9; 10]) None None)
      as (preds & Hrun & Hlen & _).
    + lia.
    + vm_compute. repeat (constructor; [split; discriminate|]). constructor.
    + intros ex. discriminate.
    + exists preds. split; [exact Hrun|exact Hlen].
Defined.




(** Witness of C3: the steps 3 and 1, in that order, of the direct
    forecaster of three constants, with an [exog] of three rows: the
    regressor of step 3 is called on the lags followed by the third row,
    then the regressor of step 1 on the lags followed by the first. *)
Lemma direct_predict_contract_witness :
  ∃ preds,
    ForecasterAutoregMultiVariate.predict
      (direct_forecaster (of_Z 1) (of_Z 2) (of_Z 3)) (StepsList [3; 1]) None
      (Some [[of_Z 70]; [of_Z 80]; [of_Z 90]]) true
    = Ok (ForecasterAutoregMultiVariate.Prediction preds
            [(3, of_Z <$> [10; 9; 8; 90]); (1, of_Z <$> [10; 9; 8; 70])])
    ∧ length preds = 2%nat.
Proof.
  destruct (proj1 direct_predict_contract (option Q) estimator shift _ _ _ _ _
              (direct_forecaster (of_Z 1) (of_Z 2) (of_Z 3)) (StepsList [3; 1]) None
              (Some [[of_Z 70]; [of_Z 80]; [of_Z 90]])
              [("y"%string, of_Z <$> [8; 9; 10])] (of_Z <$> [10; 9; 8]) None)
    as [(Xs & preds & Hrun & _ & _ & _ & Hexog & _ & Hlen & Hnone & _) _].
  - discriminate.
  - repeat (constructor; [split; [lia|vm_compute; eexists; reflexivity]|]). constructor.
  - reflexivity.
  - vm_compute. reflexivity.
  - vm_compute. reflexivity.
  - intros ex m [= <-] [= <-]. vm_compute. discriminate.
  - vm_compute. reflexivity.
  - exists preds. rewrite (Hnone eq_refl) in Hrun, Hlen.
    rewrite (Hexog _ 1 eq_refl) in Hrun
      by (repeat (constructor; [reflexivity|]); constructor).
    split; [exact Hrun|exact Hlen].
Defined.


(** Witness of C8, as amended: without differencing [predict_interval]
    leaves the whole forecaster as it was; with differencing [predict]
    from another window keeps the in-sample residuals and the regressor. *)
Lemma predict_frame_condition_witness :
  (ForecasterAutoreg.predict_interval (G := counter) (D := distribution) mean_forecaster 2
     None None [of_Z 5; of_Z 95] 3 123 true false).2
  = mean_forecaster
  ∧ ForecasterAutoreg.in_sample_residuals_
      (ForecasterAutoreg.predict (G := counter) differenced_forecaster 2
         (Some (of_Z <$> [1; 2; 4; 7])) None true).2
    = ForecasterAutoreg.in_sample_residuals_ differenced_forecaster
  ∧ ForecasterAutoreg.regressor
      (ForecasterAutoreg.predict (G := counter) differenced_forecaster 2
         (Some (of_Z <$> [1; 2; 4; 7])) None true).2
    = ForecasterAutoreg.regressor differenced_forecaster.
Proof.
  pose proof (predict_frame_condition (G := counter) (D := distribution) mean_forecaster 2
                None None true [of_Z 5; of_Z 95] [] Uniform 3 123 true false) as Hmean.
  pose proof (predict_frame_condition (G := counter) (D := distribution)
                differenced_forecaster 2 (Some (of_Z <$> [1; 2; 4; 7])) None true [] []
                Uniform 3 123 true false) as Hdiff.
  destruct (Forall_lookup_1 _ _ 3%nat _ Hmean eq_refl)
    as (_ & _ & _ & _ & _ & _ & _ & _ & _ & _ & Hnone).
  destruct (Forall_lookup_1 _ _ 0%nat _ Hdiff eq_refl)
    as (_ & _ & Hres & _ & _ & _ & _ & _ & Hreg & _).
  split; [apply Hnone; reflexivity|]. split; [exact Hres|exact Hreg].
Defined.

(** Counterexample to C8: on the forecaster with differencing, a
    prediction from another window leaves the differentiator anchored on
    that window. *)
Lemma predict_changes_differentiator :
  ForecasterAutoreg.differentiator
    (ForecasterAutoreg.predict (G := counter) differenced_forecaster 2
       (Some (of_Z <$> [1; 2; 4; 7])) None true).2
  = Some (Differentiator.Make 1 [of_Z 7])
  ∧ ForecasterAutoreg.differentiator differenced_forecaster
    = Some (Differentiator.Make 1 [of_Z 100])
  ∧ (ForecasterAutoreg.predict (G := counter) differenced_forecaster 2
       (Some (of_Z <$> [1; 2; 4; 7])) None true).2
    ≠ differenced_forecaster.
Proof.
  split; [by vm_compute|]. split; [by vm_compute|].
  intros E. apply (f_equal ForecasterAutoreg.differentiator) in E.
  vm_compute in E. discriminate.
Qed.

(** Witness of C9: no out-of-sample residuals were ever set on the fitted
    forecaster. *)
Lemma bootstrapping_without_out_sample_residuals_witness :
  ForecasterAutoreg.predict_bootstrapping (G := counter) mean_forecaster 2 None None 5 123
    false true
  = (Raise (ValueError "forecaster.out_sample_residuals_by_bin_ is None"), mean_forecaster)
  ∧ ForecasterAutoreg.predict_bootstrapping (G := counter) mean_forecaster 2 None None 5 123
      false false
    = (Raise (ValueError "forecaster.out_sample_residuals_ is None"), mean_forecaster).
Proof.
  split.
  - exact (proj2 (bootstrapping_without_out_sample_residuals (G := counter) mean_forecaster
                    2 None None 5 123 true eq_refl)).
  - exact (proj2 (bootstrapping_without_out_sample_residuals (G := counter) mean_forecaster
                    2 None None 5 123 false eq_refl)).
Defined.

(** C5 on the scenario of the spec. After the fit on [1, ..., 10] the
    fitted binner has 10 bins, [in_sample_residuals_by_bin_] has the keys
    0, 1, 3, 5, 6, 8 and 9 only, its bins sum to the 7 values of
    [in_sample_residuals_], and a prediction that falls in bin 2 makes the
    binned bootstrapping raise [KeyError]. *)
Theorem in_sample_bins_not_covered :
  Py.len (bin_edges_ (ForecasterAutoreg.binner mean_forecaster)) - 1 = 10
  ∧ Dict.keys <$> ForecasterAutoreg.in_sample_residuals_by_bin_ mean_forecaster
    = Some [0; 1; 3; 5; 6; 8; 9]
  ∧ Py.len <$> ForecasterAutoreg.in_sample_residuals_ mean_forecaster = Some 7
  ∧ (ForecasterAutoreg.predict_bootstrapping (G := counter) mean_forecaster 1
       (Some [of_Z 3; Some (7 # 2)%Q; of_Z 4]) None 3 123 true true).1
    = Raise (KeyError 2).
Proof. repeat apply conj; vm_compute; reflexivity. Qed.

(** Witness of C6, as amended: the bins of the fit on [1, ..., 10]; the
    1400 residuals set with their predictions, whose flat buffer is the
    concatenation of capped bins; and 1400 residuals set without
    predictions, of which 1000 are stored. *)
Lemma residual_caps_witness :
  (∃ d, ForecasterAutoreg.in_sample_residuals_by_bin_ mean_forecaster = Some d
        ∧ ForecasterAutoreg.bins_capped d)
  ∧ (∃ d bins,
       ForecasterAutoreg.out_sample_residuals_by_bin_
         (ForecasterAutoreg.set_out_sample_residuals (G := counter) mean_forecaster
            many_residuals (Some many_predictions) true true 123).2 = Some d
       ∧ ForecasterAutoreg.bins_capped d
       ∧ ForecasterAutoreg.out_sample_residuals_
           (ForecasterAutoreg.set_out_sample_residuals (G := counter) mean_forecaster
              many_residuals (Some many_predictions) true true 123).2
         = Some (concat (Dict.values bins))
       ∧ ForecasterAutoreg.bins_capped bins)
  ∧ ∃ flat,
      ForecasterAutoreg.set_out_sample_residuals (G := counter) mean_forecaster
        (ramp 1400) None true true 123
      = (Ok (), ForecasterAutoreg.set_out_sample_residuals_ mean_forecaster (Some flat))
      ∧ Py.len flat ≤ 1000.
Proof.
  split; [|split].
  - destruct (residual_caps (G := counter) unfitted_forecaster) as (Hfit & _).
    apply (Hfit (ramp 10) None true mean_forecaster). vm_compute. reflexivity.
  - destruct (residual_caps (G := counter) mean_forecaster) as (_ & _ & Hbins & _).
    destruct (Hbins many_residuals many_predictions true true 123
                (ForecasterAutoreg.set_out_sample_residuals (G := counter) mean_forecaster
                   many_residuals (Some many_predictions) true true 123).2)
      as (d & bins & Hd & Hcapd & Hflat & Hcap & _).
    + vm_compute. reflexivity.
    + exists d, bins. split; [exact Hd|]. split; [exact Hcapd|].
      split; [exact Hflat|exact Hcap].
  - destruct (residual_caps (G := counter) mean_forecaster) as (_ & _ & _ & Hflat).
    pose proof (Hflat (ramp 1400) true true 123) as H. cbv zeta in H.
    destruct H as (Hrun & _ & Hle).
    eexists. split; [exact Hrun|]. apply Hle. intros stored. discriminate.
Defined.

(** Counterexample to C6: set with predictions, 1400 out-of-sample
    residuals spread over 7 bins are all stored in the flat buffer, and a
    later call without predictions keeps them; the fit on [1, ..., 1103]
    stores 1100 in-sample residuals in the flat buffer. *)
Lemma flat_buffers_exceed_1000 :
  let stored :=
    ForecasterAutoreg.set_out_sample_residuals (G := counter) mean_forecaster
      many_residuals (Some many_predictions) true true 123 in
  stored.1 = Ok ()
  ∧ Py.len <$> ForecasterAutoreg.out_sample_residuals_ stored.2 = Some 1400
  ∧ Py.len <$> ForecasterAutoreg.out_sample_residuals_
                 (ForecasterAutoreg.set_out_sample_residuals (G := counter) stored.2
                    (ramp 5) None true true 123).2 = Some 1400
  ∧ Py.len <$> ForecasterAutoreg.in_sample_residuals_
                 (fitted MeanOfRow (ForecasterAutoreg.LagsInt 3) None default_binner
                    (ramp 1103)) = Some 1100.
Proof. intros stored. repeat apply conj; vm_compute; reflexivity. Qed.

(** Witness of C7, as amended. *)
Lemma binner_intervals_after_fit_witness :
  ∃ intervals,
    ForecasterAutoreg.binner_intervals mean_forecaster = Some intervals
    ∧ Dict.keys intervals = Py.range 10
    ∧ Forall (λ kv, is_Some kv.2.2) intervals.
Proof.
  destruct (binner_intervals_after_fit (G := counter) unfitted_forecaster (ramp 10) None true
              mean_forecaster)
    as (intervals & Hi & Hkeys & _ & Hsome).
  - vm_compute. reflexivity.
  - exists intervals. split; [exact Hi|]. split; [exact Hkeys|exact Hsome].
Defined.

(** Counterexample to C7: after the fit on [1, ..., 10] the last bin, 9,
    has the last edge, 8, as its upper bound, not [None]. *)
Lemma last_interval_upper_bound_is_an_edge :
  (ForecasterAutoreg.binner_intervals mean_forecaster ≫= last)
  = Some (9, (Some (37 # 5)%Q, Some (of_Z 8)))
  ∧ ¬ ∃ intervals k lo,
        ForecasterAutoreg.binner_intervals mean_forecaster = Some intervals
        ∧ last intervals = Some (k, (lo, None)).
Proof.
  split; [by vm_compute|]. intros (intervals & k & lo & Hi & Hlast).
  vm_compute in Hi. injection Hi as <-. vm_compute in Hlast. discriminate.
Qed.

End Scenarios.

(** ** Further scenarios *)

Section FurtherScenarios.
Import Concrete.

Lemma unfitted_forecaster_well_formed : ForecasterAutoreg.well_formed unfitted_forecaster.
Proof.
  split; [done|]. split; [|done].
  vm_compute. repeat (constructor; [split; discriminate|]). constructor.
Qed.

(** Witness of X1: the first training row of [1, ..., 6] holds 3, 2, 1
    and its target is 4. *)
Lemma training_rows_witness :
  ∃ X_train y_train f',
    ForecasterAutoreg.create_train_X_y mean_forecaster (ramp 6) None
    = (Ok (X_train, y_train), f')
    ∧ X_train !! 0%nat = Some (of_Z <$> [3; 2; 1])
    ∧ y_train !! 0%nat = Some (of_Z 4).
Proof.
  destruct (training_rows mean_forecaster (ramp 6) None mean_forecaster_well_formed)
    as (X & yt & f' & HX & _ & _ & Hrows).
  - reflexivity.
  - vm_compute. reflexivity.
  - intros ex. discriminate.
  - exists X, yt, f'. split; [exact HX|].
    destruct (Hrows 0) as [Hr Hy]; [vm_compute; split; [discriminate|reflexivity]|].
    split; [exact Hr|exact Hy].
Defined.

(** Witness of X2: the fit on [1, ..., 10] without in-sample residuals. *)
Lemma fit_outcome_witness :
  ForecasterAutoreg.is_fitted plain_forecaster = true
  ∧ ForecasterAutoreg.last_window_ plain_forecaster = Some (of_Z <$> [8; 9; 10])
  ∧ ForecasterAutoreg.in_sample_residuals_ plain_forecaster = None.
Proof.
  destruct (fit_outcome (G := counter) unfitted_forecaster (ramp 10) None true false
              plain_forecaster) as (H1 & _ & H3 & _ & _ & _ & _ & _ & _ & _ & H11).
  - vm_compute. reflexivity.
  - split; [exact H1|]. split; [exact H3|]. exact (proj1 (H11 eq_refl)).
Defined.

Lemma weighted_forecaster_well_formed (w : option Q) :
  ForecasterAutoreg.well_formed (weighted_forecaster w).
Proof.
  split; [done|]. split; [|done].
  vm_compute. repeat (constructor; [split; discriminate|]). constructor.
Qed.

(** Witness of X3: three values are not enough for the lags [1, 2, 3],
    ten are; with a weight of -1 on every training row the fit on ten
    values raises, with a weight of 1 it returns. *)
Lemma fit_fails_or_returns_witness :
  (∃ site,
     (ForecasterAutoreg.fit (G := counter) unfitted_forecaster (ramp 3) None true true).1
     = Raise (ValueError site))
  ∧ (ForecasterAutoreg.fit (G := counter) unfitted_forecaster (ramp 10) None true true).1
    = Ok ()
  ∧ (∃ site,
       (ForecasterAutoreg.fit (G := counter) (weighted_forecaster (of_Z (-1))) (ramp 10) None
          true true).1
       = Raise (ValueError site))
  ∧ (ForecasterAutoreg.fit (G := counter) (weighted_forecaster (of_Z 1)) (ramp 10) None
       true true).1
    = Ok ().
Proof.
  split; [|split; [|split]].
  - destruct (fit_fails_or_returns (G := counter) unfitted_forecaster (ramp 3) None true true
                unfitted_forecaster_well_formed eq_refl) as [Hfail _].
    destruct Hfail as [Hsite _]; [left; vm_compute; discriminate|]. exact Hsite.
  - destruct (fit_fails_or_returns (G := counter) unfitted_forecaster (ramp 10) None true
                true unfitted_forecaster_well_formed eq_refl) as [_ Hret].
    apply Hret; [vm_compute; reflexivity|]. intros ex. discriminate.
  - destruct (fit_fails_or_returns (G := counter) (weighted_forecaster (of_Z (-1)))
                (ramp 10) None true true (weighted_forecaster_well_formed _) eq_refl)
      as [_ Hret].
    exact (proj1 (Hret ltac:(vm_compute; reflexivity) ltac:(intros ex; discriminate))).
  - destruct (fit_fails_or_returns (G := counter) (weighted_forecaster (of_Z 1))
                (ramp 10) None true true (weighted_forecaster_well_formed _) eq_refl)
      as [_ Hret].
    exact (Hret ltac:(vm_compute; reflexivity) ltac:(intros ex; discriminate)).
Defined.

(** Witness of X4: the residuals of the fit on [1, ..., 10], whose
    predictions are 2, ..., 8. *)
Lemma binned_residuals_partition_witness :
  let y_true := of_Z <$> [4; 5; 6; 7; 8; 9; 10] in
  let y_pred := of_Z <$> [2; 3; 4; 5; 6; 7; 8] in
  let f' := (ForecasterAutoreg._binning_in_sample_residuals (G := counter)
               unfitted_forecaster y_true y_pred 123).2 in
  ∃ by_bin flat,
    ForecasterAutoreg.in_sample_residuals_by_bin_ f' = Some by_bin
    ∧ ForecasterAutoreg.in_sample_residuals_ f' = Some flat
    ∧ flat = concat (Dict.values by_bin)
    ∧ flat ≡ₚ zip_with sub y_true y_pred.
Proof.
  intros y_true y_pred f'.
  destruct (binned_residuals_partition (G := counter) unfitted_forecaster y_true y_pred 123
              f') as (by_bin & flat & _ & Hb & Hf & Hc & _ & _ & _ & _ & Hperm).
  - reflexivity.
  - vm_compute. reflexivity.
  - exists by_bin, flat. split; [exact Hb|]. split; [exact Hf|]. split; [exact Hc|].
    apply Hperm. intros k. etrans; [apply length_filter|]. vm_compute. lia.
Defined.

(** Witness of X5: two out-of-sample residuals, with predictions 2 and 5,
    set on the forecaster fitted on [1, ..., 10]. *)
Lemma out_sample_bins_cover_witness :
  let f' := (ForecasterAutoreg.set_out_sample_residuals (G := counter) mean_forecaster
               [of_Z 1; of_Z 2] (Some [of_Z 2; of_Z 5]) false false 123).2 in
  ∃ d,
    ForecasterAutoreg.out_sample_residuals_by_bin_ f' = Some d
    ∧ ∀ k, k ∈ [0; 1; 3; 5; 6; 8; 9] →
           ∃ v, Dict.get d k = Some v ∧ v ≠ [] ∧ Py.len v ≤ 200.
Proof.
  intros f'.
  destruct (out_sample_bins_cover (G := counter) mean_forecaster [of_Z 1; of_Z 2]
              [of_Z 2; of_Z 5] false false 123 f')
    as (d & in_bins & Hd & Hin & _ & Hcover & Hbins).
  - vm_compute. reflexivity.
  - exists d. split; [exact Hd|]. intros k Hk. apply Hbins, Hcover.
    injection Hin as <-. exact Hk.
Defined.

(** Witness of X6: two residuals appended to the two stored ones, and
    the same call refused once the forecaster has a transformer and
    [transform] is true. *)
Lemma out_sample_residuals_appended_witness :
  ForecasterAutoreg.out_sample_residuals_
    (ForecasterAutoreg.set_out_sample_residuals (G := counter) constant_forecaster
       [of_Z 1; of_Z 2] None true false 123).2
  = Some (of_Z <$> [0; 0; 1; 2])
  ∧ ForecasterAutoreg.set_out_sample_residuals (G := counter)
      (ForecasterAutoreg.set_transformer_y constant_forecaster (Some 1%Q))
      [of_Z 1; of_Z 2] None true true 123
    = (Raise (TypeError "array argument must be a numpy ndarray"),
       ForecasterAutoreg.set_transformer_y constant_forecaster (Some 1%Q)).
Proof.
  split.
  - destruct (out_sample_residuals_appended (G := counter) constant_forecaster
                [of_Z 1; of_Z 2] true false 123) as [_ Hplain].
    destruct (Hplain (or_introl eq_refl)) as (flat & Hrun & Hcase).
    rewrite Hrun. simpl in Hcase. destruct Hcase as (_ & _ & _ & Heq).
    rewrite Heq; [reflexivity|vm_compute; discriminate].
  - destruct (out_sample_residuals_appended (G := counter)
                (ForecasterAutoreg.set_transformer_y constant_forecaster (Some 1%Q))
                [of_Z 1; of_Z 2] true true 123) as [Hraise _].
    apply Hraise; [reflexivity|]. by eexists.
Defined.

(** Witness of X7: a window of two values for the lags [1, 2, 3]. *)
Lemma predict_unchecked_short_window_witness :
  ForecasterAutoreg.predict (G := counter) mean_forecaster 1 (Some [of_Z 1; of_Z 2]) None
    false
  = (Raise IndexError, mean_forecaster).
Proof.
  apply (predict_unchecked_short_window (G := counter) mean_forecaster 1
           (Some [of_Z 1; of_Z 2]) None [of_Z 1; of_Z 2]).
  - reflexivity.
  - lia.
  - reflexivity.
  - exists 3. split; [|vm_compute; reflexivity].
    right. right. left.
Defined.

(** Witness of X8: two steps and five iterations on in-sample residuals. *)
Lemma bootstrapping_shape_witness :
  let run := ForecasterAutoreg.predict_bootstrapping (G := counter) mean_forecaster 2 None
               None 5 123 true false in
  ∃ boot_predictions,
    run.1 = Ok boot_predictions
    ∧ Py.len boot_predictions = 2
    ∧ Forall (λ row, Py.len row = 5) boot_predictions.
Proof.
  intros run.
  set (m := match run.1 with Ok m => m | Raise _ => [] end).
  destruct (bootstrapping_shape (G := counter) mean_forecaster 2 None None 5 123 true false
              m run.2) as (_ & _ & Hrows & Hcols).
  - vm_compute. reflexivity.
  - exists m. split; [vm_compute; reflexivity|]. split; [exact Hrows|exact Hcols].
Defined.

(** Witness of X9: on the forecaster fitted without in-sample residuals,
    the three columns of the binned bootstrapping are the prediction. *)
Lemma binned_bootstrapping_without_bins_witness :
  ForecasterAutoreg.predict_bootstrapping (G := counter) plain_forecaster 2 None None 3 123
    true true
  = (Ok [replicate 3 (of_Z 9); replicate 3 (Some (28 # 3)%Q)], plain_forecaster).
Proof.
  rewrite (binned_bootstrapping_without_bins (G := counter) plain_forecaster 2 None None 3
             123); [|reflexivity|lia].
  vm_compute. reflexivity.
Defined.

(** Witness of X10: from the window [3, 7/2, 4] the first prediction falls
    in bin 2, which holds no in-sample residual. *)
Lemma binned_bootstrapping_missing_bin_witness :
  ForecasterAutoreg.predict_bootstrapping (G := counter) mean_forecaster 1
    (Some [of_Z 3; Some (7 # 2)%Q; of_Z 4]) None 3 123 true true
  = (Raise (KeyError 2), mean_forecaster).
Proof.
  destruct (ForecasterAutoreg.in_sample_residuals_by_bin_ mean_forecaster) as [d|] eqn:Ed;
    [|discriminate].
  etrans;
    [apply (binned_bootstrapping_missing_bin (G := counter) mean_forecaster 1
              (Some [of_Z 3; Some (7 # 2)%Q; of_Z 4]) None 3 123 true
              [of_Z 3; Some (7 # 2)%Q; of_Z 4] None mean_forecaster d)
    |vm_compute; reflexivity].
  - vm_compute. reflexivity.
  - exact Ed.
  - lia.
  - lia.
  - vm_compute. repeat (constructor; [split; discriminate|]). constructor.
  - intros e. discriminate.
  - injection Ed as <-. vm_compute. reflexivity.
Defined.

(** Witness of X11: two steps from the stored window. *)
Lemma predict_returns_steps_values_witness :
  let run := ForecasterAutoreg.predict (G := counter) mean_forecaster 2 None None true in
  ∃ predictions, run.1 = Ok predictions ∧ Py.len predictions = 2.
Proof.
  intros run.
  set (p := match run.1 with Ok p => p | Raise _ => [] end).
  destruct (predict_returns_steps_values (G := counter) mean_forecaster 2 None None true p
              run.2) as (_ & Hlen & _).
  - vm_compute. reflexivity.
  - exists p. split; [vm_compute; reflexivity|exact Hlen].
Defined.

(** Witness of X12: the forecaster fitted without in-sample residuals. *)
Lemma flat_bootstrapping_without_residuals_witness :
  ∃ site,
    ForecasterAutoreg.predict_bootstrapping (G := counter) plain_forecaster 2 None None 3 123
      true false
    = (Raise (ValueError site), plain_forecaster).
Proof.
  apply (flat_bootstrapping_without_residuals (G := counter) plain_forecaster 2 None None 3
           123 (of_Z <$> [8; 9; 10]) None plain_forecaster).
  - reflexivity.
  - vm_compute. reflexivity.
Defined.

(** Witness of X13: residuals equal to 0 under an estimator that always
    answers 5. *)
Lemma neutral_residuals_bootstrapping_witness :
  ForecasterAutoreg.predict_bootstrapping (G := counter) constant_forecaster 2 None None 3
    123 false false
  = (Ok [replicate 3 (of_Z 5); replicate 3 (of_Z 5)], constant_forecaster).
Proof.
  apply (neutral_residuals_bootstrapping (G := counter) constant_forecaster 2 None None 3
           123 false [of_Z 0; of_Z 0] [of_Z 5; of_Z 5] constant_forecaster).
  - reflexivity.
  - discriminate.
  - intros r X Hr. apply elem_of_cons in Hr as [->|Hr]; [reflexivity|].
    apply elem_of_cons in Hr as [->|Hr]; [reflexivity|]. by apply elem_of_nil in Hr.
  - lia.
  - vm_compute. reflexivity.
Defined.

(** Witness of X14: the forecaster fitted on [1, ..., 10], fitted again on
    a series that is too short. *)
Lemma well_formed_kept_witness :
  ForecasterAutoreg.well_formed
    (ForecasterAutoreg.fit (G := counter) mean_forecaster (ramp 2) None true true).2
  ∧ ForecasterAutoreg.well_formed
      (ForecasterAutoreg.predict_bootstrapping (G := counter) mean_forecaster 2 None None 5
         123 true true).2.
Proof.
  destruct (well_formed_kept (G := counter) mean_forecaster mean_forecaster_well_formed)
    as (Hfit & _ & Hboot & _).
  split; [apply Hfit|apply Hboot].
Defined.

(** Witness of X15: the two rows of predictors of two steps from
    [8, 9, 10]. *)
Lemma create_predict_X_rows_witness :
  ∃ X_predict,
    ForecasterAutoreg.create_predict_X (G := counter) mean_forecaster 2 None None
    = (Ok X_predict, mean_forecaster)
    ∧ X_predict !! 0%nat = Some (of_Z <$> [10; 9; 8])
    ∧ X_predict !! 1%nat = Some (of_Z <$> [9; 10; 9]).
Proof.
  destruct (create_predict_X_rows (G := counter) mean_forecaster 2 None None
              (of_Z <$> [8; 9; 10])) as (X & preds & HX & Hp & _ & _ & Hrows).
  - reflexivity.
  - reflexivity.
  - reflexivity.
  - vm_compute. reflexivity.
  - lia.
  - vm_compute. split; [reflexivity|discriminate].
  - vm_compute. repeat (constructor; [split; discriminate|]). constructor.
  - intros ex. discriminate.
  - exists X. split; [exact HX|].
    assert (preds = [of_Z 9; Some (28 # 3)%Q]) as ->.
    { vm_compute in Hp. by injection Hp as <-. }
    split.
    + etrans; [apply (Hrows 0); lia|]. vm_compute. reflexivity.
    + etrans; [apply (Hrows 1); lia|]. vm_compute. reflexivity.
Defined.

(** Witness of X16: the direct forecaster of 3 steps and lags [1, 2, 3] on
    [1, ..., 8]: the first row reads 3, 2, 1 and its targets are 4, 5, 6. *)
Lemma direct_lags_alignment_witness :
  ∃ X_data y_data,
    ForecasterAutoregMultiVariate._create_lags
      (direct_forecaster (of_Z 1) (of_Z 2) (of_Z 3)) (ramp 8) [1; 2; 3]
      (Some "both"%string) = Ok (Some X_data, Some y_data)
    ∧ Py.len X_data = 3
    ∧ X_data !! 0%nat = Some (of_Z <$> [3; 2; 1])
    ∧ y_data !! 0%nat = Some (of_Z <$> [4; 5; 6]).
Proof.
  destruct (direct_lags_alignment (direct_forecaster (of_Z 1) (of_Z 2) (of_Z 3)) (ramp 8)
              [1; 2; 3]) as (X & Y & Hrun & HX & _ & Hrows).
  - vm_compute. discriminate.
  - vm_compute. discriminate.
  - vm_compute. repeat (constructor; [split; discriminate|]). constructor.
  - vm_compute. reflexivity.
  - exists X, Y. split; [exact Hrun|]. split; [exact HX|].
    destruct (Hrows 0) as [Hx Hy]; [vm_compute; split; [discriminate|reflexivity]|].
    split; [exact Hx|exact Hy].
Defined.

(** Witness of X17: residuals for the steps 1 and 7 of the direct
    forecaster of 3 steps, on which nothing was stored. *)
Lemma direct_out_sample_residuals_witness :
  let f := direct_forecaster (of_Z 1) (of_Z 2) (of_Z 3) in
  ∃ stored',
    ForecasterAutoregMultiVariate.set_out_sample_residuals (G := counter) f
      (<[1 := [of_Z 4]]> (<[7 := [of_Z 5]]> ∅)) true false 123
    = (Ok (), ForecasterAutoregMultiVariate.with_out_sample_residuals f (Some stored'))
    ∧ stored' !! 1 = Some (Some [of_Z 4])
    ∧ stored' !! 2 = Some None
    ∧ stored' !! 7 = None.
Proof.
  intros f.
  destruct (direct_out_sample_residuals (G := counter) f
              (<[1 := [of_Z 4]]> (<[7 := [of_Z 5]]> ∅)) true false 123) as [_ Hrun].
  destruct (Hrun eq_refl None) as (stored' & Hset & _ & Hkeep & Hnew);
    [vm_compute; reflexivity|].
  exists stored'. split; [exact Hset|]. split; [|split].
  - destruct (Hnew 1 [of_Z 4]) as (value' & Hv & _ & _ & Heq);
      [vm_compute; reflexivity|vm_compute; eexists; reflexivity|].
    rewrite Hv. rewrite (Heq (or_intror eq_refl)); [reflexivity|vm_compute; discriminate].
  - rewrite (Hkeep 2); [vm_compute; reflexivity|left; vm_compute; reflexivity].
  - rewrite (Hkeep 7); [vm_compute; reflexivity|right; vm_compute; reflexivity].
Defined.

(** Witness of X18: five lags set on the forecaster fitted with three: it
    stays fitted, with its last window of three values. *)
Lemma set_lags_window_sizes_witness :
  let run := ForecasterAutoreg.set_lags mean_forecaster (ForecasterAutoreg.LagsInt 5) in
  run.1 = Ok ()
  ∧ ForecasterAutoreg.window_size_diff run.2 = 5
  ∧ ForecasterAutoreg.is_fitted run.2 = true
  ∧ ForecasterAutoreg.last_window_ run.2 = Some (of_Z <$> [8; 9; 10]).
Proof.
  intros run.
  pose proof (set_lags_window_sizes mean_forecaster (ForecasterAutoreg.LagsInt 5)
                mean_forecaster_well_formed) as H.
  destruct H as (Hok & _ & _ & _ & _ & Hw & Hfit & Hlw & _).
  split; [exact Hok|]. split; [exact Hw|]. split; [exact Hfit|exact Hlw].
Defined.

(** Witness of X19: [__init__] with the lags [1, 2, 3]. *)
Lemma init_well_formed_witness :
  ForecasterAutoreg.init MeanOfRow (ForecasterAutoreg.LagsList [1; 2; 3]) None None None
    default_binner None = Ok unfitted_forecaster
  ∧ ForecasterAutoreg.well_formed unfitted_forecaster.
Proof.
  split; [reflexivity|].
  exact (proj1 (init_well_formed (V := option Q) (T := shift) MeanOfRow
                  (ForecasterAutoreg.LagsList [1; 2; 3]) None None None default_binner
                  None)).
Defined.

(** Witness of X20: no out-of-sample residuals were set on the direct
    forecaster. *)
Lemma direct_bootstrapping_residual_checks_witness :
  ∃ site,
    ForecasterAutoregMultiVariate.predict_bootstrapping (G := counter)
      (direct_forecaster (of_Z 1) (of_Z 2) (of_Z 3)) (StepsList [3; 1]) None None 4 123 false
    = Raise (ValueError site).
Proof.
  destruct (direct_bootstrapping_residual_checks (G := counter)
              (direct_forecaster (of_Z 1) (of_Z 2) (of_Z 3)) (StepsList [3; 1]) None None 4
              123 false) as [Hraise _].
  apply Hraise; [reflexivity|]. intros (pool & Hpool & _). discriminate.
Defined.

End FurtherScenarios.
